(** * KYC Agent CLI: the interactive session controller of [kyc_cli.py]

    A shallow embedding of [KYCAgentCLI] (command dispatch, the streamed
    response loop of [query_agent], the document listing and the main loop
    of [run]) together with the properties of its specification.

    Python strings are sequences of Unicode code points; console output and
    calls to the remote agent are recorded, in order, in a trace of events;
    everything the outside world decides (what the user types, what the
    agent streams back, what the file system contains) is an explicit
    input of the functions.

    [console.print] parses the strings it is given as console markup and
    raises [MarkupError] on a closing tag that matches no open one.  Where
    the printed string splices in text the program does not control (the
    [str] of an exception, a tool name, input or result, a file name), the
    call can therefore raise; which strings are refused is a parameter of
    the development ([markup_error]).  The event [ConsolePrint r] records
    that [console.print] was called with [r].

    The coroutine [run] is driven by [asyncio.run].  Since Python 3.11 its
    runner handles the first SIGINT by cancelling the main task, so that
    [CancelledError] is raised at the [await] the task is suspended at or
    reaches next; [KeyboardInterrupt] is raised inside the running code
    only from the second SIGINT on (or, before 3.11, from the first).  Both
    are possible outcomes of a call into the outside world. *)

From Stdlib Require Import List NArith ZArith Bool Lia String Ascii.
Import ListNotations.

Set Implicit Arguments.

(** ** Python strings *)

Module PyStr.

(** A [str] is a sequence of code points. *)
Definition pystr := list N.

(** An ASCII literal of the source. *)
Definition lit (s : string) : pystr :=
  List.map N_of_ascii (list_ascii_of_string s).

Definition eqb (a b : pystr) : bool :=
  if list_eq_dec N.eq_dec a b then true else false.

(** [str.isspace] on one code point (the white-space table of CPython). *)
Definition isspace (c : N) : bool :=
  ((9 <=? c) && (c <=? 13) || (28 <=? c) && (c <=? 32)
   || (c =? 133) || (c =? 160) || (c =? 5760)
   || (8192 <=? c) && (c <=? 8202)
   || (c =? 8232) || (c =? 8233) || (c =? 8239) || (c =? 8287)
   || (c =? 12288))%N.

Fixpoint lstrip (s : pystr) : pystr :=
  match s with
  | [] => []
  | c :: r => if isspace c then lstrip r else s
  end.

Definition rstrip (s : pystr) : pystr := rev (lstrip (rev s)).

(** [s.strip()] *)
Definition strip (s : pystr) : pystr := rstrip (lstrip s).

(** [s.startswith(p)] *)
Fixpoint startswith (s p : pystr) : bool :=
  match p, s with
  | [], _ => true
  | _ :: _, [] => false
  | a :: p', b :: s' => (a =? b)%N && startswith s' p'
  end.

(** [needle in hay] *)
Fixpoint contains (needle hay : pystr) : bool :=
  startswith hay needle ||
  match hay with
  | [] => false
  | _ :: hay' => contains needle hay'
  end.

(** [s[:n]] for a non-negative [n]. *)
Definition slice_to (n : nat) (s : pystr) : pystr := firstn n s.

(** [len(s)] *)
Definition len (s : pystr) : nat := List.length s.

(** Truthiness of a string: [if s:] *)
Definition truthy (s : pystr) : bool :=
  match s with [] => false | _ :: _ => true end.

(** [str(n)] for a non-negative integer: its decimal digits. *)
Fixpoint digits (u : Decimal.uint) : pystr :=
  match u with
  | Decimal.Nil => []
  | Decimal.D0 r => 48%N :: digits r
  | Decimal.D1 r => 49%N :: digits r
  | Decimal.D2 r => 50%N :: digits r
  | Decimal.D3 r => 51%N :: digits r
  | Decimal.D4 r => 52%N :: digits r
  | Decimal.D5 r => 53%N :: digits r
  | Decimal.D6 r => 54%N :: digits r
  | Decimal.D7 r => 55%N :: digits r
  | Decimal.D8 r => 56%N :: digits r
  | Decimal.D9 r => 57%N :: digits r
  end.

Definition str_of_N (n : N) : pystr := digits (N.to_uint n).

End PyStr.
Import PyStr.

(** ** Python floats, as far as ["%.1f"] of a quotient needs them *)

Module PyFloat.

(** The float nearest to a non-negative integer: [n] itself up to 53
    significant bits, beyond that the nearest integer with 53 significant
    bits, ties to the even significand. *)
Definition round53 (n : N) : N :=
  let bits := N.size n in
  if (bits <=? 53)%N then n
  else
    let sh := (bits - 53)%N in
    let q := N.shiftr n sh in
    let r := (n - N.shiftl q sh)%N in
    let half := N.shiftl 1 (sh - 1) in
    let q' := if (half <? r)%N || (r =? half)%N && N.odd q
              then (q + 1)%N else q in
    N.shiftl q' sh.

(** The integer nearest to [a / b], ties to even. *)
Definition round_half_even (a b : N) : N :=
  let q := (a / b)%N in
  let r := (a mod b)%N in
  if (b <? 2 * r)%N || (2 * r =? b)%N && N.odd q then (q + 1)%N else q.

(** [n / d] for integers [n >= 0] and [d = 2**k]: true division gives the
    float nearest to the quotient, which is [round53 n / d] exactly.  The
    value is kept as its number of tenths once formatted: [tenths n d] is
    the [t] such that [f"{n / d:.1f}"] shows [t / 10]. *)
Definition tenths (n d : N) : N := round_half_even (10 * round53 n) d.

(** [f"{n / d:.1f}"] *)
Definition format_1f (n d : N) : pystr :=
  let t := tenths n d in
  str_of_N (t / 10) ++ lit "." ++ str_of_N (t mod 10).

End PyFloat.
Import PyFloat.

(** ** Messages of the agent SDK, as [query_agent] inspects them *)

Inductive block :=
| TextBlock (text : pystr)
| ToolUseBlock (name : pystr) (input : pystr)
    (** [input] is the text [f"{block.input}"] shows *)
| ToolResultBlock (content : pystr)
    (** [content] is [str(block.content)] *)
| ThinkingBlock (thinking : pystr).

Inductive message :=
| AssistantMessage (content : list block)
| OtherMessage (content : list block)
    (** any message that is not an [AssistantMessage], with the blocks it carries *).

(** What a call into the outside world does: it returns; it is interrupted
    ([KeyboardInterrupt] is raised in it); the task is cancelled at it
    ([CancelledError], after the runner of [asyncio.run] handled a SIGINT);
    or it raises an [Exception] whose [str] is [msg]. *)
Inductive outcome (A : Type) :=
| Ok (a : A)
| Interrupt
| Cancelled
| Fails (msg : pystr).
Arguments Interrupt {A}.
Arguments Cancelled {A}.
Arguments Fails {A} msg.

(** The behaviour of the agent for one query: [agent.query] returns or
    raises; [receive_response] yields [stream] and then either signals
    completion ([Ok tt]) or raises. *)
Record response := {
  query_outcome : outcome unit;
  stream : list message;
  ending : outcome unit
}.

(** ** Traces *)

(** The f-string of lines 269-303: the fixed rule text with [question]
    spliced in after its first line. *)
Inductive prompt := EnhancedPrompt (question : pystr).

Record row := {
  row_index : pystr;
  row_name : pystr;
  row_size : pystr;
  row_parent : pystr
}.

(** What [console.print] is given.  [InitOkPanel] and [StatusPanel] also
    show the path of the documents directory, which is fixed by where the
    program is installed and is taken to be free of markup. *)
Inductive rendering :=
| MissingKeyError | MissingKeyHint
| InitOkPanel | InitFailed (e : pystr)
| Welcome | StartBanner
| CommandsTable | BlankLine | ExamplesTable
| StatusPanel (active : bool)
| Scanning | NoDocuments
| DocTable (count : nat) (rows : list row)
| ListFailed (e : pystr)
| Goodbye
| DebugStatus (on : bool) | DebugHint
| Processing
| ToolUsePanel (number : N) (name input : pystr)
| ToolResultPanel (number : N) (preview : pystr)
| AnswerPanel (text : pystr)
| NoTextNotice
| ToolStats (count : N)
| OversizedAdvice
| QueryFailed (error_msg : pystr) | QueryFailedHint
| InterruptHint
| LoopError (e : pystr)
| Disconnecting | DisconnectedNotice.

Inductive event :=
| ConsolePrint (r : rendering)
| MainPrompt          (** [Prompt.ask] of the main loop *)
| ConfirmPrompt       (** [Prompt.ask("...", choices=["y", "n"], default="n")] *)
| AgentConnect
| AgentQuery (p : prompt)
| AgentDisconnect
| ClearScreen.

Definition trace := list event.

(** ** The state of a [KYCAgentCLI] object *)

Record cli := {
  agent : bool;             (** [self.agent] is a client (not [None]) *)
  session_active : bool;
  show_react_steps : bool
}.

(** [__init__] *)
Definition init : cli :=
  {| agent := false; session_active := false; show_react_steps := false |}.

(** ** Computations: state, trace and exceptions *)

(** [CancelledError] derives from [BaseException]: no [except Exception]
    and no [except KeyboardInterrupt] clause catches it. *)
Inductive exn :=
| Exception (msg : pystr)
| KeyboardInterrupt
| CancelledError
| SystemExit (code : Z).

Inductive result (A : Type) :=
| Returned (a : A)
| Raised (e : exn)
| Pending  (** suspended at a prompt no scripted input answers *).
Arguments Raised {A} e.
Arguments Pending {A}.

Definition M (A : Type) : Type := cli -> trace * cli * result A.

Definition ret {A} (a : A) : M A := fun s => ([], s, Returned a).

Definition bind {A B} (m : M A) (f : A -> M B) : M B :=
  fun s =>
    match m s with
    | (t, s', Returned a) =>
        match f a s' with (t', s'', r) => (t ++ t', s'', r) end
    | (t, s', Raised e) => (t, s', Raised e)
    | (t, s', Pending) => (t, s', Pending)
    end.

Declare Scope py_scope.
Delimit Scope py_scope with py.
Notation "x <- m ;; k" := (bind m (fun x => k))
  (at level 61, m at next level, right associativity) : py_scope.
Notation "m ;; k" := (bind m (fun _ => k))
  (at level 61, right associativity) : py_scope.
Open Scope py_scope.

Definition emit (e : event) : M unit := fun s => ([e], s, Returned tt).
Definition raise {A} (e : exn) : M A := fun s => ([], s, Raised e).
Definition get : M cli := fun s => ([], s, Returned s).
Definition put (s : cli) : M unit := fun _ => ([], s, Returned tt).

(** The result of a call into the outside world. *)
Definition external {A} (o : outcome A) : M A :=
  match o with
  | Ok a => ret a
  | Interrupt => raise KeyboardInterrupt
  | Cancelled => raise CancelledError
  | Fails msg => raise (Exception msg)
  end.

(** [try: body  except ...: handler], where [handler e] is [None] when no
    clause matches [e]. *)
Definition try_except {A} (body : M A) (handler : exn -> option (M A)) : M A :=
  fun s =>
    match body s with
    | (t, s', Raised e) =>
        match handler e with
        | Some h => match h s' with (t', s'', r) => (t ++ t', s'', r) end
        | None => (t, s', Raised e)
        end
    | other => other
    end.

(** [try: body  finally: cleanup] *)
Definition try_finally {A} (body : M A) (cleanup : M unit) : M A :=
  fun s =>
    match body s with
    | (t, s', Pending) => (t, s', Pending)
    | (t, s', r) =>
        match cleanup s' with
        | (t', s'', Returned _) => (t ++ t', s'', r)
        | (t', s'', Raised e) => (t ++ t', s'', Raised e)
        | (t', s'', Pending) => (t ++ t', s'', Pending)
        end
    end.

(** No scripted input is left for the prompt about to be shown. *)
Definition suspend {A} : M A := fun s => ([], s, Pending).

(** ** Data of [query_agent] *)

(** The local variables of the response loop. *)
Record locals := {
  response_text : pystr;
  tool_use_count : N
}.

(** Lines 309-310. *)
Definition fresh_locals : locals :=
  {| response_text := []; tool_use_count := 0 |}.

Definition ellipsis : pystr := lit "...".

(** Lines 334-336. *)
Definition result_preview (content : pystr) : pystr :=
  if Nat.ltb 200 (len content) then slice_to 200 content ++ ellipsis
  else content.

Definition oversized_signature_1 : pystr := lit "exceeded maximum buffer size".
Definition oversized_signature_2 : pystr := lit "JSON message exceeded".

(** ** Data of [list_documents] *)

(** Lines 209-214. *)
Definition format_size (size : N) : pystr :=
  if (size <? 1024)%N then str_of_N size ++ lit " B"
  else if (size <? 1024 * 1024)%N then format_1f size 1024 ++ lit " KB"
  else format_1f size (1024 * 1024) ++ lit " MB".

(** One path found by [rglob("*")] under the documents directory. *)
Record path_entry := {
  is_file : bool;
  name : pystr;
  stat_size : outcome N;      (** [file.stat().st_size] *)
  rel_parent : pystr          (** [str(file.relative_to(root).parent)] *)
}.

(** Line 195. *)
Definition listed (f : path_entry) : bool :=
  is_file f && negb (startswith (name f) (lit ".")).

(** Lines 207-217, [idx] being the number of the first row. *)
Fixpoint table_rows (idx : N) (files : list path_entry) : M (list row) :=
  match files with
  | [] => ret []
  | file :: files' =>
      size <- external (stat_size file) ;;
      rows <- table_rows (idx + 1) files' ;;
      ret ({| row_index := str_of_N idx;
              row_name := name file;
              row_size := format_size size;
              row_parent := rel_parent file |} :: rows)
  end.

(** ** Data of [process_command] and [run] *)

Inductive choice := Yes | No.

(** What the outside world does during one iteration of the main loop. *)
Record turn := {
  typed : outcome pystr;              (** the main [Prompt.ask] *)
  reply : response;                   (** the agent, if it is queried *)
  rglob : outcome (list path_entry);  (** the documents, if they are listed *)
  confirm : outcome choice            (** the confirmation [Prompt.ask] *)
}.

Definition quit_tokens : list pystr := [lit "/quit"; lit "/exit"; lit "/q"].

(** What the outside world decides once per process. *)
Record environment := {
  api_key : option pystr;       (** [os.getenv("ANTHROPIC_API_KEY")] *)
  connect : outcome unit;       (** [agent.connect()] *)
  disconnect : outcome unit     (** [agent.disconnect()] *)
}.

(** How the process ends. *)
Inductive termination :=
| Exit (status : Z)
| Interrupted      (** [asyncio.run] raises [KeyboardInterrupt] *)
| Running          (** still waiting for input *).

(** ** Specification-side definitions *)

Definition block_text (b : block) : pystr :=
  match b with TextBlock text => text | _ => [] end.

(** The texts of the Text blocks of [bs], joined in order. *)
Definition texts (bs : list block) : pystr := List.concat (map block_text bs).

(** The blocks the loop looks at: those of the assistant messages. *)
Definition assistant_blocks (ms : list message) : list block :=
  flat_map (fun m => match m with
                     | AssistantMessage content => content
                     | OtherMessage _ => []
                     end) ms.

Definition is_tool_use (b : block) : bool :=
  match b with ToolUseBlock _ _ => true | _ => false end.

Definition tool_uses (bs : list block) : N :=
  N.of_nat (List.length (filter is_tool_use bs)).

(** The panels of debug mode for [bs], the counter being [n] before. *)
Fixpoint panels (n : N) (bs : list block) : trace :=
  match bs with
  | [] => []
  | ToolUseBlock name input :: bs' =>
      ConsolePrint (ToolUsePanel (n + 1) name input) :: panels (n + 1) bs'
  | ToolResultBlock content :: bs' =>
      ConsolePrint (ToolResultPanel n (result_preview content)) :: panels n bs'
  | _ :: bs' => panels n bs'
  end.

(** What [console.print] shows once the stream has completed. *)
Definition answer_event (text : pystr) : event :=
  ConsolePrint (if truthy text then AnswerPanel text else NoTextNotice).

Definition stream_trace (s : cli) (ms : list message) : trace :=
  if show_react_steps s then panels 0 (assistant_blocks ms) else [].

Definition final_count (s : cli) (ms : list message) : N :=
  if show_react_steps s then tool_uses (assistant_blocks ms) else 0%N.

Definition stats_trace (s : cli) (ms : list message) : trace :=
  if show_react_steps s && (0 <? final_count s ms)%N
  then [ConsolePrint (ToolStats (final_count s ms))] else [].

Definition query_start (question : pystr) : trace :=
  [ConsolePrint Processing; AgentQuery (EnhancedPrompt question)].

(** Prefixing the trace of a run. *)
Definition prepend {A} (t : trace) (x : trace * cli * result A)
  : trace * cli * result A :=
  match x with (t', s, r) => (t ++ t', s, r) end.

(** The answer renderings of a trace, in order. *)
Definition is_answer (e : event) : bool :=
  match e with
  | ConsolePrint (AnswerPanel _) | ConsolePrint NoTextNotice => true
  | _ => false
  end.

Definition answers (t : trace) : trace := filter is_answer t.

(** The texts of the Text blocks of [bs], in arrival order. *)
Definition text_list (bs : list block) : list pystr :=
  flat_map (fun b => match b with TextBlock text => [text] | _ => [] end) bs.

(** The tool panels of a trace. *)
Definition is_tool_panel (e : event) : bool :=
  match e with
  | ConsolePrint (ToolUsePanel _ _ _) | ConsolePrint (ToolResultPanel _ _) => true
  | _ => false
  end.

Definition is_assistant (m : message) : bool :=
  match m with AssistantMessage _ => true | OtherMessage _ => false end.

(** [needle] occurs in [hay]. *)
Definition occurs (needle hay : pystr) : Prop :=
  exists pre post, hay = pre ++ needle ++ post.

(** The words of the specification, to compare the code with. *)
Module Spec.

(** The closed set of local commands. *)
Inductive command := Help | ListDocuments | Status | ToggleDebug | Clear | Quit.

Inductive dispatched :=
| NoOp
| Local (c : command)
| FreeTextQuery (query : pystr).

(** The recognized tokens. *)
Definition tokens : list (pystr * command) :=
  [(lit "/help", Help); (lit "/list", ListDocuments); (lit "/status", Status);
   (lit "/debug", ToggleDebug); (lit "/clear", Clear);
   (lit "/quit", Quit); (lit "/exit", Quit); (lit "/q", Quit)].

(** Exact string equality against the tokens. *)
Definition recognise (line : pystr) : option command :=
  option_map snd (find (fun p => eqb (fst p) line) tokens).

(** The dispatcher on a trimmed line. *)
Definition dispatch (line : pystr) : dispatched :=
  match line with
  | [] => NoOp
  | _ :: _ =>
      match recognise line with
      | Some c => Local c
      | None => FreeTextQuery line
      end
  end.

(** Every block of every message of a stream. *)
Definition all_blocks (ms : list message) : list block :=
  flat_map (fun m => match m with
                     | AssistantMessage content => content
                     | OtherMessage content => content
                     end) ms.

(** The concatenation of the text of every Text block across all messages. *)
Definition all_text (ms : list message) : pystr :=
  List.concat (text_list (all_blocks ms)).

End Spec.

Definition is_disconnect (e : event) : bool :=
  match e with AgentDisconnect => true | _ => false end.

Definition is_connect (e : event) : bool :=
  match e with AgentConnect => true | _ => false end.

Definition is_confirm_prompt (e : event) : bool :=
  match e with ConfirmPrompt => true | _ => false end.

(** An interactive prompt. *)
Definition is_prompt (e : event) : bool :=
  match e with MainPrompt | ConfirmPrompt => true | _ => false end.

Definition count (p : event -> bool) (t : trace) : nat :=
  List.length (filter p t).

(** A computation that neither disconnects the agent nor changes what
    [run] tests before disconnecting, and that does not wait for input the
    script lacks. *)
Definition keeps_session {A} (m : M A) : Prop :=
  forall s,
    match m s with
    | (t, s', r) =>
        count is_disconnect t = 0 /\
        agent s' = agent s /\ session_active s' = session_active s /\
        r <> Pending
    end.

(** The agent accepts the query and streams [ms] to completion. *)
Definition completed (ms : list message) : response :=
  {| query_outcome := Ok tt; stream := ms; ending := Ok tt |}.

(** The agent accepts the query; the stream ends as [e] says. *)
Definition streamed (ms : list message) (e : outcome unit) : response :=
  {| query_outcome := Ok tt; stream := ms; ending := e |}.

(** Inputs the statements are tried on. *)
Module Demo.

Definition connected (debug : bool) : cli :=
  {| agent := true; session_active := true; show_react_steps := debug |}.

(** Text "A", a tool call, a tool result of 300 characters, text "B". *)
Definition blocks : list block :=
  [TextBlock (lit "A"); ToolUseBlock (lit "x") (lit "{}");
   ToolResultBlock (repeat 121%N 300); TextBlock (lit "B")].

Definition answered : response := completed [AssistantMessage blocks].

(** The stream raises after its first message. *)
Definition broken (msg : pystr) : response :=
  {| query_outcome := Ok tt;
     stream := [AssistantMessage blocks];
     ending := Fails msg |}.

(** A Text block carried by a message that is not an assistant message. *)
Definition echoed : response := completed [OtherMessage [TextBlock (lit "x")]].

Definition says (line : string) (r : response) : turn :=
  {| typed := Ok (lit line); reply := r; rglob := Ok []; confirm := Ok No |}.

Definition interrupts (c : outcome choice) : turn :=
  {| typed := Interrupt; reply := answered; rglob := Ok []; confirm := c |}.

Definition ready : environment :=
  {| api_key := Some (lit "sk-test"); connect := Ok tt; disconnect := Ok tt |}.

Definition document (file_name : string) (size : N) : path_entry :=
  {| is_file := true; name := lit file_name; stat_size := Ok size;
     rel_parent := lit "." |}.

(** [agent.query] raises an exception whose description holds a closing
    tag. *)
Definition refused : response :=
  {| query_outcome := Fails (lit "unexpected token [/INST]");
     stream := []; ending := Ok tt |}.

(** The task is cancelled at [agent.query]. *)
Definition cancelled : response :=
  {| query_outcome := Cancelled; stream := []; ending := Ok tt |}.

(** The description of the error for the closing tag [[/INST]]. *)
Definition unmatched : pystr :=
  lit "closing tag '[/INST]' doesn't match any open tag".

(** A console that refuses the strings containing the closing tag
    [[/INST]] and reports it the way [MarkupError] does. *)
Definition spliced (r : rendering) : list pystr :=
  match r with
  | InitFailed e | ListFailed e | QueryFailed e | LoopError e => [e]
  | ToolUsePanel _ name input => [name; input]
  | ToolResultPanel _ preview => [preview]
  | DocTable _ rows =>
      flat_map (fun x => [row_name x; row_parent x]) rows
  | _ => []
  end.

Definition console (r : rendering) : option pystr :=
  if existsb (contains (lit "[/INST]")) (spliced r)
  then Some unmatched else None.

End Demo.

(** The state [initialize_agent] leaves a new [KYCAgentCLI] in. *)
Definition started : cli :=
  {| agent := true; session_active := true; show_react_steps := false |}.

(** What [run] does before the loop when the agent connects. *)
Definition startup_trace : trace :=
  [ConsolePrint Welcome; AgentConnect; ConsolePrint InitOkPanel;
   ConsolePrint StartBanner].

(** What [release] does after [agent.disconnect()] was called. *)
Definition after_disconnect (d : outcome unit) : trace :=
  match d with Ok _ => [ConsolePrint DisconnectedNotice] | _ => [] end.

(** The size [stat] reports for a file it succeeds on. *)
Definition size_of (f : path_entry) : N :=
  match stat_size f with Ok n => n | _ => 0%N end.

Definition stat_succeeds (f : path_entry) : Prop :=
  exists n, stat_size f = Ok n.

(** The rows of the table for [files], numbered from [idx]. *)
Fixpoint numbered_rows (idx : N) (files : list path_entry) : list row :=
  match files with
  | [] => []
  | f :: files' =>
      {| row_index := str_of_N idx;
         row_name := name f;
         row_size := format_size (size_of f);
         row_parent := rel_parent f |} :: numbered_rows (idx + 1) files'
  end.

(** [t] is a nearest integer to [a / b]. *)
Definition nearest (a b t : N) : Prop :=
  (2 * (t * b) <= 2 * a + b /\ 2 * a <= 2 * (t * b) + b)%N.

(** One decimal: the integer part, a point, one digit. *)
Definition one_decimal (t : N) : pystr :=
  str_of_N (t / 10) ++ lit "." ++ str_of_N (t mod 10).

(** Three documents of 500, 2048 and 1048576 bytes and a hidden file. *)
Definition three_documents : list path_entry :=
  [Demo.document "a.txt" 500; Demo.document ".hidden" 7;
   Demo.document "b.csv" 2048; Demo.document "c.pdf" 1048576].

(** ** Definitions for the further properties *)

(** [s] is all white space. *)
Definition blank (s : pystr) : bool := forallb isspace s.

(** [s] neither starts nor ends with white space. *)
Definition trimmed (s : pystr) : bool :=
  match s with
  | [] => true
  | c :: _ => negb (isspace c) && negb (isspace (last s c))
  end.

Definition is_query (e : event) : bool :=
  match e with AgentQuery _ => true | _ => false end.

(** The object after [/debug]. *)
Definition toggled (s : cli) : cli :=
  {| agent := agent s; session_active := session_active s;
     show_react_steps := negb (show_react_steps s) |}.

(** Every event of [t] is a [console.print]. *)
Definition printed (t : trace) : Prop :=
  Forall (fun e => exists r, e = ConsolePrint r) t.

(** The numbers in the titles of the tool-call panels of a trace. *)
Definition tool_use_numbers (t : trace) : list N :=
  flat_map (fun e => match e with
                     | ConsolePrint (ToolUsePanel n _ _) => [n]
                     | _ => []
                     end) t.

(** What a command may print or do, [active] being [session_active]: the
    status panel tells the truth, and nothing of the start, the prompts,
    the interrupt handler or the end of [run] appears. *)
Definition command_event (active : bool) (e : event) : bool :=
  match e with
  | ConsolePrint r =>
      match r with
      | StatusPanel b => Bool.eqb b active
      | MissingKeyError | MissingKeyHint | InitOkPanel | InitFailed _
      | Welcome | StartBanner | InterruptHint | LoopError _
      | Disconnecting | DisconnectedNotice => false
      | _ => true
      end
  | AgentQuery _ | ClearScreen => true
  | MainPrompt | ConfirmPrompt | AgentConnect | AgentDisconnect => false
  end.

(** What an iteration of the loop may print or do. *)
Definition loop_event (active : bool) (e : event) : bool :=
  command_event active e
  || match e with
     | MainPrompt | ConfirmPrompt
     | ConsolePrint InterruptHint | ConsolePrint (LoopError _) => true
     | _ => false
     end.

(** [m] emits only events that are [good] for the session it runs in, and
    leaves [session_active] as it is. *)
Definition emits_only (good : bool -> event -> bool) {A} (m : M A) : Prop :=
  forall s,
    match m s with
    | (t, s', _) =>
        forallb (good (session_active s)) t = true /\
        session_active s' = session_active s
    end.

(** The turn is a [/debug] command. *)
Definition is_debug_turn (w : turn) : bool :=
  match typed w with
  | Ok line => eqb (strip line) (lit "/debug")
  | _ => false
  end.

(** The number of [/debug] commands of a script. *)
Definition debug_commands (script : list turn) : nat :=
  List.length (filter is_debug_turn script).

(** ** The program

    [markup_error r] is [Some msg] when the console refuses the markup of
    [r], [msg] being the [str] of the [MarkupError]. *)

Section Console.

Variable markup_error : rendering -> option pystr.

(** The renderings whose markup contains text the program does not
    control (lines 81, 201-221, 322-345, 373 and 412); every other string
    is a constant of the program, a number or the documents path. *)
Definition print_error (r : rendering) : option pystr :=
  match r with
  | InitFailed _ | DocTable _ _ | ListFailed _
  | ToolUsePanel _ _ _ | ToolResultPanel _ _
  | QueryFailed _ | LoopError _ => markup_error r
  | _ => None
  end.

(** [console.print(r)]. *)
Definition console_print (r : rendering) : M unit :=
  emit (ConsolePrint r) ;;
  match print_error r with
  | Some msg => raise (Exception msg)
  | None => ret tt
  end.

(** ** [query_agent] *)

(** Lines 316-345: one block of an assistant message. *)
Definition process_block (l : locals) (b : block) : M locals :=
  match b with
  | TextBlock text =>
      ret {| response_text := response_text l ++ text;
             tool_use_count := tool_use_count l |}
  | ToolUseBlock name input =>
      s <- get ;;
      if show_react_steps s then
        let n := (tool_use_count l + 1)%N in
        console_print (ToolUsePanel n name input) ;;
        ret {| response_text := response_text l; tool_use_count := n |}
      else ret l
  | ToolResultBlock content =>
      s <- get ;;
      if show_react_steps s then
        console_print (ToolResultPanel (tool_use_count l) (result_preview content)) ;;
        ret l
      else ret l
  | ThinkingBlock _ => ret l
  end.

Fixpoint process_blocks (l : locals) (bs : list block) : M locals :=
  match bs with
  | [] => ret l
  | b :: bs' => l' <- process_block l b ;; process_blocks l' bs'
  end.

(** Lines 313-314. *)
Definition process_message (l : locals) (m : message) : M locals :=
  match m with
  | AssistantMessage content => process_blocks l content
  | OtherMessage _ => ret l
  end.

(** Line 312: the messages [receive_response] yields before it ends. *)
Fixpoint consume (l : locals) (ms : list message) : M locals :=
  match ms with
  | [] => ret l
  | m :: ms' => l' <- process_message l m ;; consume l' ms'
  end.

(** Lines 348-359. *)
Definition render_answer (l : locals) : M unit :=
  (if truthy (response_text l) then console_print (AnswerPanel (response_text l))
   else console_print NoTextNotice) ;;
  s <- get ;;
  if show_react_steps s && (0 <? tool_use_count l)%N
  then console_print (ToolStats (tool_use_count l))
  else ret tt.

(** Lines 266-359, the body of the [try]; the final locals are returned
    for the statements about them. *)
Definition query_agent_body (question : pystr) (r : response) : M locals :=
  console_print Processing ;;
  emit (AgentQuery (EnhancedPrompt question)) ;;
  external (query_outcome r) ;;
  l <- consume fresh_locals (stream r) ;;
  external (ending r) ;;
  render_answer l ;;
  ret l.

(** Lines 362-374. *)
Definition report_failure (error_msg : pystr) : M unit :=
  if contains oversized_signature_1 error_msg
     || contains oversized_signature_2 error_msg
  then console_print OversizedAdvice
  else console_print (QueryFailed error_msg) ;; console_print QueryFailedHint.

Definition query_agent (question : pystr) (r : response) : M unit :=
  try_except (query_agent_body question r ;; ret tt)
    (fun e => match e with
              | Exception msg => Some (report_failure msg)
              | _ => None
              end).

(** ** [list_documents] *)

Definition list_documents (rglob : outcome (list path_entry)) : M unit :=
  console_print Scanning ;;
  try_except
    (all_files <- external rglob ;;
     let files := filter listed all_files in
     match files with
     | [] => console_print NoDocuments
     | _ :: _ =>
         rows <- table_rows 1 files ;;
         console_print (DocTable (List.length files) rows)
     end)
    (fun e => match e with
              | Exception msg => Some (console_print (ListFailed msg))
              | _ => None
              end).

(** ** [process_command] *)

Definition show_help : M unit :=
  console_print CommandsTable ;; console_print BlankLine ;;
  console_print ExamplesTable.

Definition show_status : M unit :=
  s <- get ;; console_print (StatusPanel (session_active s)).

Definition toggle_debug : M unit :=
  s <- get ;;
  let flag := negb (show_react_steps s) in
  put {| agent := agent s; session_active := session_active s;
         show_react_steps := flag |} ;;
  console_print (DebugStatus flag) ;;
  if flag then console_print DebugHint else ret tt.

(** Lines 223-261; the result is the boolean the method returns. *)
Definition process_command (user_input : pystr) (w : turn) : M bool :=
  let user_input := strip user_input in
  if negb (truthy user_input) then ret true
  else if existsb (eqb user_input) quit_tokens then
    console_print Goodbye ;; ret false
  else if eqb user_input (lit "/help") then show_help ;; ret true
  else if eqb user_input (lit "/list") then list_documents (rglob w) ;; ret true
  else if eqb user_input (lit "/status") then show_status ;; ret true
  else if eqb user_input (lit "/debug") then toggle_debug ;; ret true
  else if eqb user_input (lit "/clear") then emit ClearScreen ;; ret true
  else query_agent user_input (reply w) ;; ret true.

(** ** [run] *)

(** Lines 43-54. *)
Definition check_api_key (key : option pystr) : M bool :=
  if match key with Some k => truthy k | None => false end then ret true
  else console_print MissingKeyError ;; console_print MissingKeyHint ;;
       ret false.

(** Lines 56-82. *)
Definition initialize_agent (c : outcome unit) : M unit :=
  try_except
    (s <- get ;;
     put {| agent := true; session_active := session_active s;
            show_react_steps := show_react_steps s |} ;;
     emit AgentConnect ;;
     external c ;;
     s <- get ;;
     put {| agent := agent s; session_active := true;
            show_react_steps := show_react_steps s |} ;;
     console_print InitOkPanel)
    (fun e => match e with
              | Exception msg =>
                  Some (console_print (InitFailed msg) ;; raise (SystemExit 1))
              | _ => None
              end).

(** Lines 402-410: the handler of [KeyboardInterrupt]; [false] is [break]. *)
Definition confirm_exit (c : outcome choice) : M bool :=
  console_print InterruptHint ;;
  try_except
    (emit ConfirmPrompt ;;
     answer <- external c ;;
     match answer with Yes => ret false | No => ret true end)
    (fun e => match e with
              | KeyboardInterrupt => Some (console_print Goodbye ;; ret false)
              | _ => None
              end).

(** Lines 393-412: one iteration of [while True]; [false] is [break]. *)
Definition iteration (w : turn) : M bool :=
  try_except
    (emit MainPrompt ;;
     user_input <- external (typed w) ;;
     process_command user_input w)
    (fun e => match e with
              | KeyboardInterrupt => Some (confirm_exit (confirm w))
              | Exception msg => Some (console_print (LoopError msg) ;; ret true)
              | CancelledError | SystemExit _ => None
              end).

(** Line 392, along a script of turns; when the script is used up the loop
    is about to wait at its prompt. *)
Fixpoint main_loop (script : list turn) : M unit :=
  match script with
  | [] => suspend
  | w :: rest =>
      continue <- iteration w ;;
      if continue then main_loop rest else ret tt
  end.

(** Lines 413-418. *)
Definition release (d : outcome unit) : M unit :=
  s <- get ;;
  if agent s && session_active s then
    console_print Disconnecting ;;
    emit AgentDisconnect ;;
    external d ;;
    console_print DisconnectedNotice
  else ret tt.

(** Lines 376-418. *)
Definition run (env : environment) (script : list turn) : M unit :=
  ok <- check_api_key (api_key env) ;;
  if negb ok then raise (SystemExit 1)
  else
    console_print Welcome ;;
    initialize_agent (connect env) ;;
    console_print StartBanner ;;
    try_finally (main_loop script) (release (disconnect env)).

(** [asyncio.run(coroutine)] on a new [KYCAgentCLI]: an exception of the
    coroutine is raised again, except that the cancellation the runner
    requested on SIGINT becomes [KeyboardInterrupt]; the interpreter then
    ends the process (status 1 with a traceback for an [Exception]). *)
Definition asyncio_run (coroutine : M unit) : trace * termination :=
  match coroutine init with
  | (t, _, Returned _) => (t, Exit 0)
  | (t, _, Raised (SystemExit code)) => (t, Exit code)
  | (t, _, Raised (Exception _)) => (t, Exit 1)
  | (t, _, Raised KeyboardInterrupt) => (t, Interrupted)
  | (t, _, Raised CancelledError) => (t, Interrupted)
  | (t, _, Pending) => (t, Running)
  end.

(** [main], lines 421-424. *)
Definition main (env : environment) (script : list turn) : trace * termination :=
  asyncio_run (run env script).

(** ** Specification-side definitions about the program *)

(** The effect of a local command. *)
Definition execute (c : Spec.command) (w : turn) : M bool :=
  match c with
  | Spec.Help => show_help ;; ret true
  | Spec.ListDocuments => list_documents (rglob w) ;; ret true
  | Spec.Status => show_status ;; ret true
  | Spec.ToggleDebug => toggle_debug ;; ret true
  | Spec.Clear => emit ClearScreen ;; ret true
  | Spec.Quit => console_print Goodbye ;; ret false
  end.

(** What [console.print(r)] does after it was called. *)
Definition print_result (r : rendering) : result unit :=
  match print_error r with
  | Some msg => Raised (Exception msg)
  | None => Returned tt
  end.

Definition event_error (e : event) : option pystr :=
  match e with ConsolePrint r => print_error r | _ => None end.

(** The part of the prints [t] that is made, up to and with the first one
    the console refuses, and the error of that one. *)
Fixpoint attempt (t : trace) : trace * option pystr :=
  match t with
  | [] => ([], None)
  | e :: t' =>
      match event_error e with
      | Some msg => ([e], Some msg)
      | None => match attempt t' with (seen, r) => (e :: seen, r) end
      end
  end.

(** The console accepts every print of [t]. *)
Definition accepts (t : trace) : bool :=
  forallb (fun e => match event_error e with None => true | Some _ => false end) t.

(** What the handler of [query_agent] prints for [error_msg], and how it
    ends. *)
Definition failure_run (error_msg : pystr) : trace * result unit :=
  if contains oversized_signature_1 error_msg
     || contains oversized_signature_2 error_msg
  then ([ConsolePrint OversizedAdvice], Returned tt)
  else
    match print_error (QueryFailed error_msg) with
    | Some msg => ([ConsolePrint (QueryFailed error_msg)], Raised (Exception msg))
    | None => ([ConsolePrint (QueryFailed error_msg); ConsolePrint QueryFailedHint],
               Returned tt)
    end.

(** [query_agent] after it printed and did [before], when [error_msg] is
    raised in its [try]. *)
Definition reported (before : trace) (error_msg : pystr) (s : cli)
  : trace * cli * result unit :=
  (before ++ fst (failure_run error_msg), s, snd (failure_run error_msg)).

(** What [list_documents] does after the scanning line when it has the
    sizes of the documents [files]. *)
Definition table_run (files : list path_entry) : trace * result unit :=
  let table := DocTable (List.length files) (numbered_rows 1 files) in
  match print_error table with
  | None => ([ConsolePrint table], Returned tt)
  | Some msg =>
      ([ConsolePrint table; ConsolePrint (ListFailed msg)],
       print_result (ListFailed msg))
  end.

(** How a command can end other than by returning: interrupted,
    cancelled, or with the error of a failure line the console refused. *)
Definition escapes {A} (res : result A) : Prop :=
  res = Raised KeyboardInterrupt \/ res = Raised CancelledError \/
  exists e msg,
    res = Raised (Exception msg) /\
    (print_error (QueryFailed e) = Some msg \/
     print_error (ListFailed e) = Some msg).

(** * Properties *)

(** ** Strings *)

Lemma eqb_eq (a b : pystr) : eqb a b = true <-> a = b.
Proof.
  unfold eqb. destruct (list_eq_dec N.eq_dec a b); split;
    intros; congruence.
Qed.

Lemma eqb_neq (a b : pystr) : eqb a b = false <-> a <> b.
Proof.
  unfold eqb. destruct (list_eq_dec N.eq_dec a b); split;
    intros; congruence.
Qed.

Lemma truthy_false (s : pystr) : truthy s = false <-> s = [].
Proof. destruct s; simpl; split; intros; congruence. Qed.

Lemma startswith_prefix (p s : pystr) :
  startswith s p = true <-> exists post, s = p ++ post.
Proof.
  revert s. induction p as [|a p IH]; intros s.
  - split; [intros _; now exists s | intros _; now destruct s].
  - destruct s as [|b s].
    + cbn [startswith]. split; [discriminate | intros [post H]; discriminate].
    + cbn [startswith]. rewrite andb_true_iff, N.eqb_eq, IH. split.
      * intros [-> [post ->]]. now exists post.
      * intros [post H]. injection H as -> ->. split; [reflexivity|now exists post].
Qed.

(** [contains needle hay] holds exactly when [needle] occurs in [hay]. *)
Lemma contains_occurs (needle hay : pystr) :
  contains needle hay = true <-> exists pre post, hay = pre ++ needle ++ post.
Proof.
  induction hay as [|c hay IH].
  - cbn [contains]. rewrite orb_false_r, startswith_prefix. split.
    + intros [post H]. now exists [], post.
    + intros [pre [post H]]. destruct pre; [now exists post|discriminate].
  - cbn [contains]. rewrite orb_true_iff, startswith_prefix, IH. split.
    + intros [[post H] | [pre [post H]]].
      * now exists [], post.
      * exists (c :: pre), post. now rewrite H.
    + intros [[|d pre] [post H]].
      * left. now exists post.
      * right. injection H as <- ->. now exists pre, post.
Qed.

(** ** The console *)

Ltac run_m :=
  unfold query_agent_body, render_answer, report_failure, show_help,
    show_status, toggle_debug, console_print, external, try_except,
    try_finally, bind, ret, emit, raise, get, put, suspend in *;
  cbn [fst snd app show_react_steps agent session_active
       response_text tool_use_count print_error] in *.

Lemma console_print_run (r : rendering) (s : cli) :
  console_print r s = ([ConsolePrint r], s, print_result r).
Proof.
  unfold console_print, print_result, bind, emit, raise, ret.
  now destruct (print_error r).
Qed.

Lemma attempt_accepts (t : trace) : accepts t = true -> attempt t = (t, None).
Proof.
  induction t as [|e t IH]; [reflexivity|].
  cbn [accepts forallb attempt]. destruct (event_error e); [discriminate|].
  cbn [andb]. intros H. fold (accepts t) in H. now rewrite (IH H).
Qed.

Lemma attempt_none (t seen : trace) :
  attempt t = (seen, None) -> seen = t /\ accepts t = true.
Proof.
  revert seen. induction t as [|e t IH]; intros seen.
  - cbn. now intros [= <-].
  - cbn [attempt accepts forallb]. destruct (event_error e); [discriminate|].
    destruct (attempt t) as [seen' r]. intros [= <- ->].
    destruct (IH seen' eq_refl) as [-> H]. split; [reflexivity|exact H].
Qed.

(** A refused print is the last one made; those before it are the accepted
    prints of [t] up to there. *)
Lemma attempt_some (t seen : trace) (msg : pystr) :
  attempt t = (seen, Some msg) ->
  exists pre e post,
    t = pre ++ e :: post /\ seen = pre ++ [e] /\
    event_error e = Some msg /\ accepts pre = true.
Proof.
  revert seen. induction t as [|e t IH]; intros seen.
  - discriminate.
  - cbn [attempt]. destruct (event_error e) as [m|] eqn:E.
    + intros [= <- <-]. now exists [], e, t.
    + destruct (attempt t) as [seen' r]. intros [= <- ->].
      destruct (IH seen' eq_refl) as [pre [e' [post [-> [-> [E' A]]]]]].
      exists (e :: pre), e', post. repeat split; try assumption.
      cbn [accepts forallb]. rewrite E. exact A.
Qed.

Lemma attempt_prefix (t : trace) : exists rest, t = fst (attempt t) ++ rest.
Proof.
  induction t as [|e t [rest IH]]; [now exists []|].
  cbn [attempt]. destruct (event_error e).
  - now exists t.
  - destruct (attempt t) as [seen r]. exists rest. cbn [fst] in *.
    now rewrite IH at 1.
Qed.

Lemma accepts_app (t1 t2 : trace) :
  accepts (t1 ++ t2) = accepts t1 && accepts t2.
Proof. apply forallb_app. Qed.

(** ** The response loop *)

Lemma tool_uses_cons (b : block) (bs : list block) :
  tool_uses (b :: bs) = ((if is_tool_use b then 1 else 0) + tool_uses bs)%N.
Proof.
  unfold tool_uses. cbn [filter]. destruct (is_tool_use b); cbn [List.length]; lia.
Qed.

(** The loop over the blocks: the panels of debug mode are printed until the
    console refuses one; the text and the counter are those of all blocks
    when none is refused. *)
Lemma process_blocks_run (bs : list block) :
  forall (l : locals) (s : cli),
    process_blocks l bs s =
    match attempt (if show_react_steps s
                   then panels (tool_use_count l) bs else []) with
    | (seen, None) =>
        (seen, s,
         Returned {| response_text := response_text l ++ texts bs;
                     tool_use_count :=
                       if show_react_steps s
                       then (tool_use_count l + tool_uses bs)%N
                       else tool_use_count l |})
    | (seen, Some msg) => (seen, s, Raised (Exception msg))
    end.
Proof.
  induction bs as [|b bs IH]; intros [txt n] s.
  - unfold texts, tool_uses. cbn. rewrite app_nil_r, N.add_0_r.
    now destruct (show_react_steps s).
  - cbn [process_blocks]. unfold bind at 1.
    rewrite tool_uses_cons. unfold texts. cbn [map concat]. fold (texts bs).
    destruct b as [text | name input | content | th]; cbn [process_block].
    + unfold ret at 1. rewrite IH.
      cbn [response_text tool_use_count is_tool_use block_text panels].
      rewrite <- app_assoc, N.add_0_l.
      now destruct (attempt _) as [seen [msg|]].
    + unfold bind at 1, get at 1. destruct (show_react_steps s) eqn:D.
      * unfold bind. rewrite console_print_run. unfold print_result.
        cbn [panels attempt event_error response_text tool_use_count].
        destruct (print_error (ToolUsePanel (n + 1) name input)) as [msg|];
          [reflexivity|].
        unfold ret at 1. rewrite IH, D.
        cbn [response_text tool_use_count is_tool_use block_text app].
        rewrite N.add_assoc.
        now destruct (attempt _) as [seen [msg|]].
      * unfold ret at 1. rewrite IH, D.
        cbn [response_text tool_use_count attempt app]. reflexivity.
    + unfold bind at 1, get at 1. destruct (show_react_steps s) eqn:D.
      * unfold bind. rewrite console_print_run. unfold print_result.
        cbn [panels attempt event_error response_text tool_use_count].
        destruct (print_error (ToolResultPanel n (result_preview content)))
          as [msg|]; [reflexivity|].
        unfold ret at 1. rewrite IH, D.
        cbn [response_text tool_use_count is_tool_use block_text app].
        rewrite N.add_0_l.
        now destruct (attempt _) as [seen [msg|]].
      * unfold ret at 1. rewrite IH, D.
        cbn [response_text tool_use_count attempt app]. reflexivity.
    + unfold ret at 1. rewrite IH.
      cbn [response_text tool_use_count is_tool_use block_text panels app].
      rewrite N.add_0_l.
      now destruct (attempt _) as [seen [msg|]].
Qed.

Lemma process_blocks_app (bs1 bs2 : list block) :
  forall (l : locals) (s : cli),
    process_blocks l (bs1 ++ bs2) s =
    (l' <- process_blocks l bs1 ;; process_blocks l' bs2) s.
Proof.
  induction bs1 as [|b bs1 IH]; intros l s.
  - cbn. unfold bind, ret. now destruct (process_blocks l bs2 s) as [[t s'] r].
  - cbn [app process_blocks]. unfold bind.
    destruct (process_block l b s) as [[t s'] [l'| e |]]; try reflexivity.
    rewrite IH. unfold bind.
    destruct (process_blocks l' bs1 s') as [[t1 s1] [l1| e1 |]];
      try reflexivity.
    destruct (process_blocks l1 bs2 s1) as [[t2 s2] r2].
    now rewrite app_assoc.
Qed.

(** Consuming a stream is processing the blocks of its assistant messages. *)
Lemma consume_blocks (ms : list message) :
  forall (l : locals) (s : cli),
    consume l ms s = process_blocks l (assistant_blocks ms) s.
Proof.
  induction ms as [|m ms IH]; intros l s; [reflexivity|].
  cbn [consume assistant_blocks flat_map]. rewrite process_blocks_app.
  unfold bind. destruct m as [content | content]; cbn [process_message].
  - destruct (process_blocks l content s) as [[t s'] [l'| e |]];
      try reflexivity.
    now rewrite IH.
  - unfold ret. cbn [process_blocks]. unfold ret. now rewrite IH.
Qed.

Lemma consume_run (ms : list message) (l : locals) (s : cli) :
  consume l ms s =
  match attempt (if show_react_steps s
                 then panels (tool_use_count l) (assistant_blocks ms)
                 else []) with
  | (seen, None) =>
      (seen, s,
       Returned {| response_text := response_text l ++ texts (assistant_blocks ms);
                   tool_use_count :=
                     if show_react_steps s
                     then (tool_use_count l + tool_uses (assistant_blocks ms))%N
                     else tool_use_count l |})
  | (seen, Some msg) => (seen, s, Raised (Exception msg))
  end.
Proof. rewrite consume_blocks. apply process_blocks_run. Qed.

Lemma report_failure_run (error_msg : pystr) (s : cli) :
  report_failure error_msg s =
  (fst (failure_run error_msg), s, snd (failure_run error_msg)).
Proof.
  unfold report_failure, failure_run.
  destruct (contains oversized_signature_1 error_msg
            || contains oversized_signature_2 error_msg); [reflexivity|].
  unfold bind. rewrite console_print_run. unfold print_result.
  now destruct (print_error (QueryFailed error_msg)).
Qed.

Lemma query_agent_body_run (question : pystr) (r : response) (s : cli) :
  query_agent_body question r s =
  match query_outcome r with
  | Ok _ =>
      match attempt (stream_trace s (stream r)) with
      | (seen, Some msg) =>
          (query_start question ++ seen, s, Raised (Exception msg))
      | (seen, None) =>
          match ending r with
          | Ok _ =>
              (query_start question ++ seen
                 ++ answer_event (texts (assistant_blocks (stream r)))
                 :: stats_trace s (stream r),
               s,
               Returned {| response_text := texts (assistant_blocks (stream r));
                           tool_use_count := final_count s (stream r) |})
          | Interrupt =>
              (query_start question ++ seen, s, Raised KeyboardInterrupt)
          | Cancelled =>
              (query_start question ++ seen, s, Raised CancelledError)
          | Fails msg =>
              (query_start question ++ seen, s, Raised (Exception msg))
          end
      end
  | Interrupt => (query_start question, s, Raised KeyboardInterrupt)
  | Cancelled => (query_start question, s, Raised CancelledError)
  | Fails msg => (query_start question, s, Raised (Exception msg))
  end.
Proof.
  unfold query_agent_body, query_start, stream_trace, stats_trace,
    final_count, answer_event.
  unfold bind at 1. rewrite console_print_run.
  unfold print_result. cbn [print_error].
  unfold bind at 1. unfold emit at 1.
  unfold bind at 1.
  destruct (query_outcome r) as [[] | | | msg]; run_m; try reflexivity.
  rewrite consume_run. cbn [fresh_locals response_text tool_use_count app].
  rewrite N.add_0_l.
  destruct (attempt _) as [seen [msg|]]; [reflexivity|].
  destruct (ending r) as [[] | | | msg]; run_m;
    destruct (show_react_steps s) eqn:D; cbn [andb];
    rewrite ?app_nil_r; try reflexivity;
    destruct (truthy (texts (assistant_blocks (stream r))));
    try destruct (0 <? tool_uses (assistant_blocks (stream r)))%N;
    cbn [app]; rewrite ?D; cbn [andb app]; rewrite ?app_nil_r; reflexivity.
Qed.

(** [query_agent] on every behaviour of the agent and of the console. *)
Lemma query_agent_run (question : pystr) (r : response) (s : cli) :
  query_agent question r s =
  match query_outcome r with
  | Ok _ =>
      match attempt (stream_trace s (stream r)) with
      | (seen, Some msg) => reported (query_start question ++ seen) msg s
      | (seen, None) =>
          match ending r with
          | Ok _ =>
              (query_start question ++ seen
                 ++ answer_event (texts (assistant_blocks (stream r)))
                 :: stats_trace s (stream r),
               s, Returned tt)
          | Interrupt =>
              (query_start question ++ seen, s, Raised KeyboardInterrupt)
          | Cancelled =>
              (query_start question ++ seen, s, Raised CancelledError)
          | Fails msg => reported (query_start question ++ seen) msg s
          end
      end
  | Interrupt => (query_start question, s, Raised KeyboardInterrupt)
  | Cancelled => (query_start question, s, Raised CancelledError)
  | Fails msg => reported (query_start question) msg s
  end.
Proof.
  unfold query_agent, try_except, bind, reported.
  rewrite query_agent_body_run.
  destruct (query_outcome r) as [[] | | | msg];
    [destruct (attempt _) as [seen [msg|]];
     [|destruct (ending r) as [[] | | | msg']] | | | ];
    rewrite ?report_failure_run; unfold ret; rewrite ?app_nil_r;
    try reflexivity.
Qed.

(** With every panel accepted, the whole stream is processed. *)
Lemma query_agent_accepted (question : pystr) (r : response) (s : cli) :
  accepts (stream_trace s (stream r)) = true ->
  query_agent question r s =
  match query_outcome r with
  | Ok _ =>
      match ending r with
      | Ok _ =>
          (query_start question ++ stream_trace s (stream r)
             ++ answer_event (texts (assistant_blocks (stream r)))
             :: stats_trace s (stream r),
           s, Returned tt)
      | Interrupt =>
          (query_start question ++ stream_trace s (stream r), s,
           Raised KeyboardInterrupt)
      | Cancelled =>
          (query_start question ++ stream_trace s (stream r), s,
           Raised CancelledError)
      | Fails msg =>
          reported (query_start question ++ stream_trace s (stream r)) msg s
      end
  | Interrupt => (query_start question, s, Raised KeyboardInterrupt)
  | Cancelled => (query_start question, s, Raised CancelledError)
  | Fails msg => reported (query_start question) msg s
  end.
Proof.
  intros H. rewrite query_agent_run, (attempt_accepts _ H). reflexivity.
Qed.

Lemma texts_text_list (bs : list block) :
  texts bs = List.concat (text_list bs).
Proof.
  unfold texts, text_list. induction bs as [|b bs IH]; [reflexivity|].
  cbn [map flat_map List.concat]. rewrite concat_app, IH.
  destruct b; cbn; now rewrite ?app_nil_r.
Qed.

Lemma answers_app (t1 t2 : trace) : answers (t1 ++ t2) = answers t1 ++ answers t2.
Proof. apply filter_app. Qed.

Lemma answers_panels (bs : list block) : forall n, answers (panels n bs) = [].
Proof.
  induction bs as [|b bs IH]; intros n; [reflexivity|].
  destruct b; cbn [panels]; unfold answers; cbn [filter is_answer]; apply IH.
Qed.

Lemma answers_stream_trace (s : cli) (ms : list message) :
  answers (stream_trace s ms) = [].
Proof.
  unfold stream_trace. destruct (show_react_steps s);
    [apply answers_panels | reflexivity].
Qed.

Lemma answers_stats_trace (s : cli) (ms : list message) :
  answers (stats_trace s ms) = [].
Proof.
  unfold stats_trace.
  now destruct (show_react_steps s && (0 <? final_count s ms)%N).
Qed.

Lemma answers_failure_run (msg : pystr) : answers (fst (failure_run msg)) = [].
Proof.
  unfold failure_run.
  destruct (contains oversized_signature_1 msg
            || contains oversized_signature_2 msg); [reflexivity|].
  now destruct (print_error (QueryFailed msg)).
Qed.

Lemma answers_attempt (t : trace) :
  answers t = [] -> answers (fst (attempt t)) = [].
Proof.
  intros H. destruct (attempt_prefix t) as [rest E].
  rewrite E, answers_app in H. now apply app_eq_nil in H.
Qed.

Lemma answers_answer_event (text : pystr) :
  answers [answer_event text] = [answer_event text].
Proof. unfold answer_event. now destruct (truthy text). Qed.

(** ** Dispatch *)

Lemma process_command_dispatch (user_input : pystr) (w : turn) (s : cli) :
  process_command user_input w s =
  match Spec.dispatch (strip user_input) with
  | Spec.NoOp => ret true s
  | Spec.Local c => execute c w s
  | Spec.FreeTextQuery q => (query_agent q (reply w) ;; ret true) s
  end.
Proof.
  unfold process_command, Spec.dispatch, Spec.recognise.
  destruct (strip user_input) as [|c line] eqn:E; [reflexivity|].
  cbn [truthy negb]. unfold quit_tokens, Spec.tokens.
  cbn [existsb find fst snd option_map].
  rewrite orb_false_r.
  assert (sym : forall a b, eqb a b = eqb b a).
  { intros a b. destruct (eqb a b) eqn:H.
    - apply eqb_eq in H. subst. symmetry. now apply eqb_eq.
    - apply eqb_neq in H. symmetry. apply eqb_neq. congruence. }
  rewrite !(sym (lit _) (c :: line)).
  destruct (eqb (c :: line) (lit "/help")) eqn:H1.
  { apply eqb_eq in H1. rewrite H1. reflexivity. }
  destruct (eqb (c :: line) (lit "/list")) eqn:H2.
  { apply eqb_eq in H2. rewrite H2. reflexivity. }
  destruct (eqb (c :: line) (lit "/status")) eqn:H3.
  { apply eqb_eq in H3. rewrite H3. reflexivity. }
  destruct (eqb (c :: line) (lit "/debug")) eqn:H4.
  { apply eqb_eq in H4. rewrite H4. reflexivity. }
  destruct (eqb (c :: line) (lit "/clear")) eqn:H5.
  { apply eqb_eq in H5. rewrite H5. reflexivity. }
  destruct (eqb (c :: line) (lit "/quit")) eqn:H6; [reflexivity|].
  destruct (eqb (c :: line) (lit "/exit")) eqn:H7; [reflexivity|].
  destruct (eqb (c :: line) (lit "/q")) eqn:H8; reflexivity.
Qed.

Lemma recognise_token (line : pystr) (c : Spec.command) :
  Spec.recognise line = Some c <-> In (line, c) Spec.tokens.
Proof.
  unfold Spec.recognise, Spec.tokens. cbn [find fst snd In]. split.
  - repeat match goal with
           | |- context [eqb ?a line] =>
               let H := fresh in
               destruct (eqb a line) eqn:H;
               [apply eqb_eq in H; subst line; cbn [option_map snd];
                intros [= <-]; tauto |]
           end.
    discriminate.
  - intros H.
    repeat (destruct H as [H | H];
            [injection H as <- <-; reflexivity|]).
    destruct H.
Qed.
(** ** The connection during the loop *)

Lemma count_app (p : event -> bool) (t1 t2 : trace) :
  count p (t1 ++ t2) = count p t1 + count p t2.
Proof. unfold count. now rewrite filter_app, length_app. Qed.

Section KeepsSession.

Context {A B : Type}.

Lemma keeps_ret (a : A) : keeps_session (ret a).
Proof. intros s. cbn. repeat split; congruence. Qed.

Lemma keeps_raise (e : exn) : keeps_session (@raise A e).
Proof. intros s. cbn. repeat split; congruence. Qed.

Lemma keeps_external (o : outcome A) : keeps_session (external o).
Proof. destruct o; intros s; cbn; repeat split; congruence. Qed.

Lemma keeps_bind (m : M A) (f : A -> M B) :
  keeps_session m -> (forall a, keeps_session (f a)) ->
  keeps_session (bind m f).
Proof.
  intros Hm Hf s. unfold bind. specialize (Hm s).
  destruct (m s) as [[t s'] [a | e |]];
    destruct Hm as (H1 & H2 & H3 & H0); try (repeat split; congruence).
  specialize (Hf a s'). destruct (f a s') as [[t' s''] r].
  rewrite count_app. destruct Hf as (H4 & H5 & H6 & H7).
  rewrite H1, H4. repeat split; congruence.
Qed.

Lemma keeps_try_except (m : M A) (h : exn -> option (M A)) :
  keeps_session m -> (forall e k, h e = Some k -> keeps_session k) ->
  keeps_session (try_except m h).
Proof.
  intros Hm Hh s. unfold try_except. specialize (Hm s).
  destruct (m s) as [[t s'] [a | e |]];
    destruct Hm as (H1 & H2 & H3 & H0); try (repeat split; congruence).
  destruct (h e) as [k|] eqn:E; [|repeat split; congruence].
  specialize (Hh e k E s'). destruct (k s') as [[t' s''] r].
  rewrite count_app. destruct Hh as (H4 & H5 & H6 & H7).
  rewrite H1, H4. repeat split; congruence.
Qed.

End KeepsSession.

Lemma keeps_emit (e : event) : is_disconnect e = false -> keeps_session (emit e).
Proof.
  intros H s. unfold emit, count. cbn. rewrite H.
  repeat split; congruence.
Qed.

Lemma keeps_console_print (r : rendering) : keeps_session (console_print r).
Proof.
  intros s. rewrite console_print_run. unfold print_result.
  destruct (print_error r); cbn; repeat split; congruence.
Qed.

Lemma keeps_get : keeps_session get.
Proof. intros s. cbn. repeat split; congruence. Qed.

Create HintDb session.
#[local] Hint Resolve keeps_ret keeps_raise keeps_external
  keeps_console_print keeps_get : session.

Ltac session :=
  repeat first
    [ progress intros
    | solve [auto with session]
    | apply keeps_bind
    | apply keeps_try_except
    | apply keeps_emit; reflexivity
    | match goal with
      | H : match ?e with _ => _ end = Some _ |- _ =>
          destruct e; try discriminate; injection H as <-
      | |- keeps_session (if ?b then _ else _) => destruct b
      | |- keeps_session (match ?x with _ => _ end) => destruct x
      end ].

Lemma keeps_process_block (l : locals) (b : block) :
  keeps_session (process_block l b).
Proof. destruct b; cbn [process_block]; session. Qed.

Lemma keeps_process_blocks (bs : list block) :
  forall l, keeps_session (process_blocks l bs).
Proof.
  induction bs as [|b bs IH]; intros l; cbn [process_blocks];
    [session | apply keeps_bind; [apply keeps_process_block | apply IH]].
Qed.

Lemma keeps_consume (ms : list message) :
  forall l, keeps_session (consume l ms).
Proof.
  induction ms as [|m ms IH]; intros l; cbn [consume]; [session|].
  apply keeps_bind; [|apply IH].
  destruct m; cbn [process_message]; [apply keeps_process_blocks | session].
Qed.

#[local] Hint Resolve keeps_consume : session.

Lemma keeps_query_agent (question : pystr) (r : response) :
  keeps_session (query_agent question r).
Proof.
  unfold query_agent, query_agent_body, render_answer, report_failure.
  session.
Qed.

Lemma keeps_table_rows (files : list path_entry) :
  forall idx, keeps_session (table_rows idx files).
Proof.
  induction files as [|f files IH]; intros idx; cbn [table_rows]; session.
Qed.

#[local] Hint Resolve keeps_table_rows keeps_query_agent : session.

Lemma keeps_list_documents (found : outcome (list path_entry)) :
  keeps_session (list_documents found).
Proof. unfold list_documents. session. Qed.

Lemma keeps_toggle_debug : keeps_session toggle_debug.
Proof.
  intros s. cbn. destruct (show_react_steps s); cbn; repeat split; congruence.
Qed.

#[local] Hint Resolve keeps_list_documents keeps_toggle_debug : session.

Lemma keeps_process_command (user_input : pystr) (w : turn) :
  keeps_session (process_command user_input w).
Proof. unfold process_command, show_help, show_status. session. Qed.

#[local] Hint Resolve keeps_process_command : session.

Lemma keeps_iteration (w : turn) : keeps_session (iteration w).
Proof. unfold iteration, confirm_exit. session. Qed.

(** The loop itself keeps the connection, whether it ends or not. *)
Lemma main_loop_keeps (script : list turn) :
  forall s,
    match main_loop script s with
    | (t, s', _) =>
        count is_disconnect t = 0 /\
        agent s' = agent s /\ session_active s' = session_active s
    end.
Proof.
  induction script as [|w rest IH]; intros s; cbn [main_loop].
  - cbn. auto.
  - unfold bind. pose proof (keeps_iteration w s) as H.
    destruct (iteration w s) as [[t s'] [[] | e |]];
      destruct H as (H1 & H2 & H3 & H4); auto.
    + specialize (IH s'). destruct (main_loop rest s') as [[t' s''] r].
      rewrite count_app. destruct IH as (H5 & H6 & H7).
      rewrite H1, H5. repeat split; congruence.
    + cbn. rewrite app_nil_r. auto.
Qed.

(** A script on which the loop is still running can be continued. *)
Lemma main_loop_app (pre rest : list turn) :
  forall s t s',
    main_loop pre s = (t, s', Pending) ->
    main_loop (pre ++ rest) s = prepend t (main_loop rest s').
Proof.
  induction pre as [|w pre IH]; intros s t s' H.
  - cbn in H. injection H as <- <-. cbn [app prepend].
    now destruct (main_loop rest s) as [[t' s''] r].
  - cbn [app main_loop] in *. unfold bind in *.
    pose proof (keeps_iteration w s) as K.
    destruct (iteration w s) as [[t1 s1] [[] | e |]];
      destruct K as (_ & _ & _ & K); try discriminate; try congruence.
    destruct (main_loop pre s1) as [[t2 s2] r2] eqn:E.
    injection H as <- <- ->.
    rewrite (IH _ _ _ E). unfold prepend.
    destruct (main_loop rest s2) as [[t3 s3] r3].
    now rewrite app_assoc.
Qed.

Lemma assistant_blocks_app (ms1 ms2 : list message) :
  assistant_blocks (ms1 ++ ms2) = assistant_blocks ms1 ++ assistant_blocks ms2.
Proof. apply flat_map_app. Qed.

Lemma assistant_blocks_filter (ms : list message) :
  assistant_blocks (filter is_assistant ms) = assistant_blocks ms.
Proof.
  unfold assistant_blocks.
  induction ms as [|[content | content] ms IH];
    cbn [filter is_assistant flat_map]; now rewrite ?IH.
Qed.

Lemma tool_uses_app (bs1 bs2 : list block) :
  tool_uses (bs1 ++ bs2) = (tool_uses bs1 + tool_uses bs2)%N.
Proof.
  unfold tool_uses. rewrite filter_app, length_app. lia.
Qed.

Lemma panels_app (bs1 bs2 : list block) :
  forall n,
    panels n (bs1 ++ bs2)
    = panels n bs1 ++ panels (n + tool_uses bs1) bs2.
Proof.
  induction bs1 as [|b bs1 IH]; intros n.
  - cbn [app panels]. unfold tool_uses. cbn. now rewrite N.add_0_r.
  - rewrite tool_uses_cons.
    destruct b; cbn [app panels is_tool_use]; rewrite IH;
      rewrite ?N.add_0_l, ?N.add_assoc; reflexivity.
Qed.

Lemma reported_state (before : trace) (msg : pystr) (s : cli) :
  snd (fst (reported before msg s)) = s.
Proof. reflexivity. Qed.

Lemma query_agent_state (question : pystr) (r : response) (s : cli) :
  snd (fst (query_agent question r s)) = s.
Proof.
  rewrite query_agent_run.
  destruct (query_outcome r) as [[] | | |];
    [destruct (attempt _) as [seen [msg|]];
     [|destruct (ending r) as [[] | | |]] | | |];
    reflexivity.
Qed.

Lemma tool_panels_none (s : cli) (ms : list message) :
  show_react_steps s = false ->
  stream_trace s ms = [] /\ stats_trace s ms = [] /\ final_count s ms = 0%N.
Proof.
  intros H. unfold stream_trace, stats_trace, final_count. now rewrite H.
Qed.

(** With debug mode off the loop prints nothing the console could refuse. *)
Lemma accepts_debug_off (s : cli) (ms : list message) :
  show_react_steps s = false -> accepts (stream_trace s ms) = true.
Proof. intros H. unfold stream_trace. now rewrite H. Qed.

(** The panels of a part of the stream are among those of the stream. *)
Lemma accepts_seen (s : cli) (seen rest : list message) :
  accepts (stream_trace s (seen ++ rest)) = true ->
  accepts (stream_trace s seen) = true.
Proof.
  unfold stream_trace. destruct (show_react_steps s); [|reflexivity].
  rewrite assistant_blocks_app, panels_app, accepts_app.
  intros H. now apply andb_true_iff in H.
Qed.

Lemma query_agent_answers (question : pystr) (r : response) (s : cli) :
  query_outcome r = Ok tt -> ending r = Ok tt ->
  accepts (stream_trace s (stream r)) = true ->
  answers (fst (fst (query_agent question r s)))
  = [answer_event (texts (assistant_blocks (stream r)))].
Proof.
  intros Hq He Ha. rewrite (query_agent_accepted _ _ _ Ha), Hq, He. cbn [fst].
  change (answer_event ?x :: ?y) with ([answer_event x] ++ y).
  now rewrite !answers_app, answers_stream_trace, answers_stats_trace,
    answers_answer_event, app_nil_r.
Qed.

(** No answer is rendered unless the query, the panels and the stream all
    went through. *)
Lemma query_agent_no_answer (question : pystr) (r : response) (s : cli) :
  query_outcome r <> Ok tt \/ ending r <> Ok tt \/
  accepts (stream_trace s (stream r)) = false ->
  answers (fst (fst (query_agent question r s))) = [].
Proof.
  intros H. rewrite query_agent_run. unfold reported.
  destruct (query_outcome r) as [[] | | | msg]; cbn [fst];
    rewrite ?answers_app, ?answers_failure_run; try reflexivity.
  destruct (attempt (stream_trace s (stream r))) as [seen [msg|]] eqn:E.
  - cbn [fst]. rewrite !answers_app, answers_failure_run.
    change seen with (fst (seen, Some msg)). rewrite <- E.
    now rewrite answers_attempt by apply answers_stream_trace.
  - destruct (attempt_none _ E) as [-> Ha].
    destruct (ending r) as [[] | | | msg]; cbn [fst];
      rewrite ?answers_app, ?answers_failure_run, ?answers_stream_trace;
      try reflexivity.
    destruct H as [H | [H | H]]; congruence.
Qed.

(** ** The claims about one query *)

(** C1 (amended): when the stream of a query completes and the console
    accepts every tool panel debug mode prints on the way, exactly one
    answer is rendered, after every message has been processed; it is the
    literal concatenation, in arrival order, of the texts of the Text blocks
    of the assistant messages, whatever their grouping into messages, and
    it is the "no textual response" notice when there is no such block (or
    the concatenation is empty).  With debug mode off no panel is printed,
    so the condition on the console holds.  When the query or the stream
    does not complete, or a panel is refused, no answer is rendered. *)
Theorem query_agent_final_answer (question : pystr) (r : response) (s : cli) :
  let t := fst (fst (query_agent question r s)) in
  let ts := text_list (assistant_blocks (stream r)) in
  (query_outcome r = Ok tt -> ending r = Ok tt ->
   accepts (stream_trace s (stream r)) = true ->
   answers t = [answer_event (List.concat ts)] /\
   (forall question' r' s',
      query_outcome r' = Ok tt -> ending r' = Ok tt ->
      accepts (stream_trace s' (stream r')) = true ->
      text_list (assistant_blocks (stream r')) = ts ->
      answers (fst (fst (query_agent question' r' s'))) = answers t) /\
   exists after,
     t = (query_start question ++ stream_trace s (stream r))
           ++ answer_event (List.concat ts) :: after /\
     answers (query_start question ++ stream_trace s (stream r)) = [] /\
     answers after = []) /\
  (show_react_steps s = false -> accepts (stream_trace s (stream r)) = true) /\
  (ts = [] -> answer_event (List.concat ts) = ConsolePrint NoTextNotice) /\
  (List.concat ts <> [] ->
   answer_event (List.concat ts) = ConsolePrint (AnswerPanel (List.concat ts))) /\
  (query_outcome r <> Ok tt \/ ending r <> Ok tt \/
   accepts (stream_trace s (stream r)) = false -> answers t = []).
Proof.
  cbv zeta. rewrite <- texts_text_list.
  set (text := texts (assistant_blocks (stream r))).
  assert (Hstart : answers (query_start question ++ stream_trace s (stream r)) = []).
  { now rewrite answers_app, answers_stream_trace. }
  split; [|split; [|split; [|split]]].
  - intros Hq He Ha.
    assert (A : answers (fst (fst (query_agent question r s)))
                = [answer_event text]) by now apply query_agent_answers.
    split; [exact A|]. split.
    + intros question' r' s' Hq' He' Ha' Hts. rewrite A.
      rewrite (query_agent_answers question' r' s' Hq' He' Ha').
      unfold text. now rewrite !texts_text_list, Hts.
    + rewrite (query_agent_accepted _ _ _ Ha), Hq, He. cbn [fst].
      exists (stats_trace s (stream r)).
      rewrite <- app_assoc. repeat split; auto using answers_stats_trace.
  - apply accepts_debug_off.
  - unfold text. rewrite texts_text_list. now intros ->.
  - intros H. unfold answer_event. destruct text; [congruence | reflexivity].
  - apply query_agent_no_answer.
Qed.

(** C10: only assistant messages are examined.  A message of any other
    kind appends no text, renders nothing and leaves the counter as it is,
    wherever it stands in the stream, so that a query behaves as on the
    stream of its assistant messages alone. *)
Theorem other_messages_ignored
    (question : pystr) (r : response) (s : cli)
    (l : locals) (content : list block) (before after : list message) :
  process_message l (OtherMessage content) s = ([], s, Returned l) /\
  consume l (before ++ OtherMessage content :: after) s
  = consume l (before ++ after) s /\
  consume l (stream r) s = consume l (filter is_assistant (stream r)) s /\
  query_agent question r s
  = query_agent question
      {| query_outcome := query_outcome r;
         stream := filter is_assistant (stream r);
         ending := ending r |} s.
Proof.
  repeat split.
  - rewrite !consume_blocks, !assistant_blocks_app. reflexivity.
  - now rewrite !consume_blocks, assistant_blocks_filter.
  - rewrite !query_agent_run. cbn [query_outcome ending stream].
    unfold stream_trace, stats_trace, final_count.
    now rewrite assistant_blocks_filter.
Qed.

(** C2: the counter of a query starts at 0 whatever an earlier query
    counted; whenever the loop has got through a part of the stream it is
    the number of tool-use blocks processed so far when debug mode is on
    and 0 when it is off; the loop gets through every part of the stream
    when the console accepts the panels debug mode prints, which it does
    with debug mode off, where no tool panel and no statistics are
    rendered. *)
Theorem tool_use_count_of_query (question : pystr) (r : response) (s : cli) :
  tool_use_count fresh_locals = 0%N /\
  (forall seen t s' l,
     consume fresh_locals seen s = (t, s', Returned l) ->
     s' = s /\
     tool_use_count l
     = if show_react_steps s then tool_uses (assistant_blocks seen) else 0%N) /\
  (forall t s' l,
     query_agent_body question r s = (t, s', Returned l) ->
     tool_use_count l
     = if show_react_steps s
       then tool_uses (assistant_blocks (stream r)) else 0%N) /\
  (forall earlier_question earlier_reply,
     query_agent_body question r
       (snd (fst (query_agent earlier_question earlier_reply s)))
     = query_agent_body question r s) /\
  (accepts (stream_trace s (stream r)) = true ->
   (forall seen rest,
      stream r = seen ++ rest ->
      exists t text,
        consume fresh_locals seen s =
        (t, s, Returned {| response_text := text;
                           tool_use_count :=
                             if show_react_steps s
                             then tool_uses (assistant_blocks seen)
                             else 0%N |})) /\
   (query_outcome r = Ok tt -> ending r = Ok tt ->
    exists t text,
      query_agent_body question r s =
      (t, s, Returned {| response_text := text;
                         tool_use_count :=
                           if show_react_steps s
                           then tool_uses (assistant_blocks (stream r))
                           else 0%N |}))) /\
  (show_react_steps s = false ->
   accepts (stream_trace s (stream r)) = true /\
   (query_outcome r = Ok tt -> ending r = Ok tt ->
    fst (fst (query_agent question r s))
    = query_start question
        ++ [answer_event (texts (assistant_blocks (stream r)))] /\
    filter is_tool_panel (fst (fst (query_agent question r s))) = [])).
Proof.
  split; [reflexivity|]. split; [|split; [|split; [|split]]].
  - intros seen t s' l. rewrite consume_run.
    cbn [fresh_locals tool_use_count]. rewrite N.add_0_l.
    destruct (attempt _) as [t' [msg|]]; [discriminate|].
    intros [= _ <- <-]. split; reflexivity.
  - intros t s' l. rewrite query_agent_body_run.
    destruct (query_outcome r) as [[] | | |]; try discriminate.
    destruct (attempt _) as [t' [msg|]]; [discriminate|].
    destruct (ending r) as [[] | | |]; try discriminate.
    intros [= _ _ <-]. reflexivity.
  - intros q0 r0. now rewrite query_agent_state.
  - intros Ha. split.
    + intros seen rest E. rewrite E in Ha. apply accepts_seen in Ha.
      rewrite consume_run. cbn [fresh_locals tool_use_count].
      unfold stream_trace in Ha. rewrite (attempt_accepts _ Ha).
      rewrite N.add_0_l. eauto.
    + intros Hq He. rewrite query_agent_body_run, Hq, (attempt_accepts _ Ha), He.
      unfold final_count. eauto.
  - intros D. split; [now apply accepts_debug_off|]. intros Hq He.
    rewrite (query_agent_accepted _ _ _ (accepts_debug_off s (stream r) D)), Hq, He.
    cbn [fst].
    destruct (tool_panels_none s (stream r) D) as (-> & -> & _).
    split; [reflexivity|].
    unfold answer_event.
    now destruct (truthy (texts (assistant_blocks (stream r)))).
Qed.

(** ** What a query prints *)

Lemma printed_app (t1 t2 : trace) : printed t1 -> printed t2 -> printed (t1 ++ t2).
Proof. intros H1 H2. apply Forall_app. now split. Qed.

Lemma printed_panels (bs : list block) : forall n, printed (panels n bs).
Proof.
  induction bs as [|b bs IH]; intros n; [constructor|].
  destruct b; cbn [panels]; try apply IH; constructor; eauto; apply IH.
Qed.

Lemma printed_stream_trace (s : cli) (ms : list message) :
  printed (stream_trace s ms).
Proof.
  unfold stream_trace. destruct (show_react_steps s);
    [apply printed_panels | constructor].
Qed.

Lemma printed_stats_trace (s : cli) (ms : list message) :
  printed (stats_trace s ms).
Proof.
  unfold stats_trace.
  destruct (show_react_steps s && (0 <? final_count s ms)%N);
    repeat constructor; eauto.
Qed.

Lemma printed_failure_run (msg : pystr) : printed (fst (failure_run msg)).
Proof.
  unfold failure_run.
  destruct (contains oversized_signature_1 msg
            || contains oversized_signature_2 msg);
    [|destruct (print_error (QueryFailed msg))];
    repeat constructor; eauto.
Qed.

Lemma printed_attempt (t : trace) : printed t -> printed (fst (attempt t)).
Proof.
  intros H. destruct (attempt_prefix t) as [rest E]. rewrite E in H.
  now apply Forall_app in H.
Qed.

Lemma count_printed (p : event -> bool) (t : trace) :
  (forall r, p (ConsolePrint r) = false) -> printed t -> count p t = 0.
Proof.
  intros Hp H. unfold count. induction H as [|e t [r ->] _ IH]; [reflexivity|].
  cbn [filter]. now rewrite Hp.
Qed.

(** The handler of [query_agent] returns, or raises the error of its own
    failure line. *)
Lemma failure_run_result (msg : pystr) :
  snd (failure_run msg) = Returned tt \/
  exists m, snd (failure_run msg) = Raised (Exception m) /\
            print_error (QueryFailed msg) = Some m.
Proof.
  unfold failure_run.
  destruct (contains oversized_signature_1 msg
            || contains oversized_signature_2 msg); [now left|].
  destruct (print_error (QueryFailed msg)) as [m|];
    [right; exists m; split; reflexivity | now left].
Qed.

Lemma reported_prints (question : pystr) (t : trace) (msg : pystr) (s : cli) :
  printed t ->
  exists t' res,
    reported (query_start question ++ t) msg s
    = (query_start question ++ t', s, res) /\
    printed t' /\ (res = Returned tt \/ escapes res).
Proof.
  intros P. exists (t ++ fst (failure_run msg)), (snd (failure_run msg)).
  unfold reported. rewrite app_assoc. split; [reflexivity|].
  split; [apply printed_app; [exact P | apply printed_failure_run]|].
  destruct (failure_run_result msg) as [-> | [m [-> E]]]; [now left|].
  right. right. right. eauto.
Qed.

(** After [query_start], a query only prints; it returns, is interrupted or
    cancelled, or ends with the error of a refused failure line. *)
Lemma query_agent_prints (question : pystr) (r : response) (s : cli) :
  exists t res,
    query_agent question r s = (query_start question ++ t, s, res) /\
    printed t /\ (res = Returned tt \/ escapes res).
Proof.
  rewrite query_agent_run. unfold escapes.
  destruct (query_outcome r) as [[] | | | msg].
  - pose proof (printed_attempt (printed_stream_trace s (stream r))) as P.
    destruct (attempt (stream_trace s (stream r))) as [seen [msg|]];
      cbn [fst] in P; [now apply reported_prints|].
    destruct (ending r) as [[] | | | msg].
    + exists (seen ++ answer_event (texts (assistant_blocks (stream r)))
                :: stats_trace s (stream r)), (Returned tt).
      split; [reflexivity|]. split; [|now left].
      apply printed_app; [exact P|].
      constructor; [unfold answer_event; eauto | apply printed_stats_trace].
    + exists seen, (Raised KeyboardInterrupt).
      split; [reflexivity|]. split; [exact P|]. right. now left.
    + exists seen, (Raised CancelledError).
      split; [reflexivity|]. split; [exact P|]. right. right. now left.
    + now apply reported_prints.
  - exists [], (Raised KeyboardInterrupt). rewrite app_nil_r.
    split; [reflexivity|]. split; [constructor|]. right. now left.
  - exists [], (Raised CancelledError). rewrite app_nil_r.
    split; [reflexivity|]. split; [constructor|]. right. right. now left.
  - assert (P : printed []) by constructor.
    pose proof (reported_prints question msg s P) as R.
    now rewrite app_nil_r in R.
Qed.

Lemma firstn_200_length (content : pystr) :
  200 < len content -> len (slice_to 200 content) = 200.
Proof.
  unfold len, slice_to. intros H. rewrite length_firstn. lia.
Qed.

(** C3: the preview of a tool result of length [L] has length
    [min L 200], plus the length of the ellipsis (3) when [L > 200]; it is
    the content itself when [L <= 200].  The panel handed to the console is
    that preview; when the console accepts it the locals of the loop, and so
    the answer buffer, are as they were, and otherwise its error is raised.
    When every panel of a completed stream is accepted, the answer is
    rendered whole; when one is refused no answer is rendered. *)
Theorem result_preview_length
    (content : pystr) (l : locals) (a sa : bool)
    (question : pystr) (ms : list message) (s : cli) :
  len ellipsis = 3 /\
  len (result_preview content)
  = Nat.min (len content) 200
    + (if Nat.ltb 200 (len content) then len ellipsis else 0) /\
  (if Nat.ltb 200 (len content)
   then result_preview content = slice_to 200 content ++ ellipsis /\
        len (slice_to 200 content) = 200
   else result_preview content = content) /\
  process_block l (ToolResultBlock content)
    {| agent := a; session_active := sa; show_react_steps := true |}
  = ([ConsolePrint (ToolResultPanel (tool_use_count l) (result_preview content))],
     {| agent := a; session_active := sa; show_react_steps := true |},
     match print_error
             (ToolResultPanel (tool_use_count l) (result_preview content)) with
     | None => Returned l
     | Some msg => Raised (Exception msg)
     end) /\
  (accepts (stream_trace s ms) = true ->
   answers (fst (fst (query_agent question (completed ms) s)))
   = [answer_event (texts (assistant_blocks ms))]) /\
  (accepts (stream_trace s ms) = false ->
   answers (fst (fst (query_agent question (completed ms) s))) = []).
Proof.
  split; [reflexivity|].
  assert (Hanswer :
    accepts (stream_trace s ms) = true ->
    answers (fst (fst (query_agent question (completed ms) s)))
    = [answer_event (texts (assistant_blocks ms))])
    by (intros Ha; now apply query_agent_answers).
  assert (Hnone :
    accepts (stream_trace s ms) = false ->
    answers (fst (fst (query_agent question (completed ms) s))) = [])
    by (intros Ha; apply query_agent_no_answer; auto).
  assert (Hpanel :
    process_block l (ToolResultBlock content)
      {| agent := a; session_active := sa; show_react_steps := true |}
    = ([ConsolePrint (ToolResultPanel (tool_use_count l) (result_preview content))],
       {| agent := a; session_active := sa; show_react_steps := true |},
       match print_error
               (ToolResultPanel (tool_use_count l) (result_preview content)) with
       | None => Returned l
       | Some msg => Raised (Exception msg)
       end)).
  { cbn [process_block]. unfold bind at 1, get at 1.
    cbn [show_react_steps]. unfold bind. rewrite console_print_run.
    unfold print_result.
    now destruct (print_error (ToolResultPanel _ _)). }
  enough (L : len (result_preview content)
              = Nat.min (len content) 200
                + (if Nat.ltb 200 (len content) then len ellipsis else 0) /\
              (if Nat.ltb 200 (len content)
               then result_preview content = slice_to 200 content ++ ellipsis /\
                    len (slice_to 200 content) = 200
               else result_preview content = content))
    by (destruct L as [L1 L2]; repeat (split; [assumption|]); assumption).
  unfold result_preview.
  destruct (Nat.ltb 200 (len content)) eqn:E.
  - apply Nat.ltb_lt in E. pose proof (firstn_200_length content E) as F.
    repeat split; auto.
    unfold len in *. rewrite length_app. fold (len (slice_to 200 content)).
    unfold len. rewrite F. change (List.length ellipsis) with 3. lia.
  - apply Nat.ltb_ge in E. split; [lia | reflexivity].
Qed.

(** ** The main loop, one iteration at a time *)

Lemma iteration_line (w : turn) (line : pystr) (s : cli) :
  typed w = Ok line ->
  forall t s' (continue : bool),
    process_command line w s = (t, s', Returned continue) ->
    iteration w s = (MainPrompt :: t, s', Returned continue).
Proof.
  intros H t s' continue P. unfold iteration, try_except, bind, emit.
  rewrite H. cbn [external]. unfold ret. now rewrite P.
Qed.

(** An [Exception] that leaves a command is reported by the loop, which
    goes on unless the console refuses the report, too. *)
Lemma iteration_line_fails (w : turn) (line : pystr) (s : cli) :
  typed w = Ok line ->
  forall t s' msg,
    process_command line w s = (t, s', Raised (Exception msg)) ->
    iteration w s
    = (MainPrompt :: t ++ [ConsolePrint (LoopError msg)], s',
       match print_error (LoopError msg) with
       | None => Returned true
       | Some m => Raised (Exception m)
       end).
Proof.
  intros H t s' msg P. unfold iteration, try_except. unfold bind at 1 2.
  unfold emit at 1. rewrite H. cbn [external]. unfold ret at 1. rewrite P.
  cbn [app]. unfold bind. rewrite console_print_run. unfold print_result.
  destruct (print_error (LoopError msg)); unfold ret;
    now rewrite ?app_nil_r.
Qed.

(** A cancellation passes through both handlers of the loop. *)
Lemma iteration_line_cancelled (w : turn) (line : pystr) (s : cli) :
  typed w = Ok line ->
  forall t s',
    process_command line w s = (t, s', Raised CancelledError) ->
    iteration w s = (MainPrompt :: t, s', Raised CancelledError).
Proof.
  intros H t s' P. unfold iteration, try_except, bind, emit.
  rewrite H. cbn [external]. unfold ret. now rewrite P.
Qed.

Lemma main_loop_continue (w : turn) (rest : list turn) (s : cli) :
  forall t s',
    iteration w s = (t, s', Returned true) ->
    main_loop (w :: rest) s = prepend t (main_loop rest s').
Proof. intros t s' H. cbn [main_loop]. unfold bind. now rewrite H. Qed.

Lemma main_loop_break (w : turn) (rest : list turn) (s : cli) :
  forall t s',
    iteration w s = (t, s', Returned false) ->
    main_loop (w :: rest) s = (t, s', Returned tt).
Proof.
  intros t s' H. cbn [main_loop]. unfold bind. rewrite H.
  unfold ret. now rewrite app_nil_r.
Qed.

Lemma main_loop_raises (w : turn) (rest : list turn) (s : cli) :
  forall t s' e,
    iteration w s = (t, s', Raised e) ->
    main_loop (w :: rest) s = (t, s', Raised e).
Proof. intros t s' e H. cbn [main_loop]. unfold bind. now rewrite H. Qed.

Lemma failure_run_oversized (msg : pystr) :
  occurs oversized_signature_1 msg \/ occurs oversized_signature_2 msg ->
  failure_run msg = ([ConsolePrint OversizedAdvice], Returned tt).
Proof.
  unfold occurs, failure_run. rewrite <- !contains_occurs.
  intros [-> | ->]; now rewrite ?orb_true_r.
Qed.

Lemma failure_run_generic (msg : pystr) :
  ~ (occurs oversized_signature_1 msg \/ occurs oversized_signature_2 msg) ->
  failure_run msg
  = match print_error (QueryFailed msg) with
    | Some m => ([ConsolePrint (QueryFailed msg)], Raised (Exception m))
    | None => ([ConsolePrint (QueryFailed msg); ConsolePrint QueryFailedHint],
               Returned tt)
    end.
Proof.
  unfold occurs, failure_run. rewrite <- !contains_occurs. intros H.
  destruct (contains oversized_signature_1 msg);
    destruct (contains oversized_signature_2 msg); tauto.
Qed.

(** ** Commands *)

(** C5: the trimmed line is matched by exact, case-sensitive equality
    against /help, /list, /status, /debug, /clear, /quit, /exit and /q; a
    non-empty line that is none of them, also one that only starts with a
    slash, is sent to the agent as a query; an empty line prints nothing,
    changes nothing and the loop prompts again. *)
Theorem command_dispatch (user_input : pystr) (w : turn) (s : cli) :
  let line := strip user_input in
  process_command user_input w s
  = match Spec.dispatch line with
    | Spec.NoOp => ret true s
    | Spec.Local c => execute c w s
    | Spec.FreeTextQuery q => (query_agent q (reply w) ;; ret true) s
    end /\
  (forall c, Spec.dispatch line = Spec.Local c <-> In (line, c) Spec.tokens) /\
  (forall q, Spec.dispatch line = Spec.FreeTextQuery q <->
             q = line /\ line <> [] /\ forall c, ~ In (line, c) Spec.tokens) /\
  (forall q, Spec.dispatch line = Spec.FreeTextQuery q ->
             exists t r, process_command user_input w s
                         = (query_start line ++ t, s, r)) /\
  (line = [] ->
   process_command user_input w s = ([], s, Returned true) /\
   (typed w = Ok user_input ->
    forall rest,
      main_loop (w :: rest) s = prepend [MainPrompt] (main_loop rest s))) /\
  Spec.dispatch (lit "/HELP") = Spec.FreeTextQuery (lit "/HELP") /\
  Spec.dispatch (lit "/helpme") = Spec.FreeTextQuery (lit "/helpme") /\
  Spec.dispatch (lit "/help me") = Spec.FreeTextQuery (lit "/help me") /\
  Spec.dispatch (lit "/") = Spec.FreeTextQuery (lit "/").
Proof.
  cbv zeta. split; [apply process_command_dispatch|].
  assert (Hlocal : forall c, Spec.dispatch (strip user_input) = Spec.Local c
                             <-> In (strip user_input, c) Spec.tokens).
  { intros c. rewrite <- recognise_token. unfold Spec.dispatch.
    destruct (strip user_input) as [|a line] eqn:E.
    - split; [discriminate|]. intros H. apply recognise_token in H.
      cbn in H. intuition discriminate.
    - destruct (Spec.recognise (a :: line)); split; congruence. }
  split; [exact Hlocal|]. split; [|split; [|split]].
  - intros q. split.
    + intros H. assert (E : q = strip user_input).
      { unfold Spec.dispatch in H. destruct (strip user_input);
          [discriminate|]. destruct (Spec.recognise _); congruence. }
      split; [exact E|]. split.
      * intros N. rewrite N in H. discriminate.
      * intros c I. apply Hlocal in I. congruence.
    + intros (-> & N & T). unfold Spec.dispatch.
      destruct (strip user_input) as [|a line] eqn:E; [congruence|].
      destruct (Spec.recognise (a :: line)) as [c|] eqn:R; [|reflexivity].
      apply recognise_token in R. now apply T in R.
  - intros q H. rewrite process_command_dispatch, H.
    assert (E : q = strip user_input).
    { unfold Spec.dispatch in H. destruct (strip user_input);
        [discriminate|]. destruct (Spec.recognise _); congruence. }
    subst q.
    destruct (query_agent_prints (strip user_input) (reply w) s)
      as (t & res & Q & _ & _).
    unfold bind. rewrite Q.
    destruct res as [[] | e |]; unfold ret; rewrite ?app_nil_r; eauto.
  - intros E.
    assert (P : process_command user_input w s = ([], s, Returned true)).
    { rewrite process_command_dispatch, E. reflexivity. }
    split; [exact P|]. intros T rest.
    apply main_loop_continue.
    now apply iteration_line with (line := user_input).
  - repeat split.
Qed.

(** C8: [/debug] flips the debug flag, and a second [/debug] restores the
    state the first one found. *)
Theorem debug_toggle_involutive
    (first second : pystr) (w1 w2 : turn) (s : cli) :
  strip first = lit "/debug" -> strip second = lit "/debug" ->
  exists t1 s1 t2,
    process_command first w1 s = (t1, s1, Returned true) /\
    show_react_steps s1 = negb (show_react_steps s) /\
    process_command second w2 s1 = (t2, s, Returned true).
Proof.
  intros H1 H2. destruct s as [a sa []];
    do 3 eexists;
    (split; [rewrite process_command_dispatch, H1; reflexivity|]);
    (split; [reflexivity|]);
    rewrite process_command_dispatch, H2; reflexivity.
Qed.

(** ** Start and end of the process *)

Lemma release_run (d : outcome unit) (s : cli) :
  agent s = true -> session_active s = true ->
  release d s =
  ([ConsolePrint Disconnecting; AgentDisconnect] ++ after_disconnect d, s,
   match d with
   | Ok _ => Returned tt
   | Interrupt => Raised KeyboardInterrupt
   | Cancelled => Raised CancelledError
   | Fails msg => Raised (Exception msg)
   end).
Proof.
  intros Ha Hs. unfold release. run_m. rewrite Ha, Hs. cbn [andb].
  destruct d as [[] | | |]; reflexivity.
Qed.

Lemma run_connected (env : environment) (script : list turn) (key : pystr) :
  api_key env = Some key -> truthy key = true -> connect env = Ok tt ->
  run env script init
  = prepend startup_trace
      (try_finally (main_loop script) (release (disconnect env)) started).
Proof.
  intros Hk Ht Hc. unfold run.
  generalize (try_finally (main_loop script) (release (disconnect env))).
  intros rest. unfold check_api_key, initialize_agent.
  rewrite Hk, Ht, Hc. run_m. cbn [negb]. unfold init.
  cbn [show_react_steps agent session_active]. fold started.
  destruct (rest started) as [[t s'] [[] | e |]]; reflexivity.
Qed.

Lemma main_missing_key (env : environment) (script : list turn) :
  match api_key env with Some key => truthy key | None => false end = false ->
  main env script
  = ([ConsolePrint MissingKeyError; ConsolePrint MissingKeyHint], Exit 1%Z).
Proof.
  intros H. unfold main, asyncio_run, run, check_api_key. rewrite H. reflexivity.
Qed.

(** The report of a failed connection is followed by [sys.exit(1)]; when
    the console refuses the report, its error ends the process instead. *)
Lemma main_connect_fails
    (env : environment) (script : list turn) (key msg : pystr) :
  api_key env = Some key -> truthy key = true -> connect env = Fails msg ->
  main env script
  = ([ConsolePrint Welcome; AgentConnect; ConsolePrint (InitFailed msg)],
     Exit 1%Z).
Proof.
  intros Hk Ht Hc. unfold main, asyncio_run, run, check_api_key, initialize_agent.
  rewrite Hk, Ht, Hc. run_m.
  destruct (markup_error (InitFailed msg)); reflexivity.
Qed.

(** C6: the process exits with status 0 after a quit command; with status
    1, having printed only the two lines about the missing key, when the
    credential is absent; with status 1, after the welcome text and the
    report of the failure, when the first connection fails; in both fatal
    cases no prompt has been shown. *)
Theorem exit_status (env : environment) (script : list turn) :
  (api_key env = None ->
   main env script
   = ([ConsolePrint MissingKeyError; ConsolePrint MissingKeyHint], Exit 1%Z) /\
   count is_prompt (fst (main env script)) = 0) /\
  (forall key msg,
     api_key env = Some key -> truthy key = true -> connect env = Fails msg ->
     main env script
     = ([ConsolePrint Welcome; AgentConnect; ConsolePrint (InitFailed msg)],
        Exit 1%Z) /\
     count is_prompt (fst (main env script)) = 0) /\
  (forall key pre w rest line t s,
     api_key env = Some key -> truthy key = true ->
     connect env = Ok tt -> disconnect env = Ok tt ->
     script = pre ++ w :: rest ->
     main_loop pre started = (t, s, Pending) ->
     typed w = Ok line ->
     Spec.dispatch (strip line) = Spec.Local Spec.Quit ->
     main env script
     = (startup_trace ++ t
          ++ [MainPrompt; ConsolePrint Goodbye; ConsolePrint Disconnecting;
              AgentDisconnect; ConsolePrint DisconnectedNotice],
        Exit 0%Z)).
Proof.
  split; [|split].
  - intros H. rewrite main_missing_key by now rewrite H. now split.
  - intros key msg Hk Ht Hc. rewrite (main_connect_fails env script Hk Ht Hc).
    now split.
  - intros key pre w rest line t s Hk Ht Hc Hd -> Hpre Hline Hquit.
    unfold main, asyncio_run. rewrite (run_connected env _ Hk Ht Hc).
    unfold try_finally. rewrite (main_loop_app pre (w :: rest) _ Hpre).
    assert (I : iteration w s
                = ([MainPrompt; ConsolePrint Goodbye], s, Returned false)).
    { apply iteration_line with (line := line); [exact Hline|].
      now rewrite process_command_dispatch, Hquit. }
    rewrite (main_loop_break w rest s I). cbn [prepend].
    pose proof (main_loop_keeps pre started) as K. rewrite Hpre in K.
    destruct K as (_ & Ka & Ks).
    rewrite release_run, Hd by assumption. cbn [after_disconnect prepend].
    now rewrite <- !app_assoc.
Qed.

(** [KeyboardInterrupt] raised in the main [Prompt.ask]. *)
Lemma iteration_interrupted (w : turn) (s : cli) :
  typed w = Interrupt ->
  iteration w s
  = prepend [MainPrompt; ConsolePrint InterruptHint; ConfirmPrompt]
      match confirm w with
      | Ok Yes => ([], s, Returned false)
      | Ok No => ([], s, Returned true)
      | Interrupt => ([ConsolePrint Goodbye], s, Returned false)
      | Cancelled => ([], s, Raised CancelledError)
      | Fails msg => ([], s, Raised (Exception msg))
      end.
Proof.
  intros H. unfold iteration, confirm_exit. run_m. rewrite H. run_m.
  destruct (confirm w) as [[] | | |]; reflexivity.
Qed.

(** How the process ends once the loop has ended. *)
Lemma main_ended
    (env : environment) (script : list turn) (key : pystr)
    (t : trace) (s' : cli) (r : result unit) :
  api_key env = Some key -> truthy key = true -> connect env = Ok tt ->
  main_loop script started = (t, s', r) -> r <> Pending ->
  main env script
  = (startup_trace ++ t
       ++ [ConsolePrint Disconnecting; AgentDisconnect]
       ++ after_disconnect (disconnect env),
     match disconnect env with
     | Ok _ =>
         match r with
         | Returned _ => Exit 0%Z
         | Raised (SystemExit code) => Exit code
         | Raised (Exception _) => Exit 1%Z
         | _ => Interrupted
         end
     | Fails _ => Exit 1%Z
     | _ => Interrupted
     end).
Proof.
  intros Hk Ht Hc L R. unfold main, asyncio_run.
  rewrite (run_connected env script Hk Ht Hc).
  unfold try_finally. pose proof (main_loop_keeps script started) as K.
  rewrite L in *. destruct K as (_ & Ka & Ks).
  destruct r as [[] | e |]; [| |congruence];
    rewrite release_run by assumption;
    destruct (disconnect env) as [[] | | |]; try destruct e; reflexivity.
Qed.

(** After a successful start, the trace of a process that has ended is the
    start, the loop, and one disconnection. *)
Lemma main_disconnects
    (env : environment) (script : list turn) (key : pystr) :
  api_key env = Some key -> truthy key = true -> connect env = Ok tt ->
  match main_loop script started with
  | (t, _, Pending) => main env script = (startup_trace ++ t, Running)
  | (t, _, _) =>
      fst (main env script)
      = startup_trace ++ t
          ++ [ConsolePrint Disconnecting; AgentDisconnect]
          ++ after_disconnect (disconnect env) /\
      snd (main env script) <> Running
  end.
Proof.
  intros Hk Ht Hc. unfold main, asyncio_run.
  rewrite (run_connected env script Hk Ht Hc).
  unfold try_finally. pose proof (main_loop_keeps script started) as K.
  destruct (main_loop script started) as [[t s'] r].
  destruct K as (_ & Ka & Ks).
  destruct r as [[] | e |]; [| |reflexivity];
    rewrite release_run by assumption;
    destruct (disconnect env) as [[] | | |]; try destruct e;
    (split; [reflexivity | discriminate]).
Qed.

Lemma count_after_disconnect (p : event -> bool) (d : outcome unit) :
  p (ConsolePrint DisconnectedNotice) = false ->
  count p (after_disconnect d) = 0.
Proof.
  intros H. destruct d as [[] | | |]; unfold count; cbn; now rewrite ?H.
Qed.

(** A failing query, as the loop sees it. *)
Lemma query_failure_iteration
    (w : turn) (line : pystr) (s : cli) (before : trace) (msg : pystr) :
  typed w = Ok line ->
  Spec.dispatch (strip line) = Spec.FreeTextQuery (strip line) ->
  query_agent (strip line) (reply w) s = reported before msg s ->
  iteration w s
  = match snd (failure_run msg) with
    | Raised (Exception m) =>
        (MainPrompt :: before ++ fst (failure_run msg)
           ++ [ConsolePrint (LoopError m)], s,
         match print_error (LoopError m) with
         | None => Returned true
         | Some m' => Raised (Exception m')
         end)
    | _ => (MainPrompt :: before ++ fst (failure_run msg), s, Returned true)
    end.
Proof.
  intros Hline Hd Q.
  pose proof (process_command_dispatch line w s) as P.
  rewrite Hd in P. unfold bind in P. rewrite Q in P. unfold reported in P.
  destruct (failure_run_result msg) as [R | [m [R _]]]; rewrite R in *.
  - unfold ret in P. rewrite app_nil_r in P.
    now apply iteration_line with (line := line).
  - rewrite (@iteration_line_fails w line s Hline _ _ _ P). now rewrite <- app_assoc.
Qed.

Lemma dispatch_query_line (line q : pystr) :
  Spec.dispatch line = Spec.FreeTextQuery q -> q = line.
Proof.
  unfold Spec.dispatch. destruct line; [discriminate|].
  destruct (Spec.recognise _); congruence.
Qed.

(** C4: an exception raised by the query or by the stream is reported with
    the oversized-payload advice when its description contains one of the
    two signatures, and with the generic message otherwise.  With the advice,
    and with a generic message the console accepts, [query_agent] returns,
    the state is what it was and the loop goes on with the rest of the
    session.  A generic message the console refuses (the description is
    spliced into console markup) makes the handler itself raise: the loop
    reports that error in the same way, goes on if this second report is
    accepted, and otherwise ends; the process then disconnects and exits
    with status 1. *)
Theorem query_failure_recovery
    (question : pystr) (r : response) (s : cli) (msg : pystr) :
  query_outcome r = Fails msg \/
  (query_outcome r = Ok tt /\ accepts (stream_trace s (stream r)) = true /\
   ending r = Fails msg) ->
  let before :=
    query_start question
      ++ match query_outcome r with
         | Ok _ => stream_trace s (stream r)
         | _ => []
         end in
    query_agent question r s = reported before msg s /\
    (occurs oversized_signature_1 msg \/ occurs oversized_signature_2 msg ->
     failure_run msg = ([ConsolePrint OversizedAdvice], Returned tt)) /\
    (~ (occurs oversized_signature_1 msg \/ occurs oversized_signature_2 msg) ->
     failure_run msg
     = match print_error (QueryFailed msg) with
       | Some m => ([ConsolePrint (QueryFailed msg)], Raised (Exception m))
       | None =>
           ([ConsolePrint (QueryFailed msg); ConsolePrint QueryFailedHint],
            Returned tt)
       end) /\
    forall w line rest,
      typed w = Ok line ->
      Spec.dispatch (strip line) = Spec.FreeTextQuery question ->
      reply w = r ->
      (snd (failure_run msg) = Returned tt ->
       main_loop (w :: rest) s
       = prepend (MainPrompt :: before ++ fst (failure_run msg))
           (main_loop rest s)) /\
      (forall m,
         snd (failure_run msg) = Raised (Exception m) ->
         (print_error (LoopError m) = None ->
          main_loop (w :: rest) s
          = prepend (MainPrompt :: before ++ fst (failure_run msg)
                       ++ [ConsolePrint (LoopError m)])
              (main_loop rest s)) /\
         (forall m',
            print_error (LoopError m) = Some m' ->
            main_loop (w :: rest) s
            = (MainPrompt :: before ++ fst (failure_run msg)
                 ++ [ConsolePrint (LoopError m)], s,
               Raised (Exception m')) /\
            forall env key,
              s = started ->
              api_key env = Some key -> truthy key = true ->
              connect env = Ok tt -> disconnect env = Ok tt ->
              main env (w :: rest)
              = (startup_trace
                   ++ (MainPrompt :: before ++ fst (failure_run msg)
                         ++ [ConsolePrint (LoopError m)])
                   ++ [ConsolePrint Disconnecting; AgentDisconnect;
                       ConsolePrint DisconnectedNotice],
                 Exit 1%Z))).
Proof.
  intros H. cbv zeta.
  set (before := query_start question
                   ++ match query_outcome r with
                      | Ok _ => stream_trace s (stream r)
                      | _ => []
                      end).
  assert (Q : query_agent question r s = reported before msg s).
  { unfold before. rewrite query_agent_run.
    destruct H as [-> | (-> & Ha & ->)]; [now rewrite app_nil_r|].
    now rewrite (attempt_accepts _ Ha). }
  split; [exact Q|].
  split; [apply failure_run_oversized|].
  split; [apply failure_run_generic|].
  intros w line rest Hline Hdispatch Hreply.
  pose proof (dispatch_query_line _ Hdispatch) as E.
  clearbody before. subst question r.
  pose proof (@query_failure_iteration w line s before msg Hline Hdispatch Q) as I.
  split.
  - intros R. rewrite R in I. now apply main_loop_continue.
  - intros m R. rewrite R in I. split.
    + intros L. rewrite L in I. now apply main_loop_continue.
    + intros m' L. rewrite L in I.
      pose proof (@main_loop_raises w rest s _ _ _ I) as ML.
      split; [exact ML|].
      intros env key -> Hk Ht Hc Hd.
      rewrite (@main_ended env (w :: rest) key _ _ _ Hk Ht Hc ML) by discriminate.
      rewrite Hd. reflexivity.
Qed.

(** C7: [KeyboardInterrupt] raised in the main prompt leads to exactly one
    confirmation prompt; on the answer n the loop prompts again and goes
    on with the rest of the session; on the answer y, or on
    [KeyboardInterrupt] in the confirmation prompt, the loop ends.  Where
    the runner of [asyncio.run] answers the interrupt by cancelling the
    task, the prompt is not interrupted; the question typed next is
    cancelled at [agent.query], neither handler of the loop catches that,
    no confirmation prompt is shown, and the process disconnects and ends
    interrupted.  Whenever a process that has connected ends, [disconnect]
    has been called exactly once, after the connection and after the loop,
    with no prompt behind it. *)
Theorem interrupt_and_disconnect
    (env : environment) (script : list turn)
    (w : turn) (rest : list turn) (s : cli) :
  (typed w = Interrupt ->
   count is_confirm_prompt (fst (fst (iteration w s))) = 1 /\
   (confirm w = Ok No ->
    main_loop (w :: rest) s
    = prepend [MainPrompt; ConsolePrint InterruptHint; ConfirmPrompt]
        (main_loop rest s)) /\
   (confirm w = Ok Yes ->
    main_loop (w :: rest) s
    = ([MainPrompt; ConsolePrint InterruptHint; ConfirmPrompt], s,
       Returned tt)) /\
   (confirm w = Interrupt ->
    main_loop (w :: rest) s
    = ([MainPrompt; ConsolePrint InterruptHint; ConfirmPrompt;
        ConsolePrint Goodbye], s, Returned tt))) /\
  (forall line question,
     typed w = Ok line ->
     Spec.dispatch (strip line) = Spec.FreeTextQuery question ->
     query_outcome (reply w) = Cancelled ->
     iteration w s
     = (MainPrompt :: query_start question, s, Raised CancelledError) /\
     count is_confirm_prompt (fst (fst (iteration w s))) = 0 /\
     main_loop (w :: rest) s
     = (MainPrompt :: query_start question, s, Raised CancelledError) /\
     forall key,
       s = started ->
       api_key env = Some key -> truthy key = true ->
       connect env = Ok tt -> disconnect env = Ok tt ->
       main env (w :: rest)
       = (startup_trace ++ (MainPrompt :: query_start question)
            ++ [ConsolePrint Disconnecting; AgentDisconnect;
                ConsolePrint DisconnectedNotice],
          Interrupted)) /\
  (forall key,
     api_key env = Some key -> truthy key = true -> connect env = Ok tt ->
     (snd (main env script) = Running ->
      count is_disconnect (fst (main env script)) = 0) /\
     (snd (main env script) <> Running ->
      count is_disconnect (fst (main env script)) = 1 /\
      exists t after,
        fst (main env script)
        = (startup_trace ++ t) ++ AgentDisconnect :: after /\
        count is_connect startup_trace = 1 /\
        count is_disconnect (startup_trace ++ t) = 0 /\
        count is_prompt after = 0)).
Proof.
  split; [|split].
  - intros H. pose proof (iteration_interrupted w s H) as I.
    split; [|split; [|split]].
    + rewrite I. now destruct (confirm w) as [[] | | |].
    + intros C. rewrite C in I. now apply main_loop_continue.
    + intros C. rewrite C in I. now apply main_loop_break.
    + intros C. rewrite C in I. now apply main_loop_break.
  - intros line question Hline Hd Hq.
    assert (P : process_command line w s
                = (query_start question, s, Raised CancelledError)).
    { rewrite process_command_dispatch, Hd. unfold bind.
      now rewrite query_agent_run, Hq. }
    pose proof (@iteration_line_cancelled w line s Hline _ _ P) as I.
    pose proof (@main_loop_raises w rest s _ _ _ I) as ML.
    split; [exact I|]. split; [now rewrite I|]. split; [exact ML|].
    intros key -> Hk Ht Hc Hd'.
    rewrite (@main_ended env (w :: rest) key _ _ _ Hk Ht Hc ML) by discriminate.
    rewrite Hd'. reflexivity.
  - intros key Hk Ht Hc.
    pose proof (main_disconnects env script Hk Ht Hc) as M.
    pose proof (main_loop_keeps script started) as K.
    destruct (main_loop script started) as [[t s'] r].
    destruct K as (K & _).
    assert (ended :
      fst (main env script)
      = startup_trace ++ t
          ++ [ConsolePrint Disconnecting; AgentDisconnect]
          ++ after_disconnect (disconnect env) ->
      count is_disconnect (fst (main env script)) = 1 /\
      exists t0 after,
        fst (main env script)
        = (startup_trace ++ t0) ++ AgentDisconnect :: after /\
        count is_connect startup_trace = 1 /\
        count is_disconnect (startup_trace ++ t0) = 0 /\
        count is_prompt after = 0).
    { intros ->. split.
      - rewrite !count_app, K, count_after_disconnect; reflexivity.
      - exists (t ++ [ConsolePrint Disconnecting]),
          (after_disconnect (disconnect env)).
        split; [now rewrite <- !app_assoc|]. split; [reflexivity|].
        split; [now rewrite !count_app, K|].
        now apply count_after_disconnect. }
    destruct r as [[] | e |].
    + destruct M as [M R]. split; [intros R'; now elim R | intros _; auto].
    + destruct M as [M R]. split; [intros R'; now elim R | intros _; auto].
    + rewrite M. cbn [fst snd]. split; [intros _ | intros R; now elim R].
      now rewrite count_app, K.
Qed.

(** ** The document list *)

Lemma round_half_even_nearest (a b : N) :
  b <> 0%N -> nearest a b (round_half_even a b).
Proof.
  intros Hb. unfold nearest, round_half_even.
  pose proof (N.div_mod' a b) as E.
  pose proof (N.mod_upper_bound a b Hb) as U.
  set (q := (a / b)%N) in *. set (r := (a mod b)%N) in *.
  destruct ((b <? 2 * r)%N || (2 * r =? b)%N && N.odd q) eqn:C.
  - apply orb_true_iff in C. destruct C as [C | C].
    + apply N.ltb_lt in C. lia.
    + apply andb_true_iff in C. destruct C as [C _]. apply N.eqb_eq in C. lia.
  - apply orb_false_iff in C. destruct C as [C _]. apply N.ltb_ge in C. lia.
Qed.

(** On a tie the even neighbour is taken. *)
Lemma round_half_even_tie (a b : N) :
  b <> 0%N -> (2 * (a mod b) = b)%N -> N.even (round_half_even a b) = true.
Proof.
  intros Hb T. unfold round_half_even.
  rewrite T, N.ltb_irrefl, N.eqb_refl. cbn [orb andb].
  destruct (N.odd (a / b)) eqn:O.
  - rewrite N.add_1_r, N.even_succ. exact O.
  - rewrite <- N.negb_odd, O. reflexivity.
Qed.

Lemma round53_exact (n : N) : (n < 2 ^ 53)%N -> round53 n = n.
Proof.
  intros H. unfold round53.
  destruct (N.size n <=? 53)%N eqn:E; [reflexivity|].
  apply N.leb_gt in E. exfalso.
  assert (P : (2 ^ 54 <= 2 ^ N.size n)%N) by (apply N.pow_le_mono_r; lia).
  pose proof (N.size_le n) as L. rewrite N.succ_double_spec in L.
  change (2 ^ 54)%N with 18014398509481984%N in P.
  change (2 ^ 53)%N with 9007199254740992%N in H. lia.
Qed.

Lemma table_rows_run (files : list path_entry) :
  forall idx s,
    Forall stat_succeeds files ->
    table_rows idx files s = ([], s, Returned (numbered_rows idx files)).
Proof.
  induction files as [|f files IH]; intros idx s H; [reflexivity|].
  inversion H as [|? ? [n Hn] Hrest]; subst.
  cbn [table_rows numbered_rows]. unfold bind, size_of.
  rewrite Hn. cbn [external]. unfold ret.
  now rewrite (IH _ _ Hrest).
Qed.

Lemma numbered_rows_nth (files : list path_entry) :
  forall idx i f,
    nth_error files i = Some f ->
    nth_error (numbered_rows idx files) i
    = Some {| row_index := str_of_N (idx + N.of_nat i);
              row_name := name f;
              row_size := format_size (size_of f);
              row_parent := rel_parent f |}.
Proof.
  induction files as [|g files IH]; intros idx [|i] f H; try discriminate.
  - injection H as <-. cbn. now rewrite N.add_0_r.
  - cbn [numbered_rows nth_error] in *. rewrite (IH _ _ _ H).
    do 3 f_equal. lia.
Qed.

Lemma numbered_rows_names (files : list path_entry) :
  forall idx, map row_name (numbered_rows idx files) = map name files.
Proof.
  induction files as [|f files IH]; intros idx; cbn; now rewrite ?IH.
Qed.

Lemma numbered_rows_length (files : list path_entry) :
  forall idx, List.length (numbered_rows idx files) = List.length files.
Proof.
  induction files as [|f files IH]; intros idx; cbn; now rewrite ?IH.
Qed.

(** With the sizes of all documents at hand, the table is handed to the
    console; a table the console refuses is reported by the handler of
    [list_documents] like any other failure. *)
Lemma list_documents_run (entries : list path_entry) (s : cli) :
  Forall stat_succeeds (filter listed entries) ->
  filter listed entries <> [] ->
  list_documents (Ok entries) s
  = (ConsolePrint Scanning :: fst (table_run (filter listed entries)), s,
     snd (table_run (filter listed entries))).
Proof.
  intros H N. unfold list_documents. unfold bind at 1.
  rewrite console_print_run. unfold print_result at 1. cbn [print_error].
  unfold try_except, bind. cbn [external]. unfold ret at 1. cbv zeta.
  destruct (filter listed entries) as [|f files] eqn:E; [congruence|].
  rewrite (table_rows_run _ _ H), console_print_run.
  unfold table_run, print_result.
  destruct (print_error (DocTable _ _)) as [m|]; [|reflexivity].
  rewrite console_print_run. unfold print_result.
  now destruct (print_error (ListFailed m)).
Qed.

Lemma table_run_shape (files : list path_entry) :
  exists t,
    fst (table_run files)
    = ConsolePrint (DocTable (List.length files) (numbered_rows 1 files)) :: t /\
    (print_error (DocTable (List.length files) (numbered_rows 1 files)) = None ->
     t = [] /\ snd (table_run files) = Returned tt).
Proof.
  unfold table_run.
  destruct (print_error (DocTable _ _)) as [m|]; eexists;
    (split; [reflexivity|]); [discriminate | auto].
Qed.

(** C9: a size below 1024 is shown as the byte count and " B"; a size from
    1024 up to 1024 * 1024 as the size over 1024 with one decimal and
    " KB"; any larger size as the size over 1024 * 1024 with one decimal and
    " MB" (500, 2048 and 1048576 bytes give "500 B", "2.0 KB", "1.0 MB").
    The rows of the table handed to the console are the listed files in
    the order they were discovered, numbered from 1, and the title carries
    their number; [list_documents] returns after that print when the
    console accepts the table. *)
Theorem document_list (size : N) (entries : list path_entry) (s : cli) :
  ((size < 1024)%N -> format_size size = str_of_N size ++ lit " B") /\
  ((1024 <= size < 1024 * 1024)%N ->
   format_size size = one_decimal (tenths size 1024) ++ lit " KB" /\
   nearest (10 * size) 1024 (tenths size 1024)) /\
  ((1024 * 1024 <= size)%N ->
   format_size size = one_decimal (tenths size (1024 * 1024)) ++ lit " MB" /\
   nearest (10 * round53 size) (1024 * 1024) (tenths size (1024 * 1024)) /\
   ((size < 2 ^ 53)%N -> round53 size = size)) /\
  format_size 500 = lit "500 B" /\
  format_size 2048 = lit "2.0 KB" /\
  format_size 1048576 = lit "1.0 MB" /\
  (let files := filter listed entries in
   Forall stat_succeeds files -> files <> [] ->
   (exists t res,
      list_documents (Ok entries) s
      = (ConsolePrint Scanning
           :: ConsolePrint (DocTable (List.length files) (numbered_rows 1 files))
           :: t,
         s, res) /\
      (print_error (DocTable (List.length files) (numbered_rows 1 files)) = None ->
       t = [] /\ res = Returned tt)) /\
   List.length (numbered_rows 1 files) = List.length files /\
   map row_name (numbered_rows 1 files) = map name files /\
   forall i f,
     nth_error files i = Some f ->
     nth_error (numbered_rows 1 files) i
     = Some {| row_index := str_of_N (1 + N.of_nat i);
               row_name := name f;
               row_size := format_size (size_of f);
               row_parent := rel_parent f |}) /\
  (let table :=
     DocTable 3
       [{| row_index := lit "1"; row_name := lit "a.txt";
           row_size := lit "500 B"; row_parent := lit "." |};
        {| row_index := lit "2"; row_name := lit "b.csv";
           row_size := lit "2.0 KB"; row_parent := lit "." |};
        {| row_index := lit "3"; row_name := lit "c.pdf";
           row_size := lit "1.0 MB"; row_parent := lit "." |}] in
   exists t res,
     list_documents (Ok three_documents) s
     = (ConsolePrint Scanning :: ConsolePrint table :: t, s, res) /\
     (print_error table = None -> t = [] /\ res = Returned tt)).
Proof.
  assert (Table : forall found,
    Forall stat_succeeds (filter listed found) -> filter listed found <> [] ->
    exists t res,
      list_documents (Ok found) s
      = (ConsolePrint Scanning
           :: ConsolePrint (DocTable (List.length (filter listed found))
                              (numbered_rows 1 (filter listed found)))
           :: t,
         s, res) /\
      (print_error (DocTable (List.length (filter listed found))
                      (numbered_rows 1 (filter listed found))) = None ->
       t = [] /\ res = Returned tt)).
  { intros found F N. rewrite (list_documents_run _ s F N).
    destruct (table_run_shape (filter listed found)) as [t [E A]].
    exists t, (snd (table_run (filter listed found))).
    rewrite E. split; [reflexivity | exact A]. }
  split; [|split; [|split]].
  - intros H. unfold format_size. apply N.ltb_lt in H. now rewrite H.
  - intros [H1 H2]. unfold format_size, format_1f, one_decimal.
    apply N.ltb_ge in H1. apply N.ltb_lt in H2. rewrite H1, H2.
    split; [now rewrite <- !app_assoc|].
    unfold tenths. rewrite round53_exact.
    + now apply round_half_even_nearest.
    + apply N.ltb_lt in H2. change (2 ^ 53)%N with 9007199254740992%N. lia.
  - intros H. unfold format_size, format_1f, one_decimal.
    assert (H1 : (size <? 1024)%N = false) by (apply N.ltb_ge; lia).
    apply N.ltb_ge in H. rewrite H1, H.
    split; [now rewrite <- !app_assoc|].
    split; [now apply round_half_even_nearest | apply round53_exact].
  - do 3 (split; [vm_compute; reflexivity|]).
    split.
    + cbv zeta. intros F N.
      split; [now apply Table|].
      split; [apply numbered_rows_length|].
      split; [apply numbered_rows_names|].
      intros i f H. now apply numbered_rows_nth.
    + cbv zeta.
      assert (F : Forall stat_succeeds (filter listed three_documents))
        by (repeat constructor; eexists; reflexivity).
      assert (N : filter listed three_documents <> []) by discriminate.
      exact (Table three_documents F N).
Qed.

(** * Further properties *)

(** ** Trimming *)

Lemma lstrip_blank_app (pre s : pystr) :
  blank pre = true -> lstrip (pre ++ s) = lstrip s.
Proof.
  unfold blank. induction pre as [|c pre IH]; [reflexivity|].
  cbn [forallb app lstrip]. intros H. apply andb_true_iff in H as [-> H].
  now apply IH.
Qed.

Lemma blank_rev (s : pystr) : blank (rev s) = blank s.
Proof.
  unfold blank. induction s as [|c s IH]; [reflexivity|].
  cbn [rev forallb]. rewrite forallb_app, IH. cbn [forallb].
  rewrite andb_true_r. apply andb_comm.
Qed.

Lemma rstrip_blank_app (s post : pystr) :
  blank post = true -> rstrip (s ++ post) = rstrip s.
Proof.
  intros H. unfold rstrip. rewrite rev_app_distr, lstrip_blank_app;
    [reflexivity | now rewrite blank_rev].
Qed.

(** What [lstrip] removes is white space, and it stops at the first
    character that is not. *)
Lemma lstrip_split (s : pystr) :
  exists pre,
    s = pre ++ lstrip s /\ blank pre = true /\
    match lstrip s with [] => True | c :: _ => isspace c = false end.
Proof.
  induction s as [|c s (pre & E & B & H)].
  - now exists [].
  - cbn [lstrip]. destruct (isspace c) eqn:C.
    + exists (c :: pre). cbn [app]. rewrite <- E. unfold blank in *.
      cbn [forallb]. now rewrite C, B.
    + now exists [].
Qed.

Lemma lstrip_fixed (s : pystr) :
  match s with [] => True | c :: _ => isspace c = false end -> lstrip s = s.
Proof. destruct s as [|c s]; [reflexivity|]. cbn [lstrip]. now intros ->. Qed.

Lemma last_rev_head (s : pystr) (c d : N) : last (rev (c :: s)) d = c.
Proof. cbn [rev]. apply last_last. Qed.

Lemma rstrip_split (s : pystr) :
  exists post,
    s = rstrip s ++ post /\ blank post = true /\
    match rstrip s with
    | [] => True
    | c :: _ => isspace (last (rstrip s) c) = false
    end.
Proof.
  unfold rstrip. destruct (lstrip_split (rev s)) as (pre & E & B & H).
  exists (rev pre). split; [|split].
  - rewrite <- rev_app_distr, <- E. now rewrite rev_involutive.
  - now rewrite blank_rev.
  - destruct (lstrip (rev s)) as [|c r] eqn:L; [exact I|].
    destruct (rev (c :: r)) as [|d r'] eqn:R.
    + apply (f_equal (@List.length N)) in R. cbn in R.
      rewrite length_app in R. cbn in R. lia.
    + rewrite <- R, last_rev_head. exact H.
Qed.

Lemma rstrip_fixed (s : pystr) :
  match s with [] => True | c :: _ => isspace (last s c) = false end ->
  rstrip s = s.
Proof.
  intros H. unfold rstrip. rewrite lstrip_fixed; [apply rev_involutive|].
  destruct s as [|c s]; [exact I|].
  destruct (rev (c :: s)) as [|d r] eqn:R; [exact I|].
  assert (L : last (c :: s) c = d).
  { rewrite <- (rev_involutive (c :: s)), R. apply last_rev_head. }
  now rewrite <- L.
Qed.

Lemma blank_head (s : pystr) (c : N) :
  blank (c :: s) = true -> isspace c = true.
Proof. unfold blank. cbn [forallb]. intros H. now apply andb_true_iff in H. Qed.

Lemma strip_trimmed (s : pystr) : trimmed (strip s) = true.
Proof.
  unfold strip. destruct (lstrip_split s) as (pre & _ & _ & H).
  destruct (rstrip_split (lstrip s)) as (post & E & B & L).
  unfold trimmed. destruct (rstrip (lstrip s)) as [|c r] eqn:R; [reflexivity|].
  rewrite L. rewrite E in H. cbn [app] in H. now rewrite H.
Qed.

Lemma strip_wrapped (pre core post : pystr) :
  blank pre = true -> blank post = true -> trimmed core = true ->
  strip (pre ++ core ++ post) = core.
Proof.
  intros Bpre Bpost T. unfold strip. rewrite lstrip_blank_app by exact Bpre.
  destruct core as [|c core].
  - cbn [app]. destruct (lstrip_split post) as (ws & E & _ & H).
    destruct (lstrip post) as [|d r] eqn:L; [reflexivity|].
    exfalso. rewrite E in Bpost. unfold blank in Bpost.
    rewrite forallb_app in Bpost. apply andb_true_iff in Bpost as [_ Bpost].
    apply blank_head in Bpost. congruence.
  - cbn [trimmed] in T. apply andb_true_iff in T as [T1 T2].
    apply negb_true_iff in T1, T2.
    rewrite lstrip_fixed by exact T1.
    rewrite rstrip_blank_app by exact Bpost. now apply rstrip_fixed.
Qed.

Lemma process_command_strip (u v : pystr) (w : turn) (s : cli) :
  strip u = strip v -> process_command u w s = process_command v w s.
Proof. intros H. now rewrite !process_command_dispatch, H. Qed.

(** X1: [process_command] ignores the white space around a line: a line
    wrapped in white space is handled exactly as the bare line, a line of
    white space only does nothing, and what is dispatched never starts or
    ends with white space. *)
Theorem surrounding_whitespace_ignored
    (pre core post : pystr) (w : turn) (s : cli) :
  blank pre = true -> blank post = true -> trimmed core = true ->
  strip (pre ++ core ++ post) = core /\
  process_command (pre ++ core ++ post) w s = process_command core w s /\
  process_command (pre ++ post) w s = ([], s, Returned true) /\
  (forall line, trimmed (strip line) = true /\ strip (strip line) = strip line).
Proof.
  intros Bpre Bpost T.
  assert (E : strip (pre ++ core ++ post) = core) by now apply strip_wrapped.
  split; [exact E|]. split; [|split].
  - apply process_command_strip. rewrite E.
    symmetry. pose proof (@strip_wrapped [] core [] eq_refl eq_refl T) as H.
    now rewrite app_nil_r in H.
  - rewrite process_command_dispatch.
    pose proof (@strip_wrapped pre [] post Bpre Bpost eq_refl) as H.
    cbn [app] in H. now rewrite H.
  - intros line. split; [apply strip_trimmed|].
    pose proof (@strip_wrapped [] (strip line) [] eq_refl eq_refl
                  (strip_trimmed line)) as H.
    now rewrite app_nil_r in H.
Qed.

(** ** The document list: failures and hidden files *)

Lemma stat_succeeds_dec (f : path_entry) :
  stat_succeeds f \/ stat_size f = Interrupt \/ stat_size f = Cancelled \/
  exists msg, stat_size f = Fails msg.
Proof.
  unfold stat_succeeds. destruct (stat_size f) as [n | | | msg]; eauto.
Qed.

(** Either every [stat] succeeds or there is a first one that does not. *)
Lemma first_failing_stat (files : list path_entry) :
  Forall stat_succeeds files \/
  exists pre f rest,
    files = pre ++ f :: rest /\ Forall stat_succeeds pre /\
    ~ stat_succeeds f.
Proof.
  induction files as [|f files [IH | (pre & g & rest & E & P & H)]].
  - now left.
  - destruct (stat_succeeds_dec f) as [S | F].
    + left. now constructor.
    + right. exists [], f, files. repeat split; [constructor|].
      intros [n S]. rewrite S in F. destruct F as [F | [F | [m F]]]; discriminate.
  - destruct (stat_succeeds_dec f) as [S | F].
    + right. exists (f :: pre), g, rest. rewrite E.
      repeat split; [now constructor | exact H].
    + right. exists [], f, files. repeat split; [constructor|].
      intros [n S]. rewrite S in F. destruct F as [F | [F | [m F]]]; discriminate.
Qed.

Lemma table_rows_raises (pre : list path_entry) :
  forall idx f rest s e,
    Forall stat_succeeds pre ->
    external (stat_size f) s = ([], s, Raised e) ->
    table_rows idx (pre ++ f :: rest) s = ([], s, Raised e).
Proof.
  induction pre as [|g pre IH]; intros idx f rest s e P H.
  - cbn [app table_rows]. unfold bind. now rewrite H.
  - inversion P as [|? ? [n Hn] P']; subst.
    cbn [app table_rows]. unfold bind. rewrite Hn. cbn [external]. unfold ret.
    now rewrite (IH _ _ _ _ _ P' H).
Qed.

Lemma list_documents_first_failure
    (entries pre rest : list path_entry) (f : path_entry) (s : cli) :
  filter listed entries = pre ++ f :: rest -> Forall stat_succeeds pre ->
  list_documents (Ok entries) s
  = match stat_size f with
    | Ok _ => list_documents (Ok entries) s
    | Interrupt => ([ConsolePrint Scanning], s, Raised KeyboardInterrupt)
    | Cancelled => ([ConsolePrint Scanning], s, Raised CancelledError)
    | Fails msg =>
        ([ConsolePrint Scanning; ConsolePrint (ListFailed msg)], s,
         print_result (ListFailed msg))
    end.
Proof.
  intros E P. destruct (stat_size f) as [n | | | msg] eqn:S; [reflexivity| | |];
    unfold list_documents; unfold bind at 1;
    rewrite console_print_run; unfold print_result at 1; cbn [print_error];
    unfold try_except, bind; cbn [external]; unfold ret at 1; cbv zeta;
    rewrite E;
    destruct (pre ++ f :: rest) as [|g files] eqn:G;
    try (now destruct pre); rewrite <- G;
    rewrite (@table_rows_raises pre 1%N f rest s _ P
               ltac:(rewrite S; reflexivity));
    rewrite ?console_print_run; reflexivity.
Qed.

Lemma list_documents_none (entries : list path_entry) (s : cli) :
  filter listed entries = [] ->
  list_documents (Ok entries) s
  = ([ConsolePrint Scanning; ConsolePrint NoDocuments], s, Returned tt).
Proof.
  intros E. unfold list_documents, try_except, bind, console_print, emit.
  cbn [external print_error]. unfold ret. cbv zeta. now rewrite E.
Qed.

Lemma list_documents_fails (msg : pystr) (s : cli) :
  list_documents (Fails msg) s
  = ([ConsolePrint Scanning; ConsolePrint (ListFailed msg)], s,
     print_result (ListFailed msg)).
Proof.
  unfold list_documents. unfold bind at 1.
  rewrite console_print_run. unfold print_result at 1. cbn [print_error].
  unfold try_except, bind. cbn [external]. unfold raise.
  now rewrite console_print_run.
Qed.

(** Everything [list_documents] can do. *)
Lemma list_documents_outcome (found : outcome (list path_entry)) (s : cli) :
  list_documents found s = ([ConsolePrint Scanning], s, Raised KeyboardInterrupt) \/
  list_documents found s = ([ConsolePrint Scanning], s, Raised CancelledError) \/
  (exists msg,
     list_documents found s
     = ([ConsolePrint Scanning; ConsolePrint (ListFailed msg)], s,
        print_result (ListFailed msg))) \/
  list_documents found s
  = ([ConsolePrint Scanning; ConsolePrint NoDocuments], s, Returned tt) \/
  (exists entries,
     found = Ok entries /\ filter listed entries <> [] /\
     Forall stat_succeeds (filter listed entries) /\
     list_documents found s
     = (ConsolePrint Scanning :: fst (table_run (filter listed entries)), s,
        snd (table_run (filter listed entries)))).
Proof.
  destruct found as [entries | | | msg].
  - destruct (filter listed entries) as [|f0 files0] eqn:E.
    { right. right. right. left. now apply list_documents_none. }
    destruct (first_failing_stat (filter listed entries))
      as [A | (pre & f & rest & Ef & P & F)].
    + right. right. right. right. exists entries. rewrite E in *.
      repeat split; [discriminate | exact A |].
      rewrite <- E. apply list_documents_run; rewrite E; [exact A|discriminate].
    + rewrite (@list_documents_first_failure entries pre rest f s Ef P).
      destruct (stat_size f) as [n | | | msg] eqn:S.
      * elim F. now exists n.
      * now left.
      * right. now left.
      * right. right. left. now exists msg.
  - now left.
  - right. now left.
  - right. right. left. exists msg. apply list_documents_fails.
Qed.

Lemma print_result_cases (r : rendering) :
  print_result r = Returned tt \/
  exists m, print_result r = Raised (Exception m) /\ print_error r = Some m.
Proof.
  unfold print_result. destruct (print_error r) as [m|]; [right; eauto | now left].
Qed.

(** [list_documents] only prints; it returns, is interrupted or cancelled,
    or ends with the error of a refused failure line. *)
Lemma list_documents_prints (found : outcome (list path_entry)) (s : cli) :
  exists t res,
    list_documents found s = (ConsolePrint Scanning :: t, s, res) /\
    printed t /\ (res = Returned tt \/ escapes res) /\
    (res = Raised KeyboardInterrupt \/ res = Raised CancelledError -> t = []) /\
    (forall m,
       res = Raised (Exception m) ->
       exists msg t',
         print_error (ListFailed msg) = Some m /\
         t = t' ++ [ConsolePrint (ListFailed msg)]).
Proof.
  unfold escapes.
  destruct (list_documents_outcome found s)
    as [H | [H | [[msg H] | [H | (entries & _ & _ & _ & H)]]]]; rewrite H.
  - exists [], (Raised KeyboardInterrupt).
    repeat split; [constructor | tauto | discriminate].
  - exists [], (Raised CancelledError).
    repeat split; [constructor | tauto | discriminate].
  - exists [ConsolePrint (ListFailed msg)], (print_result (ListFailed msg)).
    split; [reflexivity|]. split; [repeat constructor; eauto|].
    destruct (print_result_cases (ListFailed msg)) as [-> | [m [-> E]]].
    + repeat split; [now left | intros [?|?]; discriminate | discriminate].
    + repeat split.
      * right. right. right. exists msg, m. auto.
      * intros [?|?]; discriminate.
      * intros m' [= <-]. now exists msg, [].
  - exists [ConsolePrint NoDocuments], (Returned tt).
    repeat split; [repeat constructor; eauto | now left
                  | intros [?|?]; discriminate | discriminate].
  - unfold table_run.
    destruct (print_error (DocTable _ _)) as [msg|]; cbn [fst snd].
    + eexists; eexists. split; [reflexivity|].
      split; [repeat constructor; eauto|].
      destruct (print_result_cases (ListFailed msg)) as [-> | [m [-> E]]].
      * repeat split; [now left | intros [?|?]; discriminate | discriminate].
      * repeat split.
        -- right. right. right. exists msg, m. auto.
        -- intros [?|?]; discriminate.
        -- intros m' [= <-].
           now exists msg,
             [ConsolePrint
                (DocTable (List.length (filter listed entries))
                   (numbered_rows 1 (filter listed entries)))].
    + eexists; eexists. split; [reflexivity|].
      repeat split; [repeat constructor; eauto | now left
                    | intros [?|?]; discriminate | discriminate].
Qed.

(** X5: an exception of the file system does not leave [list_documents]:
    when [rglob] fails, or the first [stat] that fails does, the failure
    line is handed to the console after the scanning notice and no table,
    not even a partial one, is; a table the console refuses is reported
    with the same line.  The method returns when the console accepts the
    failure line and raises the console's error otherwise; apart from that
    error only an interrupt or a cancellation leaves it, with nothing
    printed after the scanning notice.  The object stays as it was. *)
Theorem list_documents_failure (found : outcome (list path_entry)) (s : cli) :
  (forall msg,
     found = Fails msg ->
     list_documents found s
     = ([ConsolePrint Scanning; ConsolePrint (ListFailed msg)], s,
        print_result (ListFailed msg))) /\
  (forall entries pre f rest msg,
     found = Ok entries ->
     filter listed entries = pre ++ f :: rest ->
     Forall stat_succeeds pre -> stat_size f = Fails msg ->
     list_documents found s
     = ([ConsolePrint Scanning; ConsolePrint (ListFailed msg)], s,
        print_result (ListFailed msg))) /\
  (forall entries msg,
     found = Ok entries ->
     filter listed entries <> [] ->
     Forall stat_succeeds (filter listed entries) ->
     print_error (DocTable (List.length (filter listed entries))
                    (numbered_rows 1 (filter listed entries))) = Some msg ->
     list_documents found s
     = ([ConsolePrint Scanning;
         ConsolePrint (DocTable (List.length (filter listed entries))
                         (numbered_rows 1 (filter listed entries)));
         ConsolePrint (ListFailed msg)], s,
        print_result (ListFailed msg))) /\
  (forall msg,
     print_result (ListFailed msg)
     = match print_error (ListFailed msg) with
       | None => Returned tt
       | Some m => Raised (Exception m)
       end) /\
  exists t r,
    list_documents found s = (ConsolePrint Scanning :: t, s, r) /\
    printed t /\
    (r = Returned tt \/ r = Raised KeyboardInterrupt \/
     r = Raised CancelledError \/ exists m, r = Raised (Exception m)) /\
    (r = Raised KeyboardInterrupt \/ r = Raised CancelledError -> t = []) /\
    (forall m,
       r = Raised (Exception m) ->
       exists msg t',
         print_error (ListFailed msg) = Some m /\
         t = t' ++ [ConsolePrint (ListFailed msg)]).
Proof.
  split; [|split; [|split; [|split]]].
  - intros msg ->. apply list_documents_fails.
  - intros entries pre f rest msg -> E P F.
    now rewrite (@list_documents_first_failure entries pre rest f s E P), F.
  - intros entries msg -> N A R.
    rewrite (list_documents_run _ s A N). unfold table_run. now rewrite R.
  - intros msg. unfold print_result. now destruct (print_error (ListFailed msg)).
  - destruct (list_documents_prints found s) as (t & r & H & P & R & I & X).
    exists t, r. repeat split; try assumption.
    destruct R as [R | [R | [R | (e & m & R & _)]]]; eauto.
Qed.

Lemma numbered_rows_in (files : list path_entry) :
  forall idx r,
    In r (numbered_rows idx files) ->
    exists f,
      In f files /\ row_name r = name f /\ row_parent r = rel_parent f /\
      row_size r = format_size (size_of f).
Proof.
  induction files as [|g files IH]; intros idx r H; [destruct H|].
  cbn [numbered_rows In] in H. destruct H as [<- | H].
  - exists g. cbn. auto.
  - destruct (IH _ _ H) as (f & I & E). exists f. cbn [In]. auto.
Qed.

Lemma filter_listed_none (entries : list path_entry) :
  Forall (fun f => is_file f = false \/ startswith (name f) (lit ".") = true)
    entries ->
  filter listed entries = [].
Proof.
  induction 1 as [|f entries H _ IH]; [reflexivity|].
  cbn [filter]. unfold listed at 1.
  destruct H as [-> | ->]; [|rewrite andb_false_r]; exact IH.
Qed.

(** X6: directories and files whose name starts with a dot are never
    listed.  When nothing else is found the "no documents" notice replaces
    the table; a table that is shown has one row per regular, non-hidden
    file that was found, with the name, the directory and the formatted
    size of that file, and its title counts exactly these rows. *)
Theorem hidden_entries_not_listed (entries : list path_entry) (s : cli) :
  (Forall (fun f => is_file f = false \/ startswith (name f) (lit ".") = true)
     entries ->
   list_documents (Ok entries) s
   = ([ConsolePrint Scanning; ConsolePrint NoDocuments], s, Returned tt)) /\
  (forall n rows,
     In (ConsolePrint (DocTable n rows))
       (fst (fst (list_documents (Ok entries) s))) ->
     n = List.length rows /\ n = List.length (filter listed entries) /\
     n <> 0 /\
     forall r,
       In r rows ->
       exists f size,
         In f entries /\ is_file f = true /\
         startswith (name f) (lit ".") = false /\
         stat_size f = Ok size /\
         row_name r = name f /\ row_parent r = rel_parent f /\
         row_size r = format_size size).
Proof.
  split.
  - intros H. now apply list_documents_none, filter_listed_none.
  - intros n rows H.
    destruct (list_documents_outcome (Ok entries) s)
      as [O | [O | [[msg O] | [O | (entries' & [= <-] & N & A & O)]]]];
      rewrite O in H; cbn [fst In] in H;
      try (repeat destruct H as [H | H]; try discriminate H; now destruct H).
    assert (T : ConsolePrint (DocTable n rows)
                = ConsolePrint
                    (DocTable (List.length (filter listed entries))
                       (numbered_rows 1 (filter listed entries)))).
    { destruct H as [H | H]; [discriminate H|]. unfold table_run in H.
      destruct (print_error (DocTable _ _)); cbn [fst In] in H;
        repeat destruct H as [H | H]; try discriminate H;
        try (now destruct H); now rewrite H. }
    injection T as -> ->.
    split; [now rewrite numbered_rows_length|]. split; [reflexivity|].
    split; [now destruct (filter listed entries)|].
    intros r I. destruct (numbered_rows_in _ _ _ I) as (f & If & En & Ep & Es).
    pose proof (proj1 (Forall_forall _ _) A f If) as [size S].
    apply filter_In in If as [If L]. unfold listed in L.
    apply andb_true_iff in L as [L1 L2]. apply negb_true_iff in L2.
    exists f, size. unfold size_of in Es. rewrite S in Es. auto 10.
Qed.


(** ** What one command does *)

Ltac printed_list :=
  repeat (apply Forall_cons; [eexists; reflexivity|]); apply Forall_nil.

Lemma escapes_returned {A} (a : A) : ~ escapes (Returned a).
Proof.
  intros [H | [H | (e & m & H & _)]]; discriminate H.
Qed.

(** The result of a command that runs [m] and returns [True]. *)
Lemma then_true (m : M unit) (s : cli) (t : trace) (res : result unit) :
  m s = (t, s, res) -> res = Returned tt \/ escapes res ->
  exists res' : result bool,
    (m ;; ret true) s = (t, s, res') /\
    (res' = Returned true \/ escapes res').
Proof.
  intros H R. unfold bind. rewrite H.
  destruct R as [-> | R].
  - exists (Returned true). unfold ret. rewrite app_nil_r. auto.
  - destruct R as [-> | [-> | (e & msg & -> & E)]]; eexists;
      (split; [reflexivity|]); right; unfold escapes; eauto 8.
Qed.

(** [process_command], case by case. *)
Lemma process_command_cases (user_input : pystr) (w : turn) (s : cli) :
  match Spec.dispatch (strip user_input) with
  | Spec.NoOp => process_command user_input w s = ([], s, Returned true)
  | Spec.Local Spec.Quit =>
      process_command user_input w s
      = ([ConsolePrint Goodbye], s, Returned false)
  | Spec.Local Spec.ToggleDebug =>
      exists t,
        process_command user_input w s = (t, toggled s, Returned true) /\
        printed t
  | Spec.Local Spec.Clear =>
      process_command user_input w s = ([ClearScreen], s, Returned true)
  | Spec.Local _ =>
      exists t res,
        process_command user_input w s = (t, s, res) /\ printed t /\
        (res = Returned true \/ escapes res)
  | Spec.FreeTextQuery q =>
      exists t res,
        process_command user_input w s = (query_start q ++ t, s, res) /\
        printed t /\
        (res = Returned true \/ escapes res)
  end.
Proof.
  rewrite process_command_dispatch.
  destruct (Spec.dispatch (strip user_input)) as [|[]|q]; cbn [execute];
    try reflexivity.
  - exists [ConsolePrint CommandsTable; ConsolePrint BlankLine;
            ConsolePrint ExamplesTable], (Returned true).
    split; [reflexivity|]. split; [printed_list | now left].
  - destruct (list_documents_prints (rglob w) s) as (t & res & H & P & R & _).
    destruct (then_true _ H R) as (res' & H' & R').
    exists (ConsolePrint Scanning :: t), res'.
    split; [exact H'|]. split; [constructor; eauto | exact R'].
  - exists [ConsolePrint (StatusPanel (session_active s))], (Returned true).
    split; [reflexivity|]. split; [printed_list | now left].
  - unfold toggled. destruct (show_react_steps s) eqn:D.
    + exists [ConsolePrint (DebugStatus false)].
      split; [unfold toggle_debug; run_m; now rewrite D|].
      printed_list.
    + exists [ConsolePrint (DebugStatus true); ConsolePrint DebugHint].
      split; [unfold toggle_debug; run_m; now rewrite D|].
      printed_list.
  - destruct (query_agent_prints q (reply w) s) as (t & res & H & P & R).
    destruct (then_true _ H R) as (res' & H' & R').
    exists t, res'. auto.
Qed.

Lemma dispatch_quit (line : pystr) :
  Spec.dispatch line = Spec.Local Spec.Quit <-> In line quit_tokens.
Proof.
  split.
  - intros H. unfold Spec.dispatch in H. destruct line as [|c line];
      [discriminate|].
    destruct (Spec.recognise (c :: line)) as [k|] eqn:R; [|discriminate].
    injection H as ->. apply recognise_token in R.
    unfold Spec.tokens in R. cbn [In] in R.
    repeat (destruct R as [R | R];
            [try discriminate R;
             apply (f_equal fst) in R; cbn [fst] in R; rewrite <- R;
             unfold quit_tokens; cbn [In]; tauto|]).
    destruct R.
  - intros H. cbn in H. destruct H as [<- | [<- | [<- | []]]]; reflexivity.
Qed.

Lemma dispatch_local (line : pystr) (c : Spec.command) :
  Spec.dispatch line = Spec.Local c <-> In (line, c) Spec.tokens.
Proof.
  rewrite <- recognise_token. unfold Spec.dispatch.
  destruct line as [|a line].
  - split; [discriminate|]. intros H. apply recognise_token in H.
    unfold Spec.tokens in H. cbn [In] in H.
    repeat (destruct H as [H | H]; [discriminate H|]). destruct H.
  - destruct (Spec.recognise (a :: line)); split; congruence.
Qed.

Lemma dispatch_free_text (line : pystr) :
  line <> [] -> (forall c, ~ In (line, c) Spec.tokens) ->
  Spec.dispatch line = Spec.FreeTextQuery line.
Proof.
  intros N T. unfold Spec.dispatch. destruct line as [|a line]; [congruence|].
  destruct (Spec.recognise (a :: line)) as [c|] eqn:R; [|reflexivity].
  apply recognise_token in R. now apply T in R.
Qed.

Lemma dispatch_debug (line : pystr) :
  Spec.dispatch line = Spec.Local Spec.ToggleDebug <-> line = lit "/debug".
Proof.
  rewrite dispatch_local. unfold Spec.tokens. cbn [In]. split.
  - intros H.
    repeat (destruct H as [H | H];
            [try discriminate H; apply (f_equal fst) in H; now cbn [fst] in H|]).
    destruct H.
  - intros ->. tauto.
Qed.

(** X2: [process_command] returns [False] exactly on /quit, /exit and /q
    (after trimming); it then prints the farewell only and leaves the
    object as it was, and the loop ends without reading what follows. *)
Theorem loop_ends_only_on_quit
    (user_input : pystr) (w : turn) (rest : list turn) (s : cli) :
  (In (strip user_input) quit_tokens ->
   process_command user_input w s = ([ConsolePrint Goodbye], s, Returned false) /\
   (typed w = Ok user_input ->
    main_loop (w :: rest) s
    = ([MainPrompt; ConsolePrint Goodbye], s, Returned tt))) /\
  (forall t s',
     process_command user_input w s = (t, s', Returned false) ->
     In (strip user_input) quit_tokens).
Proof.
  pose proof (process_command_cases user_input w s) as C.
  split.
  - intros H. apply dispatch_quit in H. rewrite H in C.
    split; [exact C|]. intros T. apply main_loop_break.
    now apply iteration_line with (line := user_input).
  - intros t s' H. apply dispatch_quit.
    destruct (Spec.dispatch (strip user_input)) as [|[]|q]; try reflexivity;
      rewrite H in C; try discriminate C;
      try (destruct C as (t0 & res & [= _ _ <-] & _ & [E | E]);
           [discriminate E | now apply escapes_returned in E]);
      destruct C as (t0 & E & _); discriminate E.
Qed.

(** X4: the only command that changes the object is /debug, and it changes
    the debug flag only: after any other input, whatever the agent or the
    file system did, the object is what it was. *)
Theorem only_debug_changes_state (user_input : pystr) (w : turn) (s : cli) :
  let s' := snd (fst (process_command user_input w s)) in
  (strip user_input <> lit "/debug" -> s' = s) /\
  (strip user_input = lit "/debug" -> s' = toggled s) /\
  agent s' = agent s /\ session_active s' = session_active s.
Proof.
  cbv zeta. pose proof (process_command_cases user_input w s) as C.
  pose proof (dispatch_debug (strip user_input)) as D.
  destruct (Spec.dispatch (strip user_input)) as [|[]|q];
    try (rewrite C; cbn [fst snd]; repeat split; auto;
         intros E; apply D in E; discriminate E);
    try (destruct C as (t & res & C & _); rewrite C; cbn [fst snd];
         repeat split; auto; intros E; apply D in E; discriminate E).
  destruct C as (t & C & _). rewrite C. cbn [fst snd].
  repeat split; auto. intros N. elim N. now apply D.
Qed.

(** X9: the agent is queried exactly once for a line that is neither empty
    nor a command, with the prompt built from the trimmed line, right after
    the processing notice; an empty line or a command never queries it. *)
Theorem agent_queried_once_per_question
    (user_input : pystr) (w : turn) (s : cli) :
  let t := fst (fst (process_command user_input w s)) in
  (strip user_input = [] \/ (exists c, In (strip user_input, c) Spec.tokens) ->
   count is_query t = 0) /\
  (strip user_input <> [] ->
   (forall c, ~ In (strip user_input, c) Spec.tokens) ->
   count is_query t = 1 /\
   exists rest,
     t = ConsolePrint Processing
           :: AgentQuery (EnhancedPrompt (strip user_input)) :: rest /\
     printed rest).
Proof.
  cbv zeta. pose proof (process_command_cases user_input w s) as C. split.
  - intros H.
    assert (D : Spec.dispatch (strip user_input) = Spec.NoOp \/
                exists c, Spec.dispatch (strip user_input) = Spec.Local c).
    { destruct H as [-> | [c H]]; [now left|].
      right. exists c. now apply dispatch_local. }
    destruct D as [D | [c D]]; rewrite D in C.
    + now rewrite C.
    + destruct c; try (now rewrite C);
        try (destruct C as (t & res & C & P & _); rewrite C; cbn [fst];
             now apply count_printed);
        destruct C as (t & C & P); rewrite C; cbn [fst];
        now apply count_printed.
  - intros N T. rewrite (dispatch_free_text N T) in C.
    destruct C as (t & res & C & P & _). rewrite C. cbn [fst query_start app].
    split; [|now exists t].
    unfold count. cbn [filter is_query List.length]. f_equal.
    now apply count_printed.
Qed.

(** ** The panels of debug mode *)

Lemma tool_use_numbers_app (t1 t2 : trace) :
  tool_use_numbers (t1 ++ t2) = tool_use_numbers t1 ++ tool_use_numbers t2.
Proof. apply flat_map_app. Qed.

Lemma tool_use_numbers_panels (bs : list block) :
  forall n,
    tool_use_numbers (panels n bs)
    = map (fun i => (n + N.of_nat i)%N)
        (seq 1 (List.length (filter is_tool_use bs))).
Proof.
  induction bs as [|b bs IH]; intros n; [reflexivity|].
  destruct b; cbn [panels filter is_tool_use]; try apply IH.
  - cbn [tool_use_numbers flat_map app List.length seq map].
    fold (tool_use_numbers (panels (n + 1) bs)). rewrite IH.
    apply (f_equal2 cons); [cbn; lia|].
    rewrite <- (seq_shift (List.length (filter is_tool_use bs)) 1), map_map.
    apply map_ext. intros i. lia.
Qed.

Lemma tool_use_numbers_printed_none (t : trace) :
  (forall n name input, ~ In (ConsolePrint (ToolUsePanel n name input)) t) ->
  tool_use_numbers t = [].
Proof.
  induction t as [|e t IH]; intros H; [reflexivity|].
  cbn [tool_use_numbers flat_map].
  fold (tool_use_numbers t). rewrite IH.
  - destruct e as [[]| | | | | |]; try reflexivity.
    exfalso. eapply H. now left.
  - intros n name input I. eapply H. right. exact I.
Qed.

Lemma panels_no_stats (bs : list block) :
  forall n m, ~ In (ConsolePrint (ToolStats m)) (panels n bs).
Proof.
  induction bs as [|b bs IH]; intros n m H; [destruct H|].
  destruct b; cbn [panels In] in H;
    try (destruct H as [H | H]; [discriminate H|]); now apply IH in H.
Qed.

Lemma firstn_seq_le (a j k : nat) : j <= k -> firstn j (seq a k) = seq a j.
Proof.
  intros H. replace k with (j + (k - j)) by lia.
  rewrite seq_app, firstn_app, length_seq, Nat.sub_diag, firstn_O, app_nil_r.
  apply firstn_all2. rewrite length_seq. lia.
Qed.

(** The numbers of an initial part of the panels are an initial part of
    the numbers. *)
Lemma tool_use_numbers_seen (bs : list block) (seen rest : trace) :
  panels 0 bs = seen ++ rest ->
  exists j,
    j <= List.length (filter is_tool_use bs) /\
    tool_use_numbers seen = map N.of_nat (seq 1 j).
Proof.
  intros E. pose proof (tool_use_numbers_panels bs 0) as T.
  rewrite E, tool_use_numbers_app in T.
  assert (M : map (fun i => (0 + N.of_nat i)%N)
                (seq 1 (List.length (filter is_tool_use bs)))
              = map N.of_nat (seq 1 (List.length (filter is_tool_use bs))))
    by (apply map_ext; intros i; lia).
  rewrite M in T. clear M.
  set (k := List.length (filter is_tool_use bs)) in *.
  exists (List.length (tool_use_numbers seen)).
  assert (L : List.length (tool_use_numbers seen) <= k).
  { apply (f_equal (@List.length N)) in T.
    rewrite length_app, length_map, length_seq in T. lia. }
  split; [exact L|].
  rewrite <- (firstn_seq_le 1 L), <- firstn_map, <- T, firstn_app.
  rewrite Nat.sub_diag, firstn_O, app_nil_r.
  symmetry. apply firstn_all.
Qed.

Lemma tool_panels_panels (bs : list block) :
  forall n, filter is_tool_panel (panels n bs) = panels n bs.
Proof.
  induction bs as [|b bs IH]; intros n; [reflexivity|].
  destruct b; cbn [panels filter is_tool_panel]; now rewrite ?IH.
Qed.

Lemma tool_panels_failure_run (msg : pystr) :
  filter is_tool_panel (fst (failure_run msg)) = [] /\
  tool_use_numbers (fst (failure_run msg)) = [].
Proof.
  unfold failure_run.
  destruct (contains oversized_signature_1 msg
            || contains oversized_signature_2 msg); [now split|].
  now destruct (print_error (QueryFailed msg)).
Qed.

Lemma tool_panels_answer (text : pystr) (tail : trace) :
  tail = [] \/ (exists n, tail = [ConsolePrint (ToolStats n)]) ->
  filter is_tool_panel (answer_event text :: tail) = [] /\
  tool_use_numbers (answer_event text :: tail) = [].
Proof.
  unfold answer_event.
  intros [-> | [n ->]]; destruct (truthy text); now split.
Qed.

Lemma stats_trace_shape (s : cli) (ms : list message) :
  stats_trace s ms = [] \/ exists n, stats_trace s ms = [ConsolePrint (ToolStats n)].
Proof.
  unfold stats_trace.
  destruct (show_react_steps s && (0 <? final_count s ms)%N); eauto.
Qed.

(** The tool panels a completed query hands to the console are an initial
    part of the panels of its stream. *)
Lemma query_agent_tool_panels (question : pystr) (ms : list message) (s : cli) :
  exists seen rest,
    stream_trace s ms = seen ++ rest /\
    filter is_tool_panel (fst (fst (query_agent question (completed ms) s)))
    = filter is_tool_panel seen /\
    tool_use_numbers (fst (fst (query_agent question (completed ms) s)))
    = tool_use_numbers seen /\
    (accepts (stream_trace s ms) = true -> rest = []).
Proof.
  rewrite query_agent_run. cbn [completed query_outcome stream ending].
  destruct (attempt_prefix (stream_trace s ms)) as [rest E].
  destruct (attempt (stream_trace s ms)) as [seen [msg|]] eqn:A;
    cbn [fst] in E; exists seen, rest; (split; [exact E|]).
  - unfold reported. cbn [fst].
    rewrite !filter_app, !tool_use_numbers_app.
    destruct (tool_panels_failure_run msg) as [-> ->].
    rewrite !app_nil_r. cbn [query_start filter is_tool_panel app
                             tool_use_numbers flat_map].
    repeat split. intros Ha. rewrite (attempt_accepts _ Ha) in A. discriminate A.
  - cbn [fst]. rewrite !filter_app, !tool_use_numbers_app.
    destruct (tool_panels_answer (texts (assistant_blocks ms))
                (stats_trace_shape s ms)) as [-> ->].
    rewrite !app_nil_r. cbn [query_start filter is_tool_panel app
                             tool_use_numbers flat_map].
    repeat split. intros _. destruct (attempt_none _ A) as [-> _].
    rewrite <- (app_nil_r (stream_trace s ms)) in E at 1.
    now apply app_inv_head in E.
Qed.

(** X8: in debug mode the tool panels handed to the console are an initial
    part of the panels of the stream, all of them when the console accepts
    each, and the tool-call panels among them are numbered 1, 2, 3, ... in
    the order of the tool-use blocks.  When all are accepted, the panel of
    a tool result carries the number of tool-use blocks that came before it
    (0 when there was none), and the closing line with the count is printed
    exactly when there was at least one tool-use block. *)
Theorem debug_panels_numbered
    (question : pystr) (ms : list message) (a sa : bool) :
  let s := {| agent := a; session_active := sa; show_react_steps := true |} in
  let t := fst (fst (query_agent question (completed ms) s)) in
  let k := List.length (filter is_tool_use (assistant_blocks ms)) in
  (exists rest,
     panels 0 (assistant_blocks ms) = filter is_tool_panel t ++ rest /\
     (accepts (stream_trace s ms) = true -> rest = [])) /\
  (exists j, j <= k /\ tool_use_numbers t = map N.of_nat (seq 1 j)) /\
  (accepts (stream_trace s ms) = true ->
   tool_use_numbers t = map N.of_nat (seq 1 k) /\
   (forall before content after,
      assistant_blocks ms = before ++ ToolResultBlock content :: after ->
      In (ConsolePrint (ToolResultPanel (tool_uses before)
                          (result_preview content))) t) /\
   (k = 0 -> forall n, ~ In (ConsolePrint (ToolStats n)) t) /\
   (k <> 0 -> last t (ConsolePrint NoTextNotice)
              = ConsolePrint (ToolStats (N.of_nat k)))).
Proof.
  cbv zeta.
  set (s := {| agent := a; session_active := sa; show_react_steps := true |}).
  destruct (query_agent_tool_panels question ms s)
    as (seen & rest & E & P & T & R).
  assert (S : stream_trace s ms = panels 0 (assistant_blocks ms)) by reflexivity.
  assert (F : filter is_tool_panel seen = seen).
  { pose proof (tool_panels_panels (assistant_blocks ms) 0) as Q.
    rewrite <- S, E, filter_app in Q.
    apply (f_equal (@List.length event)) in Q as L.
    rewrite !length_app in L.
    pose proof (filter_length_le is_tool_panel seen) as L1.
    pose proof (filter_length_le is_tool_panel rest) as L2.
    assert (L' : List.length (filter is_tool_panel seen) = List.length seen)
      by lia.
    clear - Q L'.
    revert Q. generalize (filter is_tool_panel rest). intros rest' Q.
    apply (f_equal (firstn (List.length seen))) in Q.
    rewrite <- L' in Q at 1.
    rewrite !firstn_app, !Nat.sub_diag, !firstn_O, !app_nil_r in Q.
    now rewrite !firstn_all in Q. }
  split; [|split].
  - exists rest. rewrite P, F, <- E. split; [reflexivity | exact R].
  - rewrite T. rewrite S in E. apply (tool_use_numbers_seen _ _ _ E).
  - intros Ha. rewrite (@query_agent_accepted question (completed ms) s Ha).
    cbn [query_outcome ending stream completed fst].
    unfold stream_trace, stats_trace, final_count.
    cbn [s show_react_steps andb].
    set (bs := assistant_blocks ms). split; [|split; [|split]].
    + match goal with
      | |- context [answer_event ?x :: ?y] =>
          assert (U : tool_use_numbers (answer_event x :: y) = [])
      end.
      { unfold answer_event. destruct (truthy (texts bs));
          destruct (0 <? tool_uses bs)%N; reflexivity. }
      rewrite !tool_use_numbers_app, U, tool_use_numbers_panels, app_nil_r.
      cbn [query_start tool_use_numbers flat_map app].
      apply map_ext. intros i. lia.
    + intros before content after E'. rewrite E', panels_app.
      apply in_or_app. right. apply in_or_app. left. apply in_or_app. right.
      cbn [panels]. rewrite N.add_0_l. now left.
    + intros K n H. unfold tool_uses in H. fold bs in K. rewrite K in H.
      cbn [N.of_nat N.ltb N.compare] in H.
      apply in_app_or in H as [H | H];
        [cbn [query_start In] in H;
         repeat (destruct H as [H | H]; [discriminate H|]); destruct H|].
      apply in_app_or in H as [H | H].
      * now apply panels_no_stats in H.
      * unfold answer_event in H. destruct (truthy (texts bs)); cbn [In] in H;
          repeat (destruct H as [H | H]; [discriminate H|]); destruct H.
    + intros K. unfold tool_uses. fold bs.
      assert (L : (0 <? N.of_nat (List.length (filter is_tool_use bs)))%N = true)
        by (apply N.ltb_lt; fold bs in K; lia).
      rewrite L. rewrite !app_assoc.
      change (?x ++ ?y :: [?z]) with (x ++ [y] ++ [z]).
      now rewrite !app_assoc, last_last.
Qed.

Lemma firstn_app_exact (k : nat) (l e : pystr) :
  k <= List.length l -> firstn k (firstn k l ++ e) = firstn k l.
Proof.
  intros H. rewrite firstn_app, length_firstn, firstn_firstn, Nat.min_id.
  replace (k - Nat.min k (List.length l)) with 0 by lia.
  now rewrite firstn_O, app_nil_r.
Qed.

(** X13: the preview of a tool result keeps the first 200 characters of
    the content as they are, is never longer than 203 characters, and is
    its own preview. *)
Theorem result_preview_stable (content : pystr) :
  slice_to 200 (result_preview content) = slice_to 200 content /\
  len (result_preview content) <= 203 /\
  result_preview (result_preview content) = result_preview content.
Proof.
  unfold result_preview at 1 2 4 5.
  destruct (Nat.ltb 200 (len content)) eqn:E.
  - apply Nat.ltb_lt in E. pose proof (firstn_200_length content E) as F.
    assert (S : slice_to 200 (slice_to 200 content ++ ellipsis)
                = slice_to 200 content).
    { unfold slice_to, len in *. apply firstn_app_exact. lia. }
    assert (L : len (slice_to 200 content ++ ellipsis) = 203).
    { unfold len in *. rewrite length_app. unfold len, slice_to in F.
      unfold slice_to. rewrite F. reflexivity. }
    split; [exact S|]. split; [lia|].
    unfold result_preview. rewrite L. cbn [Nat.ltb Nat.leb]. now rewrite S.
  - apply Nat.ltb_ge in E. split; [reflexivity|]. split; [lia|].
    unfold result_preview. apply Nat.ltb_ge in E. now rewrite E.
Qed.

(** ** The shape of a formatted size *)

Lemma str_of_N_digit (n : N) : (n < 10)%N -> str_of_N n = [(48 + n)%N].
Proof.
  intros H. rewrite <- (N2Nat.id n).
  assert (Hm : N.to_nat n < 10) by lia.
  revert Hm. generalize (N.to_nat n). intros m Hm.
  do 10 (destruct m as [|m]; [reflexivity|]). lia.
Qed.

Lemma round_half_even_mono (a a' b : N) :
  b <> 0%N -> (a <= a')%N ->
  (round_half_even a b <= round_half_even a' b)%N.
Proof.
  intros Hb Ha. destruct (N.eq_dec a a') as [-> | Hne]; [reflexivity|].
  destruct (round_half_even_nearest a Hb) as [U _].
  destruct (round_half_even_nearest a' Hb) as [_ L'].
  set (t := round_half_even a b) in *. set (t' := round_half_even a' b) in *.
  destruct (N.le_gt_cases t t') as [H | H]; [exact H|]. exfalso.
  assert (M : ((t' + 1) * b <= t * b)%N) by (apply N.mul_le_mono_r; lia).
  lia.
Qed.

Lemma tenths_small (size d : N) :
  (size < 2 ^ 53)%N -> tenths size d = round_half_even (10 * size) d.
Proof. intros H. unfold tenths. now rewrite round53_exact. Qed.

Lemma round53_lower (n : N) : (1024 * 1024 <= n)%N -> (1024 * 1024 <= round53 n)%N.
Proof.
  intros H. unfold round53. destruct (N.size n <=? 53)%N eqn:E; [exact H|].
  apply N.leb_gt in E. cbv zeta.
  set (sh := (N.size n - 53)%N).
  set (q := N.shiftr n sh).
  assert (Q : (2 ^ 52 <= q)%N).
  { unfold q. rewrite N.shiftr_div_pow2.
    apply N.div_le_lower_bound; [apply N.pow_nonzero; lia|].
    rewrite <- N.pow_add_r.
    destruct (N.eq_dec n 0) as [-> | Hn]; [cbn in E; lia|].
    replace (sh + 52)%N with (N.pred (N.size n)) by (unfold sh; lia).
    rewrite N.size_log2 by exact Hn. rewrite N.pred_succ.
    apply N.log2_spec. lia. }
  match goal with
  | |- (_ <= N.shiftl ?x sh)%N => assert (X : (q <= x)%N)
  end.
  { destruct (_ || _); lia. }
  rewrite N.shiftl_mul_pow2.
  assert (P : (1 <= 2 ^ sh)%N)
    by (pose proof (N.pow_nonzero 2 sh ltac:(lia)); lia).
  change (2 ^ 52)%N with 4503599627370496%N in Q.
  change (1024 * 1024)%N with 1048576%N. nia.
Qed.

(** X7: a size from 1024 bytes on is shown with exactly one digit after
    the point; the number shown runs from 1.0 to 1024.0 for KB (a file just
    under 1024 * 1024 bytes is shown as "1024.0 KB") and from 1.0 on for
    MB; and within one unit a larger file never shows a smaller number. *)
Theorem format_size_shape (size : N) :
  ((1024 <= size)%N ->
   exists whole digit unit,
     format_size size = str_of_N whole ++ lit "." ++ [digit] ++ unit /\
     (1 <= whole)%N /\ (48 <= digit <= 57)%N /\
     (unit = lit " KB" \/ unit = lit " MB")) /\
  ((1024 <= size < 1024 * 1024)%N ->
   (10 <= tenths size 1024 <= 10240)%N /\
   forall size',
     (size <= size' < 1024 * 1024)%N ->
     (tenths size 1024 <= tenths size' 1024)%N) /\
  ((1048525 <= size < 1024 * 1024)%N -> format_size size = lit "1024.0 KB") /\
  ((1024 * 1024 <= size)%N ->
   (10 <= tenths size (1024 * 1024))%N /\
   forall size',
     (size <= size' < 2 ^ 53)%N ->
     (tenths size (1024 * 1024) <= tenths size' (1024 * 1024))%N).
Proof.
  assert (KB : (1024 <= size < 1024 * 1024)%N ->
               (10 <= tenths size 1024 <= 10240)%N).
  { intros [H1 H2]. rewrite tenths_small
      by (change (2 ^ 53)%N with 9007199254740992%N; lia).
    destruct (@round_half_even_nearest (10 * size) 1024 ltac:(discriminate))
      as [U L]. lia. }
  assert (MB : (1024 * 1024 <= size)%N -> (10 <= tenths size (1024 * 1024))%N).
  { intros H. unfold tenths. pose proof (round53_lower H) as R.
    destruct (@round_half_even_nearest (10 * round53 size) (1024 * 1024)
                ltac:(discriminate)) as [U L].
    change (1024 * 1024)%N with 1048576%N in *. lia. }
  split; [|split; [|split]].
  - intros H. unfold format_size, format_1f.
    assert (D : forall t, (48 <= 48 + t mod 10 <= 57)%N /\
                          str_of_N (t mod 10) = [(48 + t mod 10)%N]).
    { intros t. pose proof (N.mod_upper_bound t 10 ltac:(discriminate)) as Hm.
      split; [|now apply str_of_N_digit].
      revert Hm. generalize (t mod 10)%N. intros m Hm. lia. }
    assert (W : forall t, (10 <= t)%N -> (1 <= t / 10)%N).
    { intros t Ht. apply N.div_le_lower_bound; [discriminate | lia]. }
    destruct (size <? 1024)%N eqn:E1; [apply N.ltb_lt in E1; lia|].
    destruct (size <? 1024 * 1024)%N eqn:E2.
    + apply N.ltb_lt in E2. destruct (D (tenths size 1024)) as [B S].
      exists (tenths size 1024 / 10)%N, (48 + tenths size 1024 mod 10)%N,
        (lit " KB").
      assert (Hw : (1 <= tenths size 1024 / 10)%N)
        by (apply W, KB; lia).
      rewrite S, <- !app_assoc. repeat split; auto; lia.
    + apply N.ltb_ge in E2.
      destruct (D (tenths size (1024 * 1024))) as [B S].
      exists (tenths size (1024 * 1024) / 10)%N,
        (48 + tenths size (1024 * 1024) mod 10)%N, (lit " MB").
      assert (Hw : (1 <= tenths size (1024 * 1024) / 10)%N)
        by (apply W, MB; lia).
      rewrite S, <- !app_assoc. repeat split; auto; lia.
  - intros H. split; [now apply KB|]. intros size' H'.
    rewrite !tenths_small
      by (change (2 ^ 53)%N with 9007199254740992%N; lia).
    apply round_half_even_mono; [discriminate | lia].
  - intros [H1 H2]. unfold format_size, format_1f.
    assert (E1 : (size <? 1024)%N = false) by (apply N.ltb_ge; lia).
    assert (E2 : (size <? 1024 * 1024)%N = true) by now apply N.ltb_lt.
    rewrite E1, E2.
    assert (T : tenths size 1024 = 10240%N).
    { rewrite tenths_small
        by (change (2 ^ 53)%N with 9007199254740992%N; lia).
      destruct (@round_half_even_nearest (10 * size) 1024 ltac:(discriminate))
        as [U L]. lia. }
    rewrite T. vm_compute. reflexivity.
  - intros H. split; [now apply MB|]. intros size' H'.
    rewrite !tenths_small by lia.
    apply round_half_even_mono; [discriminate | lia].
Qed.


(** ** How an iteration, the loop and the process can end *)

Lemma confirm_exit_run (c : outcome choice) (s : cli) :
  confirm_exit c s
  = prepend [ConsolePrint InterruptHint; ConfirmPrompt]
      match c with
      | Ok Yes => ([], s, Returned false)
      | Ok No => ([], s, Returned true)
      | Interrupt => ([ConsolePrint Goodbye], s, Returned false)
      | Cancelled => ([], s, Raised CancelledError)
      | Fails msg => ([], s, Raised (Exception msg))
      end.
Proof. unfold confirm_exit. run_m. destruct c as [[] | | |]; reflexivity. Qed.

Lemma process_command_result (user_input : pystr) (w : turn) (s : cli) :
  exists t s' res,
    process_command user_input w s = (t, s', res) /\
    (res = Returned true \/ res = Returned false \/ escapes res).
Proof.
  pose proof (process_command_cases user_input w s) as C.
  destruct (Spec.dispatch (strip user_input)) as [|[]|q];
    try (rewrite C; eauto 8);
    try (destruct C as (t & res & C & _ & [-> | R]); rewrite C; eauto 8).
  destruct C as (t & C & _). rewrite C. eauto 8.
Qed.

(** What an iteration does after the prompt when a line was read. *)
Lemma iteration_line_run (w : turn) (line : pystr) (s : cli) :
  typed w = Ok line ->
  iteration w s
  = match process_command line w s with
    | (t, s', Raised KeyboardInterrupt) =>
        prepend (MainPrompt :: t) (confirm_exit (confirm w) s')
    | (t, s', Raised (Exception msg)) =>
        (MainPrompt :: t ++ [ConsolePrint (LoopError msg)], s',
         match print_error (LoopError msg) with
         | None => Returned true
         | Some m => Raised (Exception m)
         end)
    | (t, s', res) => (MainPrompt :: t, s', res)
    end.
Proof.
  intros H.
  destruct (process_command line w s) as [[t s'] [b | [msg | | | code] |]] eqn:P.
  - now apply iteration_line with (line := line).
  - now apply iteration_line_fails with (line := line).
  - unfold iteration, try_except, bind, emit. rewrite H. cbn [external].
    unfold ret. rewrite P. cbn [app prepend].
    now destruct (confirm_exit (confirm w) s') as [[t' s''] r].
  - now apply iteration_line_cancelled with (line := line).
  - unfold iteration, try_except, bind, emit. rewrite H. cbn [external].
    unfold ret. now rewrite P.
  - unfold iteration, try_except, bind, emit. rewrite H. cbn [external].
    unfold ret. now rewrite P.
Qed.

Lemma iteration_prompt_fails (w : turn) (msg : pystr) (s : cli) :
  typed w = Fails msg ->
  iteration w s
  = ([MainPrompt; ConsolePrint (LoopError msg)], s,
     match print_error (LoopError msg) with
     | None => Returned true
     | Some m => Raised (Exception m)
     end).
Proof.
  intros H. unfold iteration, try_except. unfold bind at 1 2. unfold emit at 1.
  rewrite H. cbn [external]. unfold raise at 1. unfold bind.
  rewrite console_print_run. unfold print_result.
  now destruct (print_error (LoopError msg)).
Qed.

Lemma iteration_prompt_cancelled (w : turn) (s : cli) :
  typed w = Cancelled ->
  iteration w s = ([MainPrompt], s, Raised CancelledError).
Proof.
  intros H. unfold iteration, try_except, bind, emit. now rewrite H.
Qed.

(** An iteration returns, or raises an [Exception] or a cancellation. *)
Lemma iteration_result (w : turn) (s : cli) :
  exists t s' res,
    iteration w s = (t, s', res) /\
    ((exists continue, res = Returned continue) \/
     (exists msg, res = Raised (Exception msg)) \/
     res = Raised CancelledError).
Proof.
  destruct (typed w) as [line | | | msg] eqn:T.
  - rewrite (iteration_line_run w s T).
    destruct (process_command_result line w s)
      as (t & s' & res & H & [-> | [-> | [-> | [-> | (e & m & -> & _)]]]]);
      rewrite H; eauto 8.
    + rewrite confirm_exit_run.
      destruct (confirm w) as [[] | | | msg]; cbn [prepend]; eauto 10.
    + destruct (print_error (LoopError m)); eauto 10.
  - rewrite (iteration_interrupted w s T).
    destruct (confirm w) as [[] | | | msg]; cbn [prepend]; eauto 10.
  - rewrite (iteration_prompt_cancelled w s T). eauto 10.
  - rewrite (iteration_prompt_fails w s T).
    destruct (print_error (LoopError msg)); eauto 10.
Qed.

Lemma main_loop_result (script : list turn) :
  forall s,
    exists t s' res,
      main_loop script s = (t, s', res) /\
      (res = Returned tt \/ res = Pending \/
       (exists msg, res = Raised (Exception msg)) \/
       res = Raised CancelledError).
Proof.
  induction script as [|w rest IH]; intros s; cbn [main_loop].
  - unfold suspend. eauto 8.
  - unfold bind.
    destruct (iteration_result w s)
      as (t & s' & res & H & [[[] ->] | [(msg & ->) | ->]]); rewrite H.
    + destruct (IH s') as (t' & s'' & res' & H' & R). rewrite H'. eauto 8.
    + unfold ret. eauto 8.
    + eauto 10.
    + eauto 10.
Qed.

Lemma main_connect_interrupted
    (env : environment) (script : list turn) (key : pystr) :
  api_key env = Some key -> truthy key = true ->
  connect env = Interrupt \/ connect env = Cancelled ->
  main env script = ([ConsolePrint Welcome; AgentConnect], Interrupted).
Proof.
  intros Hk Ht Hc.
  unfold main, asyncio_run, run, check_api_key, initialize_agent.
  rewrite Hk, Ht. destruct Hc as [-> | ->]; reflexivity.
Qed.

(** X10: the process ends with status 0 or 1 only, and with 0 only when a
    non-empty key was present and both [connect] and [disconnect]
    returned; it ends interrupted only when [connect] or [disconnect] was
    interrupted or cancelled, or when a cancellation left the loop; and
    without a non-empty key, or when [connect] does not return, the agent
    is never disconnected and no prompt is shown. *)
Theorem exit_status_values (env : environment) (script : list turn) :
  match snd (main env script) with
  | Exit status =>
      (status = 0 \/ status = 1)%Z /\
      (status = 0%Z ->
       (exists key, api_key env = Some key /\ truthy key = true) /\
       connect env = Ok tt /\ disconnect env = Ok tt)
  | Interrupted =>
      (exists key, api_key env = Some key /\ truthy key = true) /\
      (connect env = Interrupt \/ connect env = Cancelled \/
       (connect env = Ok tt /\
        (disconnect env = Interrupt \/ disconnect env = Cancelled \/
         exists t s',
           main_loop script started = (t, s', Raised CancelledError))))
  | Running => connect env = Ok tt
  end /\
  ((forall key, api_key env = Some key -> truthy key = false) \/
   connect env <> Ok tt ->
   count is_disconnect (fst (main env script)) = 0 /\
   count is_prompt (fst (main env script)) = 0).
Proof.
  destruct (match api_key env with Some key => truthy key | None => false end)
    eqn:K.
  2: { rewrite (main_missing_key env script K). cbn [fst snd].
       split; [split; [now right | discriminate] | now intros _]. }
  destruct (api_key env) as [key|] eqn:Hk; [|discriminate].
  assert (Key : exists key0, Some key = Some key0 /\ truthy key0 = true)
    by (now exists key).
  destruct (connect env) as [[] | | | msg] eqn:Hc.
  - split; [|intros [H | H]; [specialize (H key eq_refl); congruence
                             | now elim H]].
    pose proof (main_disconnects env script Hk K Hc) as Run.
    destruct (main_loop_result script started)
      as (t & s' & res & H & R).
    destruct R as [-> | [-> | [[msg ->] | ->]]].
    + rewrite (@main_ended env script key t s' _ Hk K Hc H) by discriminate.
      cbn [snd]. destruct (disconnect env) as [[] | | | msg'].
      * split; [now left | intros _; auto].
      * split; [exact Key | auto].
      * split; [exact Key | auto 6].
      * split; [now right | discriminate].
    + rewrite H in Run. now rewrite Run.
    + rewrite (@main_ended env script key t s' _ Hk K Hc H) by discriminate.
      cbn [snd]. destruct (disconnect env) as [[] | | | msg'].
      * split; [now right | discriminate].
      * split; [exact Key | auto].
      * split; [exact Key | auto 6].
      * split; [now right | discriminate].
    + rewrite (@main_ended env script key t s' _ Hk K Hc H) by discriminate.
      cbn [snd]. destruct (disconnect env) as [[] | | | msg'].
      * split; [exact Key|]. right. right. split; [reflexivity|].
        right. right. now exists t, s'.
      * split; [exact Key | auto].
      * split; [exact Key | auto 6].
      * split; [now right | discriminate].
  - rewrite (@main_connect_interrupted env script key Hk K (or_introl Hc)).
    cbn [fst snd]. split; [split; [exact Key | now left] | now intros _].
  - rewrite (@main_connect_interrupted env script key Hk K (or_intror Hc)).
    cbn [fst snd]. split; [split; [exact Key | auto] | now intros _].
  - rewrite (main_connect_fails env script Hk K Hc). cbn [fst snd].
    split; [split; [now right | discriminate] | now intros _].
Qed.

(** X11: [KeyboardInterrupt] raised while the agent is queried or its
    stream is read is not reported as a failure of the query: no answer
    and no advice is printed, and it is handled as one at the prompt, by
    the confirmation prompt; on the answer n the session goes on.  A
    cancellation at the same places is handled by nothing: the iteration
    and the loop end with it, and no answer, advice or confirmation prompt
    is printed. *)
Theorem interrupt_during_query
    (w : turn) (line question : pystr) (rest : list turn) (s : cli)
    (how : outcome unit) :
  typed w = Ok line ->
  Spec.dispatch (strip line) = Spec.FreeTextQuery question ->
  query_outcome (reply w) = how \/
  (query_outcome (reply w) = Ok tt /\
   accepts (stream_trace s (stream (reply w))) = true /\
   ending (reply w) = how) ->
  let seen := match query_outcome (reply w) with
              | Ok _ => stream_trace s (stream (reply w))
              | _ => []
              end in
  let raised := MainPrompt :: query_start question ++ seen in
  (how = Interrupt ->
   iteration w s
   = prepend (raised ++ [ConsolePrint InterruptHint; ConfirmPrompt])
       match confirm w with
       | Ok Yes => ([], s, Returned false)
       | Ok No => ([], s, Returned true)
       | Interrupt => ([ConsolePrint Goodbye], s, Returned false)
       | Cancelled => ([], s, Raised CancelledError)
       | Fails msg => ([], s, Raised (Exception msg))
       end /\
   answers (fst (fst (iteration w s))) = [] /\
   (confirm w = Ok No ->
    main_loop (w :: rest) s
    = prepend (raised ++ [ConsolePrint InterruptHint; ConfirmPrompt])
        (main_loop rest s))) /\
  (how = Cancelled ->
   iteration w s = (raised, s, Raised CancelledError) /\
   main_loop (w :: rest) s = (raised, s, Raised CancelledError) /\
   answers raised = [] /\ count is_confirm_prompt raised = 0).
Proof.
  intros Hline Hd Hi. cbv zeta.
  set (seen := match query_outcome (reply w) with
               | Ok _ => stream_trace s (stream (reply w))
               | _ => []
               end).
  assert (S : answers seen = [] /\ printed seen).
  { unfold seen. destruct (query_outcome (reply w));
      try (split; [reflexivity | constructor]).
    split; [apply answers_stream_trace | apply printed_stream_trace]. }
  destruct S as [S Pr].
  assert (Q : forall e,
             how = Interrupt /\ e = KeyboardInterrupt \/
             how = Cancelled /\ e = CancelledError ->
             process_command line w s
             = (query_start question ++ seen, s, Raised e)).
  { intros e He. rewrite process_command_dispatch, Hd. unfold bind.
    rewrite query_agent_run. unfold seen.
    destruct Hi as [Hq | (Hq & Ha & He')].
    - rewrite Hq. destruct He as [[-> ->] | [-> ->]];
        now rewrite app_nil_r.
    - rewrite Hq, (attempt_accepts _ Ha), He'.
      destruct He as [[-> ->] | [-> ->]]; reflexivity. }
  split.
  - intros ->.
    assert (I : iteration w s
                = prepend ((MainPrompt :: query_start question ++ seen)
                             ++ [ConsolePrint InterruptHint; ConfirmPrompt])
                    match confirm w with
                    | Ok Yes => ([], s, Returned false)
                    | Ok No => ([], s, Returned true)
                    | Interrupt => ([ConsolePrint Goodbye], s, Returned false)
                    | Cancelled => ([], s, Raised CancelledError)
                    | Fails msg => ([], s, Raised (Exception msg))
                    end).
    { rewrite (iteration_line_run w s Hline).
      rewrite (Q KeyboardInterrupt) by auto.
      rewrite confirm_exit_run.
      destruct (confirm w) as [[] | | | msg]; cbn [prepend app];
        rewrite <- ?app_assoc; cbn [app]; rewrite ?app_nil_r; reflexivity. }
    split; [exact I|]. split.
    + rewrite I.
      destruct (confirm w) as [[] | | | msg]; cbn [prepend fst];
        change (MainPrompt :: ?x) with ([MainPrompt] ++ x);
        rewrite !answers_app, S; reflexivity.
    + intros C. rewrite C in I. cbn [prepend] in I. rewrite app_nil_r in I.
      now apply main_loop_continue.
  - intros ->.
    assert (I : iteration w s
                = (MainPrompt :: query_start question ++ seen, s,
                   Raised CancelledError)).
    { rewrite (iteration_line_run w s Hline).
      now rewrite (Q CancelledError) by auto. }
    split; [exact I|]. split; [now apply main_loop_raises|]. split.
    + change (MainPrompt :: ?x) with ([MainPrompt] ++ x).
      now rewrite !answers_app, S.
    + change (MainPrompt :: ?x) with ([MainPrompt] ++ x).
      rewrite !count_app. cbn [query_start]. unfold count at 1 2.
      cbn [filter is_confirm_prompt List.length].
      now rewrite count_printed.
Qed.

(** ** What the loop may emit *)

Section EmitsOnly.

Variable good : bool -> event -> bool.
Context {A B : Type}.

Lemma only_ret (a : A) : emits_only good (ret a).
Proof. intros s. cbn. auto. Qed.

Lemma only_raise (e : exn) : emits_only good (@raise A e).
Proof. intros s. cbn. auto. Qed.

Lemma only_external (o : outcome A) : emits_only good (external o).
Proof. destruct o; intros s; cbn; auto. Qed.

Lemma only_bind (m : M A) (f : A -> M B) :
  emits_only good m -> (forall a, emits_only good (f a)) ->
  emits_only good (bind m f).
Proof.
  intros Hm Hf s. unfold bind. specialize (Hm s).
  destruct (m s) as [[t s'] [a | e |]]; auto.
  specialize (Hf a s'). destruct (f a s') as [[t' s''] r].
  destruct Hm as [H1 H2]. rewrite H2 in Hf. destruct Hf as [H3 H4].
  rewrite forallb_app, H1, H3. auto.
Qed.

Lemma only_try_except (m : M A) (h : exn -> option (M A)) :
  emits_only good m -> (forall e k, h e = Some k -> emits_only good k) ->
  emits_only good (try_except m h).
Proof.
  intros Hm Hh s. unfold try_except. specialize (Hm s).
  destruct (m s) as [[t s'] [a | e |]]; auto.
  destruct (h e) as [k|] eqn:E; auto.
  specialize (Hh e k E s'). destruct (k s') as [[t' s''] r].
  destruct Hm as [H1 H2]. rewrite H2 in Hh. destruct Hh as [H3 H4].
  rewrite forallb_app, H1, H3. auto.
Qed.

End EmitsOnly.

Lemma only_emit (good : bool -> event -> bool) (e : event) :
  (forall active, good active e = true) -> emits_only good (emit e).
Proof. intros H s. unfold emit. cbn. now rewrite H. Qed.

Lemma only_get (good : bool -> event -> bool) : emits_only good get.
Proof. intros s. cbn. auto. Qed.

Lemma only_weaken (good good' : bool -> event -> bool) {A} (m : M A) :
  (forall active e, good active e = true -> good' active e = true) ->
  emits_only good m -> emits_only good' m.
Proof.
  intros W H s. specialize (H s). destruct (m s) as [[t s'] r].
  destruct H as [H1 H2]. split; [|exact H2].
  rewrite forallb_forall in *. intros e I. apply W. now apply H1.
Qed.

Lemma only_console_print (good : bool -> event -> bool) (r : rendering) :
  (forall active, good active (ConsolePrint r) = true) ->
  emits_only good (console_print r).
Proof.
  intros H s. rewrite console_print_run. cbn. now rewrite H.
Qed.

Create HintDb events.
#[local] Hint Resolve only_ret only_raise only_external only_get : events.

Ltac events :=
  repeat first
    [ progress intros
    | solve [auto with events]
    | apply only_bind
    | apply only_try_except
    | apply only_emit; intros []; reflexivity
    | apply only_console_print; intros []; reflexivity
    | match goal with
      | H : match ?e with _ => _ end = Some _ |- _ =>
          destruct e; try discriminate; injection H as <-
      | |- emits_only _ (if ?b then _ else _) => destruct b
      | |- emits_only _ (match ?x with _ => _ end) => destruct x
      end ].

Lemma only_process_block (l : locals) (b : block) :
  emits_only command_event (process_block l b).
Proof. destruct b; cbn [process_block]; events. Qed.

Lemma only_process_blocks (bs : list block) :
  forall l, emits_only command_event (process_blocks l bs).
Proof.
  induction bs as [|b bs IH]; intros l; cbn [process_blocks];
    [events | apply only_bind; [apply only_process_block | apply IH]].
Qed.

Lemma only_consume (ms : list message) :
  forall l, emits_only command_event (consume l ms).
Proof.
  induction ms as [|m ms IH]; intros l; cbn [consume]; [events|].
  apply only_bind; [|apply IH].
  destruct m; cbn [process_message]; [apply only_process_blocks | events].
Qed.

#[local] Hint Resolve only_consume : events.

Lemma only_query_agent (question : pystr) (r : response) :
  emits_only command_event (query_agent question r).
Proof.
  unfold query_agent, query_agent_body, render_answer, report_failure.
  events.
Qed.

Lemma only_table_rows (files : list path_entry) :
  forall idx, emits_only command_event (table_rows idx files).
Proof.
  induction files as [|f files IH]; intros idx; cbn [table_rows]; events.
Qed.

#[local] Hint Resolve only_table_rows only_query_agent : events.

Lemma only_list_documents (found : outcome (list path_entry)) :
  emits_only command_event (list_documents found).
Proof. unfold list_documents. events. Qed.

Lemma only_toggle_debug : emits_only command_event toggle_debug.
Proof. intros s. cbn. destruct (show_react_steps s); cbn; auto. Qed.

Lemma only_show_status : emits_only command_event show_status.
Proof. intros s. cbn. now rewrite Bool.eqb_reflx. Qed.

#[local] Hint Resolve only_list_documents only_toggle_debug
  only_show_status : events.

Lemma only_process_command (user_input : pystr) (w : turn) :
  emits_only command_event (process_command user_input w).
Proof. unfold process_command, show_help. events. Qed.

Lemma command_event_loop (active : bool) (e : event) :
  command_event active e = true -> loop_event active e = true.
Proof. unfold loop_event. now intros ->. Qed.

Lemma only_iteration (w : turn) : emits_only loop_event (iteration w).
Proof.
  unfold iteration, confirm_exit.
  pose proof (fun u => @only_weaken command_event loop_event _
                         (process_command u w) command_event_loop
                         (only_process_command u w)) as P.
  events.
Qed.

Lemma only_main_loop (script : list turn) : emits_only loop_event (main_loop script).
Proof.
  induction script as [|w rest IH]; cbn [main_loop].
  - intros s. cbn. auto.
  - apply only_bind; [apply only_iteration|]. intros []; [apply IH | events].
Qed.

Lemma emits_only_in
    (good : bool -> event -> bool) {A} (m : M A) (s : cli) (e : event) :
  emits_only good m -> In e (fst (fst (m s))) ->
  good (session_active s) e = true.
Proof.
  intros H I. specialize (H s). destruct (m s) as [[t s'] r].
  destruct H as [H _]. rewrite forallb_forall in H. now apply H.
Qed.

Lemma emits_only_count
    (good : bool -> event -> bool) (p : event -> bool)
    {A} (m : M A) (s : cli) :
  (forall active e, good active e = true -> p e = false) ->
  emits_only good m -> count p (fst (fst (m s))) = 0.
Proof.
  intros W H. specialize (H s). destruct (m s) as [[t s'] r].
  destruct H as [H _]. cbn [fst]. unfold count.
  induction t as [|e t IH]; [reflexivity|].
  cbn [forallb] in H. apply andb_true_iff in H as [He Ht].
  cbn [filter]. rewrite (W _ _ He). now apply IH.
Qed.

(** The trace of an iteration that read a line: the prompt, the command,
    and what the handler printed if the command raised. *)
Lemma iteration_line_trace (w : turn) (line : pystr) (s : cli) :
  typed w = Ok line ->
  exists handler,
    fst (fst (iteration w s))
    = MainPrompt :: fst (fst (process_command line w s)) ++ handler /\
    (handler = [] \/
     handler = [ConsolePrint InterruptHint; ConfirmPrompt] \/
     handler = [ConsolePrint InterruptHint; ConfirmPrompt;
                ConsolePrint Goodbye] \/
     exists e msg,
       handler = [ConsolePrint (LoopError msg)] /\
       snd (process_command line w s) = Raised (Exception msg) /\
       (print_error (QueryFailed e) = Some msg \/
        print_error (ListFailed e) = Some msg)).
Proof.
  intros H. rewrite (iteration_line_run w s H).
  destruct (process_command_result line w s)
    as (t & s' & res & P & [-> | [-> | [-> | [-> | (e & m & -> & E)]]]]);
    rewrite P; cbn [fst snd app].
  - exists []. rewrite app_nil_r. auto.
  - exists []. rewrite app_nil_r. auto.
  - rewrite confirm_exit_run.
    destruct (confirm w) as [[] | | | msg]; cbn [prepend fst app];
      eexists; (split; [reflexivity|]); rewrite ?app_nil_r; auto.
  - exists []. rewrite app_nil_r. auto.
  - exists [ConsolePrint (LoopError m)]. split; [reflexivity|].
    right. right. right. exists e, m. auto.
Qed.

(** X3: an exception raised by the agent or by the file system does not
    leave a command: [process_command] returns, or passes on an interrupt
    or a cancellation, or raises the error of the console for a failure
    line it refused; with a console that accepts every failure line no
    [Exception] leaves a command.  So the error line of the main loop is
    handed to the console only when reading the line itself failed or
    when the console refused a failure line, and when the console accepts
    the error line the loop prompts again. *)
Theorem exceptions_stay_in_commands (w : turn) (rest : list turn) (s : cli) :
  (forall line,
     exists t s' res,
       process_command line w s = (t, s', res) /\
       (res = Returned true \/ res = Returned false \/
        res = Raised KeyboardInterrupt \/ res = Raised CancelledError \/
        exists e msg,
          res = Raised (Exception msg) /\
          (print_error (QueryFailed e) = Some msg \/
           print_error (ListFailed e) = Some msg))) /\
  ((forall e, print_error (QueryFailed e) = None /\
              print_error (ListFailed e) = None) ->
   forall line msg, snd (process_command line w s) <> Raised (Exception msg)) /\
  (forall msg,
     typed w = Fails msg ->
     iteration w s
     = ([MainPrompt; ConsolePrint (LoopError msg)], s,
        match print_error (LoopError msg) with
        | None => Returned true
        | Some m => Raised (Exception m)
        end) /\
     (print_error (LoopError msg) = None ->
      main_loop (w :: rest) s
      = prepend [MainPrompt; ConsolePrint (LoopError msg)] (main_loop rest s))) /\
  (forall msg,
     In (ConsolePrint (LoopError msg)) (fst (fst (iteration w s))) ->
     typed w = Fails msg \/
     exists line e,
       typed w = Ok line /\
       snd (process_command line w s) = Raised (Exception msg) /\
       (print_error (QueryFailed e) = Some msg \/
        print_error (ListFailed e) = Some msg)).
Proof.
  split; [|split; [|split]].
  - intros line. apply process_command_result.
  - intros Acc line msg H.
    destruct (process_command_result line w s)
      as (t & s' & res & P & [-> | [-> | [-> | [-> | (e & m & -> & E)]]]]);
      rewrite P in H; cbn [snd] in H; try discriminate H.
    destruct (Acc e) as [A1 A2]. destruct E as [E | E]; congruence.
  - intros msg H. pose proof (iteration_prompt_fails w s H) as I.
    split; [exact I|]. intros A. rewrite A in I. now apply main_loop_continue.
  - intros msg I. destruct (typed w) as [line | | | msg'] eqn:T.
    + right. destruct (iteration_line_trace w s T) as (handler & E & Hh).
      rewrite E in I. cbn [In] in I. destruct I as [I | I]; [discriminate I|].
      apply in_app_or in I as [I | I].
      * apply (@emits_only_in command_event _ (process_command line w) s _
                 (only_process_command line w)) in I.
        discriminate I.
      * destruct Hh as [-> | [-> | [-> | (e & m & -> & R & P)]]];
          cbn [In] in I;
          try (repeat (destruct I as [I | I]; [discriminate I|]); now destruct I).
        destruct I as [I | []]. injection I as ->. now exists line, e.
    + exfalso. rewrite (iteration_interrupted w s T) in I.
      destruct (confirm w) as [[] | | | m]; cbn [prepend fst app In] in I;
        repeat (destruct I as [I | I]; [discriminate I|]); destruct I.
    + exfalso. rewrite (iteration_prompt_cancelled w s T) in I.
      cbn [fst In] in I. destruct I as [I | []]. discriminate I.
    + left. rewrite (iteration_prompt_fails w s T) in I. cbn [fst In] in I.
      destruct I as [I | [I | []]]; [discriminate I|]. now injection I as ->.
Qed.

Lemma loop_event_not_connect (active : bool) (e : event) :
  loop_event active e = true -> is_connect e = false.
Proof. destruct e as [[]| | | | | |]; cbn; congruence. Qed.

(** X12: whenever the status panel is printed the session is shown as
    active, never as not initialised: it can only be asked for in the
    loop, which starts after the agent has connected.  The agent is
    connected at most once per process, and exactly once when a non-empty
    key is present. *)
Theorem status_panel_truthful (env : environment) (script : list turn) :
  (forall active,
     In (ConsolePrint (StatusPanel active)) (fst (main env script)) ->
     active = true) /\
  count is_connect (fst (main env script))
  = if match api_key env with Some key => truthy key | None => false end
    then 1 else 0.
Proof.
  destruct (match api_key env with Some key => truthy key | None => false end)
    eqn:K.
  2: { rewrite (main_missing_key env script K). cbn [fst]. split; [|reflexivity].
       intros active I. cbn [In] in I.
       repeat (destruct I as [I | I]; [discriminate I|]). destruct I. }
  destruct (api_key env) as [key|] eqn:Hk; [|discriminate].
  destruct (connect env) as [[] | | | msg] eqn:Hc.
  - pose proof (main_disconnects env script Hk K Hc) as M.
    pose proof (only_main_loop script started) as O.
    pose proof (fun e => @emits_only_in loop_event _ (main_loop script)
                           started e (only_main_loop script)) as In_loop.
    pose proof (@emits_only_count loop_event is_connect _ (main_loop script)
                  started loop_event_not_connect (only_main_loop script))
      as Cn.
    destruct (main_loop script started) as [[t s'] r]. cbn [fst] in *.
    assert (E : exists tail,
               fst (main env script) = startup_trace ++ t ++ tail /\
               count is_connect tail = 0 /\
               forall active, ~ In (ConsolePrint (StatusPanel active)) tail).
    { destruct r as [[] | e |].
      - destruct M as [-> _]. eexists. split; [reflexivity|].
        split; [now destruct (disconnect env) as [[] | | |]|].
        intros active I. destruct (disconnect env) as [[] | | |];
          cbn [app after_disconnect In] in I;
          repeat (destruct I as [I | I]; [discriminate I|]); destruct I.
      - destruct M as [-> _]. eexists. split; [reflexivity|].
        split; [now destruct (disconnect env) as [[] | | |]|].
        intros active I. destruct (disconnect env) as [[] | | |];
          cbn [app after_disconnect In] in I;
          repeat (destruct I as [I | I]; [discriminate I|]); destruct I.
      - rewrite M. cbn [fst]. exists []. rewrite app_nil_r.
        split; [reflexivity|]. split; [reflexivity|]. now intros active []. }
    destruct E as (tail & -> & Ct & St). split.
    + intros active I. apply in_app_or in I as [I | I].
      * cbn [startup_trace In] in I.
        repeat (destruct I as [I | I]; [discriminate I|]). destruct I.
      * apply in_app_or in I as [I | I]; [|now apply St in I].
        apply In_loop in I. destruct active; [reflexivity|].
        cbn in I. discriminate I.
    + now rewrite !count_app, Cn, Ct.
  - rewrite (@main_connect_interrupted env script key Hk K (or_introl Hc)).
    cbn [fst].
    split; [|reflexivity]. intros active I. cbn [In] in I.
    repeat (destruct I as [I | I]; [discriminate I|]). destruct I.
  - rewrite (@main_connect_interrupted env script key Hk K (or_intror Hc)).
    cbn [fst].
    split; [|reflexivity]. intros active I. cbn [In] in I.
    repeat (destruct I as [I | I]; [discriminate I|]). destruct I.
  - rewrite (main_connect_fails env script Hk K Hc). cbn [fst].
    split; [|reflexivity]. intros active I. cbn [In] in I.
    repeat (destruct I as [I | I]; [discriminate I|]). destruct I.
Qed.

(** ** The debug flag along a session *)

Lemma process_command_state (user_input : pystr) (w : turn) (s : cli) :
  snd (fst (process_command user_input w s))
  = if eqb (strip user_input) (lit "/debug") then toggled s else s.
Proof.
  pose proof (process_command_cases user_input w s) as C.
  pose proof (dispatch_debug (strip user_input)) as D.
  destruct (eqb (strip user_input) (lit "/debug")) eqn:E.
  - apply eqb_eq in E. apply D in E. rewrite E in C.
    destruct C as (t & C & _). now rewrite C.
  - apply eqb_neq in E.
    destruct (Spec.dispatch (strip user_input)) as [|[]|q];
      try (now rewrite C);
      try (destruct C as (t & res & C & _); now rewrite C).
    elim E. now apply D.
Qed.

Lemma iteration_state (w : turn) (s : cli) :
  snd (fst (iteration w s)) = if is_debug_turn w then toggled s else s.
Proof.
  unfold is_debug_turn. destruct (typed w) as [line | | | msg] eqn:T.
  - rewrite <- (process_command_state line w s).
    rewrite (iteration_line_run w s T).
    destruct (process_command line w s) as [[t s'] [b | [m | | | code] |]];
      try reflexivity.
    rewrite confirm_exit_run.
    now destruct (confirm w) as [[] | | |].
  - rewrite (iteration_interrupted w s T).
    now destruct (confirm w) as [[] | | |].
  - now rewrite (iteration_prompt_cancelled w s T).
  - now rewrite (iteration_prompt_fails w s T).
Qed.

(** X14: as long as the loop runs, the debug flag is the one the session
    started with, flipped once for every /debug command read so far; the
    other two fields of the object stay as they were. *)
Theorem debug_flag_parity (script : list turn) :
  forall s t s',
    main_loop script s = (t, s', Pending) ->
    show_react_steps s'
    = xorb (show_react_steps s) (Nat.odd (debug_commands script)) /\
    agent s' = agent s /\ session_active s' = session_active s.
Proof.
  induction script as [|w rest IH]; intros s t s' H.
  - cbn in H. injection H as <- <-. cbn. now rewrite xorb_false_r.
  - cbn [main_loop] in H. unfold bind in H.
    pose proof (iteration_state w s) as S.
    pose proof (keeps_iteration w s) as K.
    destruct (iteration w s) as [[t1 s1] [[] | e |]]; try discriminate H;
      [| now destruct K as (_ & _ & _ & K)].
    destruct (main_loop rest s1) as [[t2 s2] r2] eqn:M.
    injection H as <- <- ->. cbn [fst snd] in S.
    destruct (IH _ _ _ M) as (F & A & B).
    unfold debug_commands in *. cbn [filter].
    destruct (is_debug_turn w); subst s1.
    + cbn [List.length]. rewrite Nat.odd_succ, <- Nat.negb_odd, F.
      cbn [toggled show_react_steps agent session_active] in *.
      repeat split; auto.
      now destruct (show_react_steps s),
        (Nat.odd (List.length (filter is_debug_turn rest))).
    + auto.
Qed.

End Console.

(** * The statements on concrete sessions

    The console is [Demo.console], which refuses the closing tag
    [[/INST]]. *)

(** C1, as stated, fails: a Text block carried by a message that is not an
    assistant message is part of "every Text block across all Messages",
    yet its text is not rendered; the notice for an empty answer is. *)
Lemma text_of_other_message_not_rendered :
  Spec.all_text (stream Demo.echoed) = lit "x" /\
  answers (fst (fst (query_agent Demo.console (lit "q") Demo.echoed
                       (Demo.connected false))))
  = [ConsolePrint NoTextNotice] /\
  answers (fst (fst (query_agent Demo.console (lit "q") Demo.echoed
                       (Demo.connected false))))
  <> [answer_event (Spec.all_text (stream Demo.echoed))].
Proof. split; [reflexivity | split; [reflexivity | discriminate]]. Qed.

Lemma query_agent_final_answer_witness :
  query_outcome Demo.answered = Ok tt /\ ending Demo.answered = Ok tt /\
  accepts Demo.console
    (stream_trace (Demo.connected true) (stream Demo.answered)) = true /\
  answers (fst (fst (query_agent Demo.console (lit "q") Demo.answered
                       (Demo.connected true))))
  = [ConsolePrint (AnswerPanel (lit "AB"))].
Proof.
  assert (A : accepts Demo.console
                (stream_trace (Demo.connected true) (stream Demo.answered))
              = true) by (vm_compute; reflexivity).
  split; [reflexivity | split; [reflexivity | split; [exact A|]]].
  exact (proj1 (proj1 (@query_agent_final_answer Demo.console
                         (lit "q") Demo.answered (Demo.connected true))
                  eq_refl eq_refl A)).
Defined.

Lemma tool_use_count_of_query_witness :
  accepts Demo.console
    (stream_trace (Demo.connected true) (stream Demo.answered)) = true /\
  query_outcome Demo.answered = Ok tt /\ ending Demo.answered = Ok tt /\
  exists t text,
    query_agent_body Demo.console (lit "q") Demo.answered (Demo.connected true) =
    (t, Demo.connected true,
     Returned {| response_text := text; tool_use_count := 1 |}).
Proof.
  assert (A : accepts Demo.console
                (stream_trace (Demo.connected true) (stream Demo.answered))
              = true) by (vm_compute; reflexivity).
  split; [exact A | split; [reflexivity | split; [reflexivity |]]].
  pose proof (@tool_use_count_of_query Demo.console
                (lit "q") Demo.answered (Demo.connected true))
    as (_ & _ & _ & _ & H & _).
  exact (proj2 (H A) eq_refl eq_refl).
Defined.

Lemma result_preview_length_witness :
  let listing := [AssistantMessage
                    [TextBlock (lit "A");
                     ToolResultBlock (lit "drwxr-xr-x [/INST] reports");
                     TextBlock (lit "B")]] in
  accepts Demo.console
    (stream_trace (Demo.connected true) [AssistantMessage Demo.blocks]) = true /\
  answers (fst (fst (query_agent Demo.console (lit "q")
                       (completed [AssistantMessage Demo.blocks])
                       (Demo.connected true))))
  = [ConsolePrint (AnswerPanel (lit "AB"))] /\
  accepts Demo.console (stream_trace (Demo.connected true) listing) = false /\
  answers (fst (fst (query_agent Demo.console (lit "q") (completed listing)
                       (Demo.connected true)))) = [].
Proof.
  cbv zeta.
  assert (A : accepts Demo.console
                (stream_trace (Demo.connected true)
                   [AssistantMessage Demo.blocks]) = true)
    by (vm_compute; reflexivity).
  assert (R : accepts Demo.console
                (stream_trace (Demo.connected true)
                   [AssistantMessage
                      [TextBlock (lit "A");
                       ToolResultBlock (lit "drwxr-xr-x [/INST] reports");
                       TextBlock (lit "B")]]) = false)
    by (vm_compute; reflexivity).
  pose proof (@result_preview_length Demo.console [] fresh_locals true true
                (lit "q") [AssistantMessage Demo.blocks] (Demo.connected true))
    as (_ & _ & _ & _ & H & _).
  pose proof (@result_preview_length Demo.console [] fresh_locals true true
                (lit "q")
                [AssistantMessage
                   [TextBlock (lit "A");
                    ToolResultBlock (lit "drwxr-xr-x [/INST] reports");
                    TextBlock (lit "B")]] (Demo.connected true))
    as (_ & _ & _ & _ & _ & H').
  split; [exact A | split; [exact (H A) | split; [exact R | exact (H' R)]]].
Defined.

(** A query failing with a description that holds a closing tag: the failure
    line is refused, then the error line of the loop; the second line of
    the session is never read and the process exits with status 1. *)
Lemma query_failure_recovery_witness :
  let w := Demo.says "hello" Demo.refused in
  let session := [w; Demo.says "/status" Demo.answered] in
  query_outcome Demo.refused = Fails (lit "unexpected token [/INST]") /\
  typed w = Ok (lit "hello") /\
  Spec.dispatch (strip (lit "hello")) = Spec.FreeTextQuery (lit "hello") /\
  snd (failure_run Demo.console (lit "unexpected token [/INST]"))
  = Raised (Exception Demo.unmatched) /\
  print_error Demo.console (LoopError Demo.unmatched) = Some Demo.unmatched /\
  main Demo.console Demo.ready session
  = ([ConsolePrint Welcome; AgentConnect; ConsolePrint InitOkPanel;
      ConsolePrint StartBanner; MainPrompt; ConsolePrint Processing;
      AgentQuery (EnhancedPrompt (lit "hello"));
      ConsolePrint (QueryFailed (lit "unexpected token [/INST]"));
      ConsolePrint (LoopError Demo.unmatched);
      ConsolePrint Disconnecting; AgentDisconnect;
      ConsolePrint DisconnectedNotice],
     Exit 1%Z).
Proof.
  cbv zeta.
  assert (F : snd (failure_run Demo.console (lit "unexpected token [/INST]"))
              = Raised (Exception Demo.unmatched))
    by (vm_compute; reflexivity).
  assert (L : print_error Demo.console (LoopError Demo.unmatched)
              = Some Demo.unmatched)
    by (vm_compute; reflexivity).
  do 3 (split; [reflexivity|]). split; [exact F | split; [exact L|]].
  pose proof (@query_failure_recovery Demo.console (lit "hello") Demo.refused
                started (lit "unexpected token [/INST]") (or_introl eq_refl))
    as (_ & _ & _ & H).
  destruct (H (Demo.says "hello" Demo.refused) (lit "hello")
              [Demo.says "/status" Demo.answered] eq_refl eq_refl eq_refl)
    as (_ & H').
  destruct (H' Demo.unmatched F) as (_ & H'').
  destruct (H'' Demo.unmatched L) as (_ & M).
  exact (M Demo.ready (lit "sk-test") eq_refl eq_refl eq_refl eq_refl eq_refl).
Defined.

Lemma command_dispatch_witness :
  strip (lit "  /helpme ") = lit "/helpme" /\
  Spec.dispatch (strip (lit "  /helpme ")) = Spec.FreeTextQuery (lit "/helpme") /\
  exists t r,
    process_command Demo.console (lit "  /helpme ") (Demo.says "" Demo.answered)
      (Demo.connected false)
    = (query_start (strip (lit "  /helpme ")) ++ t, Demo.connected false, r).
Proof.
  split; [reflexivity | split; [reflexivity |]].
  exact (proj1 (proj2 (proj2 (proj2
           (@command_dispatch Demo.console (lit "  /helpme ")
              (Demo.says "" Demo.answered) (Demo.connected false)))))
           (lit "/helpme") eq_refl).
Defined.

Lemma debug_toggle_involutive_witness :
  strip (lit "/debug") = lit "/debug" /\ strip (lit " /debug  ") = lit "/debug" /\
  exists t1 s1 t2,
    process_command Demo.console (lit "/debug") (Demo.says "" Demo.answered)
      (Demo.connected false) = (t1, s1, Returned true) /\
    show_react_steps s1 = negb (show_react_steps (Demo.connected false)) /\
    process_command Demo.console (lit " /debug  ") (Demo.says "" Demo.answered) s1
    = (t2, Demo.connected false, Returned true).
Proof.
  split; [reflexivity | split; [reflexivity |]].
  exact (@debug_toggle_involutive Demo.console (lit "/debug") (lit " /debug  ")
           (Demo.says "" Demo.answered) (Demo.says "" Demo.answered)
           (Demo.connected false) eq_refl eq_refl).
Defined.

Lemma exit_status_witness :
  api_key Demo.ready = Some (lit "sk-test") /\
  truthy (lit "sk-test") = true /\
  connect Demo.ready = Ok tt /\ disconnect Demo.ready = Ok tt /\
  main_loop Demo.console [Demo.says "/status" Demo.answered] started
  = ([MainPrompt; ConsolePrint (StatusPanel true)], started, Pending) /\
  Spec.dispatch (strip (lit "/quit")) = Spec.Local Spec.Quit /\
  snd (main Demo.console Demo.ready
         ([Demo.says "/status" Demo.answered]
            ++ Demo.says "/quit" Demo.answered :: []))
  = Exit 0%Z.
Proof.
  repeat (split; [reflexivity|]).
  exact (f_equal snd
           (proj2 (proj2 (@exit_status Demo.console Demo.ready
                            ([Demo.says "/status" Demo.answered]
                               ++ Demo.says "/quit" Demo.answered :: [])))
              (lit "sk-test") [Demo.says "/status" Demo.answered]
              (Demo.says "/quit" Demo.answered) [] (lit "/quit")
              [MainPrompt; ConsolePrint (StatusPanel true)] started
              eq_refl eq_refl eq_refl eq_refl eq_refl eq_refl eq_refl eq_refl)).
Defined.

(** A question typed after the runner cancelled the task: no
    confirmation prompt, the rest of the session is never read, the agent
    is disconnected once and the process ends interrupted; and on
    [KeyboardInterrupt] in the prompt, answered n. *)
Lemma interrupt_and_disconnect_witness :
  let w := Demo.says "hello" Demo.cancelled in
  let session := [w; Demo.says "/status" Demo.answered] in
  typed w = Ok (lit "hello") /\
  Spec.dispatch (strip (lit "hello")) = Spec.FreeTextQuery (lit "hello") /\
  query_outcome (reply w) = Cancelled /\
  main Demo.console Demo.ready session
  = ([ConsolePrint Welcome; AgentConnect; ConsolePrint InitOkPanel;
      ConsolePrint StartBanner; MainPrompt; ConsolePrint Processing;
      AgentQuery (EnhancedPrompt (lit "hello"));
      ConsolePrint Disconnecting; AgentDisconnect;
      ConsolePrint DisconnectedNotice],
     Interrupted) /\
  count is_confirm_prompt (fst (main Demo.console Demo.ready session)) = 0 /\
  count is_disconnect (fst (main Demo.console Demo.ready session)) = 1.
Proof.
  cbv zeta. do 3 (split; [reflexivity|]).
  pose proof (@interrupt_and_disconnect Demo.console Demo.ready
                [Demo.says "hello" Demo.cancelled;
                 Demo.says "/status" Demo.answered]
                (Demo.says "hello" Demo.cancelled)
                [Demo.says "/status" Demo.answered] started)
    as (_ & C & D).
  destruct (C (lit "hello") (lit "hello") eq_refl eq_refl eq_refl)
    as (_ & _ & _ & M).
  pose proof (M (lit "sk-test") eq_refl eq_refl eq_refl eq_refl eq_refl) as E.
  split; [exact E|]. split; [now rewrite E|].
  assert (R : snd (main Demo.console Demo.ready
                     [Demo.says "hello" Demo.cancelled;
                      Demo.says "/status" Demo.answered]) <> Running)
    by (rewrite E; discriminate).
  exact (proj1 (proj2 (D (lit "sk-test") eq_refl eq_refl eq_refl) R)).
Defined.

Lemma document_list_witness :
  (1024 <= 1280 < 1024 * 1024)%N /\
  format_size 1280 = one_decimal (tenths 1280 1024) ++ lit " KB" /\
  nearest (10 * 1280) 1024 (tenths 1280 1024) /\
  format_size 1280 = lit "1.2 KB".
Proof.
  assert (R : (1024 <= 1280 < 1024 * 1024)%N)
    by (split; [discriminate | reflexivity]).
  destruct (proj1 (proj2 (@document_list Demo.console 1280 three_documents
                            started)) R)
    as [F Nr].
  split; [exact R|]. split; [exact F|].
  split; [exact Nr | vm_compute; reflexivity].
Defined.

Lemma surrounding_whitespace_ignored_witness :
  blank (lit "  ") = true /\ blank [12288%N; 9%N] = true /\
  trimmed (lit "/quit") = true /\
  process_command Demo.console (lit "  " ++ lit "/quit" ++ [12288%N; 9%N])
    (Demo.says "" Demo.answered) started
  = process_command Demo.console (lit "/quit") (Demo.says "" Demo.answered) started.
Proof.
  do 3 (split; [reflexivity|]).
  exact (proj1 (proj2 (@surrounding_whitespace_ignored Demo.console
                         (lit "  ") (lit "/quit") [12288%N; 9%N]
                         (Demo.says "" Demo.answered) started
                         eq_refl eq_refl eq_refl))).
Defined.

Lemma list_documents_failure_witness :
  let gone := {| is_file := true; name := lit "b.csv";
                 stat_size := Fails (lit "No such file");
                 rel_parent := lit "." |} in
  let entries := [Demo.document "a.txt" 500; gone; Demo.document "c.pdf" 9] in
  filter listed entries = [Demo.document "a.txt" 500] ++ gone :: [Demo.document "c.pdf" 9] /\
  Forall stat_succeeds [Demo.document "a.txt" 500] /\
  list_documents Demo.console (Ok entries) started
  = ([ConsolePrint Scanning; ConsolePrint (ListFailed (lit "No such file"))],
     started, Returned tt).
Proof.
  cbv zeta. split; [reflexivity|].
  assert (P : Forall stat_succeeds [Demo.document "a.txt" 500])
    by (constructor; [now exists 500%N | constructor]).
  split; [exact P|].
  exact (proj1 (proj2 (@list_documents_failure Demo.console
                         (Ok [Demo.document "a.txt" 500;
                              {| is_file := true; name := lit "b.csv";
                                 stat_size := Fails (lit "No such file");
                                 rel_parent := lit "." |};
                              Demo.document "c.pdf" 9]) started))
           _ [Demo.document "a.txt" 500] _ [Demo.document "c.pdf" 9] _
           eq_refl eq_refl P eq_refl).
Defined.

Lemma hidden_entries_not_listed_witness :
  Forall (fun f => is_file f = false \/ startswith (name f) (lit ".") = true)
    [Demo.document ".env" 40;
     {| is_file := false; name := lit "reports"; stat_size := Ok 4096%N;
        rel_parent := lit "." |}] /\
  list_documents Demo.console
    (Ok [Demo.document ".env" 40;
         {| is_file := false; name := lit "reports"; stat_size := Ok 4096%N;
            rel_parent := lit "." |}]) started
  = ([ConsolePrint Scanning; ConsolePrint NoDocuments], started, Returned tt).
Proof.
  assert (H : Forall (fun f => is_file f = false
                               \/ startswith (name f) (lit ".") = true)
                [Demo.document ".env" 40;
                 {| is_file := false; name := lit "reports";
                    stat_size := Ok 4096%N; rel_parent := lit "." |}])
    by (constructor; [now right | constructor; [now left | constructor]]).
  split; [exact H|].
  exact (proj1 (@hidden_entries_not_listed Demo.console _ started) H).
Defined.

Lemma loop_ends_only_on_quit_witness :
  In (strip (lit " /exit")) quit_tokens /\
  typed (Demo.says " /exit" Demo.answered) = Ok (lit " /exit") /\
  main_loop Demo.console
    (Demo.says " /exit" Demo.answered
       :: [Demo.says "never read" Demo.answered]) started
  = ([MainPrompt; ConsolePrint Goodbye], started, Returned tt).
Proof.
  assert (H : In (strip (lit " /exit")) quit_tokens)
    by (right; left; reflexivity).
  split; [exact H|]. split; [reflexivity|].
  exact (proj2 (proj1 (@loop_ends_only_on_quit Demo.console
                         (lit " /exit") (Demo.says " /exit" Demo.answered)
                         [Demo.says "never read" Demo.answered] started) H)
           eq_refl).
Defined.

Lemma only_debug_changes_state_witness :
  strip (lit "what is in the folder?") <> lit "/debug" /\
  snd (fst (process_command Demo.console (lit "what is in the folder?")
              (Demo.says "" (Demo.broken (lit "boom"))) (Demo.connected true)))
  = Demo.connected true.
Proof.
  assert (N : strip (lit "what is in the folder?") <> lit "/debug")
    by discriminate.
  split; [exact N|].
  exact (proj1 (@only_debug_changes_state Demo.console
                  (lit "what is in the folder?")
                  (Demo.says "" (Demo.broken (lit "boom")))
                  (Demo.connected true)) N).
Defined.

Lemma agent_queried_once_per_question_witness :
  strip (lit " list the Excel files ") <> [] /\
  (forall c, ~ In (strip (lit " list the Excel files "), c) Spec.tokens) /\
  count is_query
    (fst (fst (process_command Demo.console (lit " list the Excel files ")
                 (Demo.says "" Demo.answered) started))) = 1.
Proof.
  assert (N : strip (lit " list the Excel files ") <> []) by discriminate.
  assert (T : forall c, ~ In (strip (lit " list the Excel files "), c) Spec.tokens).
  { intros c H. apply dispatch_local in H. discriminate H. }
  split; [exact N|]. split; [exact T|].
  exact (proj1 (proj2 (@agent_queried_once_per_question Demo.console
                         (lit " list the Excel files ")
                         (Demo.says "" Demo.answered) started) N T)).
Defined.

Lemma debug_panels_numbered_witness :
  accepts Demo.console
    (stream_trace {| agent := true; session_active := true;
                     show_react_steps := true |}
       [AssistantMessage Demo.blocks]) = true /\
  assistant_blocks [AssistantMessage Demo.blocks]
  = [TextBlock (lit "A"); ToolUseBlock (lit "x") (lit "{}")]
      ++ ToolResultBlock (repeat 121%N 300) :: [TextBlock (lit "B")] /\
  In (ConsolePrint
        (ToolResultPanel
           (tool_uses [TextBlock (lit "A"); ToolUseBlock (lit "x") (lit "{}")])
           (result_preview (repeat 121%N 300))))
    (fst (fst (query_agent Demo.console (lit "q")
                 (completed [AssistantMessage Demo.blocks])
                 {| agent := true; session_active := true;
                    show_react_steps := true |}))).
Proof.
  assert (A : accepts Demo.console
                (stream_trace {| agent := true; session_active := true;
                                 show_react_steps := true |}
                   [AssistantMessage Demo.blocks]) = true)
    by (vm_compute; reflexivity).
  split; [exact A|]. split; [reflexivity|].
  pose proof (@debug_panels_numbered Demo.console
                (lit "q") [AssistantMessage Demo.blocks] true true)
    as (_ & _ & H).
  exact (proj1 (proj2 (H A))
           [TextBlock (lit "A"); ToolUseBlock (lit "x") (lit "{}")]
           (repeat 121%N 300) [TextBlock (lit "B")] eq_refl).
Defined.

Lemma format_size_shape_witness :
  (1048525 <= 1048575 < 1024 * 1024)%N /\
  format_size 1048575 = lit "1024.0 KB".
Proof.
  assert (R : (1048525 <= 1048575 < 1024 * 1024)%N)
    by (split; [discriminate | reflexivity]).
  split; [exact R|].
  exact (proj1 (proj2 (proj2 (format_size_shape 1048575))) R).
Defined.


Lemma exit_status_values_witness :
  (forall key, api_key {| api_key := Some []; connect := Ok tt;
                          disconnect := Ok tt |} = Some key ->
               truthy key = false) /\
  count is_disconnect
    (fst (main Demo.console
            {| api_key := Some []; connect := Ok tt; disconnect := Ok tt |}
            [Demo.says "/quit" Demo.answered])) = 0 /\
  count is_prompt
    (fst (main Demo.console
            {| api_key := Some []; connect := Ok tt; disconnect := Ok tt |}
            [Demo.says "/quit" Demo.answered])) = 0.
Proof.
  assert (H : forall key,
             api_key {| api_key := Some []; connect := Ok tt;
                        disconnect := Ok tt |} = Some key ->
             truthy key = false)
    by (intros key [= <-]; reflexivity).
  split; [exact H|].
  exact (proj2 (@exit_status_values Demo.console
                  {| api_key := Some []; connect := Ok tt; disconnect := Ok tt |}
                  [Demo.says "/quit" Demo.answered]) (or_introl H)).
Defined.

Lemma interrupt_during_query_witness :
  let w := {| typed := Ok (lit "summarise the reports");
              reply := streamed [AssistantMessage Demo.blocks] Cancelled;
              rglob := Ok []; confirm := Ok No |} in
  typed w = Ok (lit "summarise the reports") /\
  Spec.dispatch (strip (lit "summarise the reports"))
  = Spec.FreeTextQuery (lit "summarise the reports") /\
  (query_outcome (reply w) = Ok tt /\
   accepts Demo.console
     (stream_trace (Demo.connected true) (stream (reply w))) = true /\
   ending (reply w) = Cancelled) /\
  snd (iteration Demo.console w (Demo.connected true)) = Raised CancelledError.
Proof.
  cbv zeta.
  assert (A : accepts Demo.console
                (stream_trace (Demo.connected true)
                   [AssistantMessage Demo.blocks]) = true)
    by (vm_compute; reflexivity).
  split; [reflexivity|]. split; [reflexivity|].
  split; [split; [reflexivity | split; [exact A | reflexivity]]|].
  pose proof (@interrupt_during_query Demo.console
                {| typed := Ok (lit "summarise the reports");
                   reply := streamed [AssistantMessage Demo.blocks] Cancelled;
                   rglob := Ok []; confirm := Ok No |}
                (lit "summarise the reports")
                (lit "summarise the reports") []
                (Demo.connected true) Cancelled eq_refl eq_refl
                (or_intror (conj eq_refl (conj A eq_refl))))
    as (_ & H).
  destruct (H eq_refl) as (I & _). now rewrite I.
Defined.

Lemma exceptions_stay_in_commands_witness :
  let w := {| typed := Fails (lit "EOF when reading a line");
              reply := Demo.answered; rglob := Ok []; confirm := Ok No |} in
  typed w = Fails (lit "EOF when reading a line") /\
  print_error Demo.console (LoopError (lit "EOF when reading a line")) = None /\
  main_loop Demo.console (w :: [w]) started
  = prepend [MainPrompt; ConsolePrint (LoopError (lit "EOF when reading a line"))]
      (main_loop Demo.console [w] started).
Proof.
  cbv zeta.
  assert (A : print_error Demo.console
                (LoopError (lit "EOF when reading a line")) = None)
    by (vm_compute; reflexivity).
  split; [reflexivity|]. split; [exact A|].
  pose proof (@exceptions_stay_in_commands Demo.console
                {| typed := Fails (lit "EOF when reading a line");
                   reply := Demo.answered; rglob := Ok [];
                   confirm := Ok No |}
                [{| typed := Fails (lit "EOF when reading a line");
                    reply := Demo.answered; rglob := Ok [];
                    confirm := Ok No |}] started)
    as (_ & _ & H & _).
  exact (proj2 (H (lit "EOF when reading a line") eq_refl) A).
Defined.

Lemma status_panel_truthful_witness :
  In (ConsolePrint (StatusPanel true))
    (fst (main Demo.console Demo.ready [Demo.says "/status" Demo.answered])) /\
  true = true.
Proof.
  assert (I : In (ConsolePrint (StatusPanel true))
                (fst (main Demo.console Demo.ready
                        [Demo.says "/status" Demo.answered])))
    by (vm_compute; tauto).
  split; [exact I|].
  exact (proj1 (@status_panel_truthful Demo.console Demo.ready
                  [Demo.says "/status" Demo.answered]) true I).
Defined.

Lemma debug_flag_parity_witness :
  main_loop Demo.console
    [Demo.says "/debug" Demo.answered; Demo.says "hello" Demo.answered;
             Demo.says " /debug " Demo.answered;
             Demo.says "/debug" Demo.answered] started
  = ([MainPrompt; ConsolePrint (DebugStatus true); ConsolePrint DebugHint;
      MainPrompt; ConsolePrint Processing;
      AgentQuery (EnhancedPrompt (lit "hello"));
      ConsolePrint (ToolUsePanel 1 (lit "x") (lit "{}"));
      ConsolePrint (ToolResultPanel 1 (result_preview (repeat 121%N 300)));
      ConsolePrint (AnswerPanel (lit "AB")); ConsolePrint (ToolStats 1);
      MainPrompt; ConsolePrint (DebugStatus false);
      MainPrompt; ConsolePrint (DebugStatus true); ConsolePrint DebugHint],
     Demo.connected true, Pending) /\
  show_react_steps (Demo.connected true)
  = xorb (show_react_steps started) (Nat.odd 3).
Proof.
  assert (H : main_loop Demo.console
                [Demo.says "/debug" Demo.answered;
                 Demo.says "hello" Demo.answered;
                 Demo.says " /debug " Demo.answered;
                 Demo.says "/debug" Demo.answered] started
              = ([MainPrompt; ConsolePrint (DebugStatus true);
                  ConsolePrint DebugHint;
                  MainPrompt; ConsolePrint Processing;
                  AgentQuery (EnhancedPrompt (lit "hello"));
                  ConsolePrint (ToolUsePanel 1 (lit "x") (lit "{}"));
                  ConsolePrint
                    (ToolResultPanel 1 (result_preview (repeat 121%N 300)));
                  ConsolePrint (AnswerPanel (lit "AB"));
                  ConsolePrint (ToolStats 1);
                  MainPrompt; ConsolePrint (DebugStatus false);
                  MainPrompt; ConsolePrint (DebugStatus true);
                  ConsolePrint DebugHint],
                 Demo.connected true, Pending))
    by (vm_compute; reflexivity).
  split; [exact H|].
  exact (proj1 (@debug_flag_parity Demo.console _ _ _ _ H)).
Defined.
